(** * ESP32 smart roller blind: command interpretation and motion control

    A shallow embedding of the two shipped sketches
    ([skech_smart_roller_blind.ino] with its [config.h], and the older
    [sketch_sep7a.ino]) together with the properties of their command
    filter, direction mapping, pulse loops, calibration flow and
    persistent settings.

    Conventions of the embedding:
    - [unsigned long] and [uint32_t] are 32-bit on the ESP32: values are
      integers in [Z] and every subtraction of two readings of [millis()]
      is reduced with [u32]; [int] is 32-bit signed, conversions go
      through [s32];
    - the globals of a sketch are the fields of one [State] record that is
      threaded through the handlers;
    - [millis()] and [IrReceiver.decode()] are inputs: a handler receives
      the readings it makes from a [World] record;
    - the [while] loop of [rotateForTime] is bounded by the clock only, so
      it is embedded with fuel and returns [None] when the fuel runs out;
    - a [bool] read from the EEPROM has a value when the stored byte is
      0 or 1; for any other byte (an erased EEPROM holds [0xFF]) the
      language leaves the behaviour of the sketch open, and [setup] of
      the current sketch has no result;
    - [Serial] output is not modelled. *)

From Stdlib Require Import ZArith Bool Lia.
From stdpp Require Import base list.

#[local] Open Scope Z_scope.

(** ** Machine integers *)

Definition u32 (z : Z) : Z := z mod 2 ^ 32.

Definition s32 (z : Z) : Z :=
  let m := z mod 2 ^ 32 in
  if m <? 2 ^ 31 then m else m - 2 ^ 32.

(** ** The EEPROM: an array of bytes

    [EEPROM.put(a, v)] stores the object representation of [v] at [a]
    (the ESP32 is little-endian), [EEPROM.get(a, v)] reads it back. *)

Module EEPROM.

Abbreviation t := (list Z).

Definition size : nat := 512.

(** The [k]-th byte of the 32-bit representation of [v]. *)
Definition byte_of (k : nat) (v : Z) : Z := (u32 v / 256 ^ Z.of_nat k) mod 256.

Definition le_bytes (v : Z) : list Z :=
  [byte_of 0 v; byte_of 1 v; byte_of 2 v; byte_of 3 v].

Definition read (rom : t) (a : nat) : Z := default 0 (rom !! a).

(** [EEPROM.put(a, (int) v)] *)
Definition put_int (a : nat) (v : Z) (rom : t) : t := list_inserts a (le_bytes v) rom.

(** The four bytes at [a] read as an unsigned word. *)
Definition word_at (a : nat) (rom : t) : Z :=
  read rom a + 256 * read rom (a + 1) + 65536 * read rom (a + 2)
  + 16777216 * read rom (a + 3).

(** [int v; EEPROM.get(a, v)] *)
Definition get_int (a : nat) (rom : t) : Z := s32 (word_at a rom).

(** [EEPROM.put(a, (bool) b)] *)
Definition put_bool (a : nat) (b : bool) (rom : t) : t := <[a := if b then 1 else 0]> rom.

(** [bool b; EEPROM.get(a, b)] copies the byte at [a] into the object
    [b]. A [bool] object holds 0 or 1; for any other byte the language
    does not say what [b], [!b] or [b ? x : y] yield (compilers differ),
    so the read has a value for the bytes 0 and 1 only. *)
Definition get_bool (a : nat) (rom : t) : option bool :=
  let byte := read rom a in
  if byte =? 0 then Some false
  else if byte =? 1 then Some true
  else None.

(** A factory-fresh (erased) flash sector. *)
Definition blank : t := replicate size 255.

(** The same sector once the normal orientation has been stored:
    address 4 holds the byte 1. *)
Definition oriented : t := put_bool 4 true blank.

End EEPROM.

(** ** What the receiver hands over: [IrReceiver.decodedIRData] *)

Record IRData := mkIR {
  ir_command : Z;
  ir_address : Z;
  ir_protocol : Z
}.

(** Levels of a digital pin. *)
Definition HIGH : bool := true.
Definition LOW : bool := false.

(** Rotation sense selected by the DIR pin: [rotateForTime] and
    [smoothRotate] write [clockwise ? HIGH : LOW]. *)
Inductive Rotation := CW | CCW.

Definition rotation_of (dir : bool) : Rotation := if dir then CW else CCW.

Definition opposite (r : Rotation) : Rotation :=
  match r with CW => CCW | CCW => CW end.

(** * The current sketch: [skech_smart_roller_blind.ino] *)

Module Blind.

(** *** [config.h] *)
Definition IR_ADDRESS : Z := 0xBF00.
Definition IR_KEY_UP : Z := 0x1.
Definition IR_KEY_DOWN : Z := 0x9.
Definition IR_KEY_LEFT : Z := 0x4.
Definition IR_KEY_RIGHT : Z := 0x6.
Definition IR_KEY_SHUTDOWN : Z := 0x5.
Definition IR_KEY_SET : Z := 0xE.
Definition IR_KEY_DIRECTION : Z := 0x1A.
Definition DEFAULT_CURTAIN_TIME : Z := 5000.
Definition SIDE_KEY_TIME : Z := 1000.

(** *** Constants of the sketch *)
Definition speed : Z := 600.
Definition IR_DEBOUNCE_TIME : Z := 200.
Definition SET_MODE_DEBOUNCE_TIME : Z := 1000.
Definition INVALID_COMMAND : Z := 0xFFFFFFFF.

(** *** The globals, the three motor pins and the EEPROM *)
Record State := mkState {
  CURTAIN_TIME : Z;
  isNormalDirection : bool;
  motorRunning : bool;
  stopRequested : bool;
  isFullyRolledUp : bool;
  isFullyRolledDown : bool;
  setMode : bool;
  timingInProgress : bool;
  timingStart : Z;
  shutdownCount : Z;
  lastShutdownTime : Z;
  lastIRCommand : Z;
  lastIRTime : Z;
  stepCount : Z;        (* [static int stepCount] of [loop] *)
  enablePin : bool;     (* ENABLE_PIN, active low *)
  dirPin : bool;        (* DIR_PIN *)
  pulses : nat;         (* pulses sent on STEP_PIN so far *)
  rom : EEPROM.t
}.

Definition set_CURTAIN_TIME (v : Z) (s : State) : State :=
  let '(mkState _ b c d e f g h i j k l m n o p q r) := s in
  mkState v b c d e f g h i j k l m n o p q r.
Definition set_isNormalDirection (v : bool) (s : State) : State :=
  let '(mkState a _ c d e f g h i j k l m n o p q r) := s in
  mkState a v c d e f g h i j k l m n o p q r.
Definition set_motorRunning (v : bool) (s : State) : State :=
  let '(mkState a b _ d e f g h i j k l m n o p q r) := s in
  mkState a b v d e f g h i j k l m n o p q r.
Definition set_stopRequested (v : bool) (s : State) : State :=
  let '(mkState a b c _ e f g h i j k l m n o p q r) := s in
  mkState a b c v e f g h i j k l m n o p q r.
Definition set_isFullyRolledUp (v : bool) (s : State) : State :=
  let '(mkState a b c d _ f g h i j k l m n o p q r) := s in
  mkState a b c d v f g h i j k l m n o p q r.
Definition set_isFullyRolledDown (v : bool) (s : State) : State :=
  let '(mkState a b c d e _ g h i j k l m n o p q r) := s in
  mkState a b c d e v g h i j k l m n o p q r.
Definition set_setMode (v : bool) (s : State) : State :=
  let '(mkState a b c d e f _ h i j k l m n o p q r) := s in
  mkState a b c d e f v h i j k l m n o p q r.
Definition set_timingInProgress (v : bool) (s : State) : State :=
  let '(mkState a b c d e f g _ i j k l m n o p q r) := s in
  mkState a b c d e f g v i j k l m n o p q r.
Definition set_timingStart (v : Z) (s : State) : State :=
  let '(mkState a b c d e f g h _ j k l m n o p q r) := s in
  mkState a b c d e f g h v j k l m n o p q r.
Definition set_shutdownCount (v : Z) (s : State) : State :=
  let '(mkState a b c d e f g h i _ k l m n o p q r) := s in
  mkState a b c d e f g h i v k l m n o p q r.
Definition set_lastShutdownTime (v : Z) (s : State) : State :=
  let '(mkState a b c d e f g h i j _ l m n o p q r) := s in
  mkState a b c d e f g h i j v l m n o p q r.
Definition set_lastIRCommand (v : Z) (s : State) : State :=
  let '(mkState a b c d e f g h i j k _ m n o p q r) := s in
  mkState a b c d e f g h i j k v m n o p q r.
Definition set_lastIRTime (v : Z) (s : State) : State :=
  let '(mkState a b c d e f g h i j k l _ n o p q r) := s in
  mkState a b c d e f g h i j k l v n o p q r.
Definition set_stepCount (v : Z) (s : State) : State :=
  let '(mkState a b c d e f g h i j k l m _ o p q r) := s in
  mkState a b c d e f g h i j k l m v o p q r.
Definition set_enablePin (v : bool) (s : State) : State :=
  let '(mkState a b c d e f g h i j k l m n _ p q r) := s in
  mkState a b c d e f g h i j k l m n v p q r.
Definition set_dirPin (v : bool) (s : State) : State :=
  let '(mkState a b c d e f g h i j k l m n o _ q r) := s in
  mkState a b c d e f g h i j k l m n o v q r.
Definition set_pulses (v : nat) (s : State) : State :=
  let '(mkState a b c d e f g h i j k l m n o p _ r) := s in
  mkState a b c d e f g h i j k l m n o p v r.
Definition set_rom (v : EEPROM.t) (s : State) : State :=
  let '(mkState a b c d e f g h i j k l m n o p q _) := s in
  mkState a b c d e f g h i j k l m n o p q v.

(** *** Persistent settings *)

(** [saveCurtainTime] *)
Definition saveCurtainTime (s : State) : State :=
  set_rom (EEPROM.put_int 0 (CURTAIN_TIME s) (rom s)) s.

(** The range test of [loadCurtainTime]: [savedTime > 0 && savedTime < 60000]. *)
Definition plausible (savedTime : Z) : bool :=
  (0 <? savedTime) && (savedTime <? 60000).

(** [loadCurtainTime] *)
Definition loadCurtainTime (s : State) : State :=
  let savedTime := EEPROM.get_int 0 (rom s) in
  if plausible savedTime then set_CURTAIN_TIME savedTime s
  else set_CURTAIN_TIME DEFAULT_CURTAIN_TIME s.

(** [clearCurtainTime] *)
Definition clearCurtainTime (s : State) : State :=
  set_CURTAIN_TIME DEFAULT_CURTAIN_TIME (set_rom (EEPROM.put_int 0 0 (rom s)) s).

(** [saveDirectionSetting] *)
Definition saveDirectionSetting (s : State) : State :=
  set_rom (EEPROM.put_bool 4 (isNormalDirection s) (rom s)) s.

(** [loadDirectionSetting]: [isNormalDirection = savedDirection], with
    no result when the stored byte is not that of a [bool]. *)
Definition loadDirectionSetting (s : State) : option State :=
  match EEPROM.get_bool 4 (rom s) with
  | Some savedDirection => Some (set_isNormalDirection savedDirection s)
  | None => None
  end.

(** The globals as initialised, and [setup]. *)
Definition power_on (e : EEPROM.t) : State :=
  {| CURTAIN_TIME := DEFAULT_CURTAIN_TIME; isNormalDirection := true;
     motorRunning := false; stopRequested := false;
     isFullyRolledUp := false; isFullyRolledDown := false;
     setMode := false; timingInProgress := false; timingStart := 0;
     shutdownCount := 0; lastShutdownTime := 0;
     lastIRCommand := 0; lastIRTime := 0; stepCount := 0;
     enablePin := LOW; dirPin := LOW; pulses := 0%nat; rom := e |}.

Definition setup (e : EEPROM.t) : option State :=
  let s := set_enablePin HIGH (set_dirPin LOW (power_on e)) in
  let s := loadCurtainTime s in
  match loadDirectionSetting s with
  | None => None
  | Some s => Some (set_isFullyRolledDown false (set_isFullyRolledUp false s))
  end.

(** *** Readings of the outside world made during one handler call *)
Record World := mkWorld {
  now : Z;                           (* [millis()] read by the handler itself *)
  rot_start : Z;                     (* [millis()] on entry of [rotateForTime] *)
  rot_millis : nat -> Z;             (* [millis()] at the loop test after [k] steps *)
  rot_decode : nat -> option IRData; (* [IrReceiver.decode()] at the poll after [k] steps *)
  fuel : nat                         (* bound on the iterations of the pulse loop *)
}.

(** *** Motion generator *)

(** The test of the cancellation polls: a stop key with a real sender. *)
Definition valid_stop (d : IRData) : bool :=
  (ir_command d =? IR_KEY_SHUTDOWN) && negb (ir_address d =? 0)
  && negb (ir_protocol d =? 0).

(** [unsigned long stepDelay = 1000000 / speed], in microseconds. *)
Definition stepDelay : Z := 1000000 ÷ speed.

(** [stepCount % 100 == 0] on the [int] counter of [rotateForTime]. *)
Definition poll_due (k : nat) : bool := Z.rem (s32 (Z.of_nat k)) 100 =? 0.

Section PulseLoop.
Variable millis : nat -> Z.
Variable decode : nat -> option IRData.
Variables startTime duration : Z.

(** [millis() - startTime < duration], the operands being
    [unsigned long] (the [int] duration is converted). *)
Definition time_left (k : nat) : bool :=
  u32 (millis k - startTime) <? u32 duration.

(** The [while] loop of [rotateForTime], entered with [k] steps done
    and the flag [stop]; the result is the number of steps done and
    the flag when the loop is left. *)
Fixpoint rotate_loop (fuel : nat) (k : nat) (stop : bool) : option (nat * bool) :=
  if time_left k && negb stop then
    match fuel with
    | O => None
    | S fuel' =>
        let k' := S k in
        if poll_due k' then
          match decode k' with
          | Some d =>
              if valid_stop d then Some (k', true)
              else rotate_loop fuel' k' stop
          | None => rotate_loop fuel' k' stop
          end
        else rotate_loop fuel' k' stop
    end
  else Some (k, stop).
End PulseLoop.

(** [rotateForTime(duration, clockwise)] *)
Definition rotateForTime (w : World) (duration : Z) (clockwise : bool)
    (s : State) : option State :=
  let s := set_enablePin LOW s in
  let s := set_dirPin (if clockwise then HIGH else LOW) s in
  match rotate_loop (rot_millis w) (rot_decode w) (rot_start w) duration
          (fuel w) 0 (stopRequested s) with
  | None => None
  | Some (k, stop) =>
      let s := set_pulses (pulses s + k)%nat s in
      let s := set_stopRequested stop s in
      Some (set_enablePin HIGH s)
  end.

(** *** Direction resolver: the [bool] each handler computes from
    [isNormalDirection] and passes on as [clockwise]. *)
Definition rollUpDirection (isNormal : bool) : bool :=
  if isNormal then true else false.
Definition layDownDirection (isNormal : bool) : bool :=
  if isNormal then false else true.
Definition leftDirection (isNormal : bool) : bool :=
  if isNormal then true else false.
Definition rightDirection (isNormal : bool) : bool :=
  if isNormal then false else true.
Definition setDirection (isNormal : bool) : bool :=
  if isNormal then false else true.

(** [stopMotor] *)
Definition stopMotor (s : State) : State :=
  set_motorRunning false (set_enablePin HIGH s).

(** [rollUpCurtain] *)
Definition rollUpCurtain (w : World) (s : State) : option State :=
  let s := set_motorRunning true s in
  let s := set_stopRequested false s in
  match rotateForTime w (CURTAIN_TIME s) (rollUpDirection (isNormalDirection s)) s with
  | None => None
  | Some s =>
      let s := set_motorRunning false s in
      let s :=
        if negb (stopRequested s)
        then set_isFullyRolledDown false (set_isFullyRolledUp true s)
        else s in
      Some (set_stopRequested false s)
  end.

(** [layDownCurtain] *)
Definition layDownCurtain (w : World) (s : State) : option State :=
  let s := set_motorRunning true s in
  let s := set_stopRequested false s in
  match rotateForTime w (CURTAIN_TIME s) (layDownDirection (isNormalDirection s)) s with
  | None => None
  | Some s =>
      let s := set_motorRunning false s in
      let s :=
        if negb (stopRequested s)
        then set_isFullyRolledUp false (set_isFullyRolledDown true s)
        else s in
      Some (set_stopRequested false s)
  end.

(** [handleSetKey]; [millis] is the reading of [millis()] it makes. *)
Definition handleSetKey (millis : Z) (s : State) : State :=
  if negb (setMode s) then
    let s := set_setMode true s in
    let s := set_timingInProgress true s in
    let s := set_timingStart millis s in
    let s := set_enablePin LOW s in
    let s := set_dirPin (if setDirection (isNormalDirection s) then HIGH else LOW) s in
    set_motorRunning true s
  else
    let duration := u32 (millis - timingStart s) in
    let s := set_enablePin HIGH s in
    let s := set_motorRunning false s in
    let s := set_timingInProgress false s in
    let s := set_CURTAIN_TIME (s32 duration) s in
    let s := saveCurtainTime s in
    let s := set_isFullyRolledDown true s in
    let s := set_isFullyRolledUp false s in
    set_setMode false s.

(** [handleShutdownKey]; [currentTime] is its reading of [millis()]. *)
Definition handleShutdownKey (currentTime : Z) (s : State) : State :=
  if setMode s then
    let s := set_enablePin HIGH s in
    let s := set_setMode false s in
    let s := set_timingInProgress false s in
    set_motorRunning false s
  else
    let s :=
      if u32 (currentTime - lastShutdownTime s) <? 2000
      then set_shutdownCount (shutdownCount s + 1) s
      else set_shutdownCount 1 s in
    let s := set_lastShutdownTime currentTime s in
    if 3 <=? shutdownCount s then
      let s := clearCurtainTime s in
      set_shutdownCount 0 s
    else
      let s := set_stopRequested true s in
      stopMotor s.

(** [handleDirectionKey] *)
Definition handleDirectionKey (s : State) : State :=
  let s :=
    if isNormalDirection s then set_isNormalDirection false s
    else set_isNormalDirection true s in
  saveDirectionSetting s.

(** [handleIRCommand(command)] *)
Definition handleIRCommand (w : World) (command : Z) (s : State) : option State :=
  if command =? IR_KEY_UP then
    if isFullyRolledUp s then Some s
    else
      let s := set_isFullyRolledDown false s in
      let s := set_isFullyRolledUp false s in
      rollUpCurtain w s
  else if command =? IR_KEY_DOWN then
    if isFullyRolledDown s then Some s
    else
      let s := set_isFullyRolledDown false s in
      let s := set_isFullyRolledUp false s in
      layDownCurtain w s
  else if command =? IR_KEY_LEFT then
    let s := set_isFullyRolledUp false s in
    let s := set_isFullyRolledDown false s in
    rotateForTime w SIDE_KEY_TIME (leftDirection (isNormalDirection s)) s
  else if command =? IR_KEY_RIGHT then
    let s := set_isFullyRolledUp false s in
    let s := set_isFullyRolledDown false s in
    rotateForTime w SIDE_KEY_TIME (rightDirection (isNormalDirection s)) s
  else if command =? IR_KEY_SET then Some (handleSetKey (now w) s)
  else if command =? IR_KEY_SHUTDOWN then Some (handleShutdownKey (now w) s)
  else if command =? IR_KEY_DIRECTION then Some (handleDirectionKey s)
  else Some s.

(** *** The command filter of [loop] *)

(** [command != lastIRCommand || (currentTime - lastIRTime) > window] *)
Definition outside_window (window : Z) (s : State) (command currentTime : Z) : bool :=
  negb (command =? lastIRCommand s) || (window <? u32 (currentTime - lastIRTime s)).

(** The decision taken in set mode for a command of the own remote. *)
Definition accepts_in_set_mode (s : State) (d : IRData) (currentTime : Z) : bool :=
  ((ir_command d =? IR_KEY_SET) || (ir_command d =? IR_KEY_SHUTDOWN))
  && negb (ir_command d =? INVALID_COMMAND)
  && negb (ir_address d =? 0) && negb (ir_protocol d =? 0)
  && outside_window SET_MODE_DEBOUNCE_TIME s (ir_command d) currentTime.

(** The decision taken outside set mode for a command of the own remote. *)
Definition accepts_in_normal_mode (s : State) (d : IRData) (currentTime : Z) : bool :=
  negb (ir_command d =? INVALID_COMMAND)
  && ((motorRunning s && (ir_command d =? IR_KEY_SHUTDOWN)
       && negb (ir_address d =? 0) && negb (ir_protocol d =? 0))
      || outside_window IR_DEBOUNCE_TIME s (ir_command d) currentTime).

Definition accepts (s : State) (d : IRData) (currentTime : Z) : bool :=
  if setMode s then accepts_in_set_mode s d currentTime
  else accepts_in_normal_mode s d currentTime.

(** [lastIRCommand = command; lastIRTime = currentTime;] *)
Definition remember (command currentTime : Z) (s : State) : State :=
  set_lastIRTime currentTime (set_lastIRCommand command s).

(** *** One pass through [loop] *)

Record LoopInput := mkLoopInput {
  decoded : option IRData;      (* [IrReceiver.decode()] on entry *)
  currentTime : Z;              (* [millis()] read after the address test *)
  world : World;                (* readings made by the handler *)
  cal_decoded : option IRData   (* [IrReceiver.decode()] at the calibration poll *)
}.

(** The last statement of [loop]: keep the driver disabled when idle. *)
Definition keep_disabled (s : State) : State :=
  if negb (setMode s) && negb (motorRunning s) then set_enablePin HIGH s else s.

(** The second half of [loop]: one calibration step, the poll every
    500 steps, and the closing safety write. *)
Definition calibration_step (i : LoopInput) (s : State) : State :=
  if setMode s && timingInProgress s && motorRunning s then
    let s := set_enablePin LOW s in
    let s := set_pulses (pulses s + 1)%nat s in
    let s := set_stepCount (s32 (stepCount s + 1)) s in
    if Z.rem (stepCount s) 500 =? 0 then
      match cal_decoded i with
      | Some d =>
          if valid_stop d then
            let s := set_enablePin HIGH s in
            let s := set_setMode false s in
            let s := set_timingInProgress false s in
            let s := set_motorRunning false s in
            set_stepCount 0 s
          else keep_disabled s
      | None => keep_disabled s
      end
    else keep_disabled s
  else keep_disabled s.

(** [loop] *)
Definition loop (i : LoopInput) (s : State) : option State :=
  match decoded i with
  | Some d =>
      if negb (ir_address d =? IR_ADDRESS) then Some s
      else if setMode s then
        if accepts_in_set_mode s d (currentTime i) then
          match handleIRCommand (world i) (ir_command d) s with
          | None => None
          | Some s => Some (remember (ir_command d) (currentTime i) s)
          end
        else Some s
      else if accepts_in_normal_mode s d (currentTime i) then
        match handleIRCommand (world i) (ir_command d) s with
        | None => None
        | Some s =>
            Some (calibration_step i (remember (ir_command d) (currentTime i) s))
        end
      else Some (calibration_step i s)
  | None => Some (calibration_step i s)
  end.

(** The states the sketch can be in at the start of a pass through
    [loop], whatever the EEPROM held at power-on as long as [setup]
    found a [bool] at address 4. *)
Inductive reachable : State -> Prop :=
| reach_setup e s : setup e = Some s -> reachable s
| reach_loop i s s' : reachable s -> loop i s = Some s' -> reachable s'.

End Blind.

(** * The earlier sketch: [sketch_sep7a.ino]

    It nudges by a 45 degree move with a speed ramp; its stop key is [0x0]. *)

Module Sep7a.

Definition STEPS_PER_REVOLUTION : Z := 200.
Definition MICROSTEPS : Z := 16.
Definition TOTAL_STEPS : Z := STEPS_PER_REVOLUTION * MICROSTEPS.
Definition IR_KEY_SHUTDOWN : Z := 0x0.

Definition maxSpeed : Z := 400.
Definition minSpeed : Z := 100.

Definition valid_stop (d : IRData) : bool :=
  (ir_command d =? IR_KEY_SHUTDOWN) && negb (ir_address d =? 0)
  && negb (ir_protocol d =? 0).

(** [currentSpeed] of step [i] in a move of [steps] steps ([int]
    arithmetic, [/] truncates). *)
Definition currentSpeed (steps i : Z) : Z :=
  let accelSteps := steps ÷ 4 in
  let decelSteps := steps ÷ 4 in
  if i <? accelSteps then
    s32 (minSpeed + s32 (s32 ((maxSpeed - minSpeed) * i) ÷ accelSteps))
  else if steps - decelSteps <=? i then
    s32 (minSpeed + s32 (s32 ((maxSpeed - minSpeed) * s32 (steps - i)) ÷ decelSteps))
  else maxSpeed.

(** [unsigned long stepDelay = 1000000 / currentSpeed] *)
Definition stepDelay (steps i : Z) : Z := u32 (1000000 ÷ currentSpeed steps i).

(** The part of the globals [smoothRotate] touches, with the delay (in
    microseconds, pulse included) of every step it has made. *)
Record Motor := mkMotor {
  stopRequested : bool;
  enablePin : bool;
  dirPin : bool;
  delays : list Z
}.

Section Ramp.
Variable decode : Z -> option IRData.  (* [IrReceiver.decode()] at the poll of step [i] *)
Variable steps : Z.

(** The [for] loop of [smoothRotate] from index [i]; [n] bounds the
    iterations left. The result is the delays of the steps made. *)
Fixpoint ramp_loop (n : nat) (i : Z) (stop : bool) : list Z * bool :=
  match n with
  | O => ([], stop)
  | S n' =>
      if (i <? steps) && negb stop then
        let d := stepDelay steps i in
        if Z.rem i 100 =? 0 then
          match decode i with
          | Some c =>
              if valid_stop c then ([d], true)
              else let '(ds, b) := ramp_loop n' (i + 1) stop in (d :: ds, b)
          | None => let '(ds, b) := ramp_loop n' (i + 1) stop in (d :: ds, b)
          end
        else let '(ds, b) := ramp_loop n' (i + 1) stop in (d :: ds, b)
      else ([], stop)
  end.
End Ramp.

(** [smoothRotate(steps, clockwise)] *)
Definition smoothRotate (decode : Z -> option IRData) (steps : Z)
    (clockwise : bool) (m : Motor) : Motor :=
  let '(ds, _) := ramp_loop decode steps (Z.to_nat steps) 0 (stopRequested m) in
  {| stopRequested := false; enablePin := LOW;
     dirPin := if clockwise then HIGH else LOW;
     delays := delays m ++ ds |}.

(** The step count of the LEFT and RIGHT cases of [handleIRCommand]. *)
Definition nudge_steps : Z := (45 * TOTAL_STEPS) ÷ 360.

End Sep7a.

(** * The earlier sketch as a whole: globals, handlers and [loop]

    [sketch_sep7a.ino] has no address test, no orientation flag and no
    position hints; its motor state is the [Sep7a.Motor] record above. *)

Module Sep7aSketch.

Definition IR_KEY_UP : Z := 0x1.
Definition IR_KEY_DOWN : Z := 0x9.
Definition IR_KEY_LEFT : Z := 0x4.
Definition IR_KEY_RIGHT : Z := 0x6.
Definition IR_KEY_SET : Z := 0xE.
Definition speed : Z := 300.
Definition DEFAULT_CURTAIN_TIME : Z := 5000.
Definition IR_DEBOUNCE_TIME : Z := 200.
Definition SET_MODE_DEBOUNCE_TIME : Z := 1000.

Record State := mkState {
  motor : Sep7a.Motor;   (* [stopRequested], ENABLE_PIN, DIR_PIN, the steps made *)
  CURTAIN_TIME : Z;
  motorRunning : bool;
  setMode : bool;
  timingInProgress : bool;
  timingStart : Z;
  shutdownCount : Z;
  lastShutdownTime : Z;
  lastIRCommand : Z;
  lastIRTime : Z;
  stepCount : Z;         (* [static int stepCount] of [loop] *)
  rom : EEPROM.t
}.

Definition set_motor (v : Sep7a.Motor) (s : State) : State :=
  let '(mkState _ b c d e f g h i j k l) := s in mkState v b c d e f g h i j k l.
Definition set_CURTAIN_TIME (v : Z) (s : State) : State :=
  let '(mkState a _ c d e f g h i j k l) := s in mkState a v c d e f g h i j k l.
Definition set_motorRunning (v : bool) (s : State) : State :=
  let '(mkState a b _ d e f g h i j k l) := s in mkState a b v d e f g h i j k l.
Definition set_setMode (v : bool) (s : State) : State :=
  let '(mkState a b c _ e f g h i j k l) := s in mkState a b c v e f g h i j k l.
Definition set_timingInProgress (v : bool) (s : State) : State :=
  let '(mkState a b c d _ f g h i j k l) := s in mkState a b c d v f g h i j k l.
Definition set_timingStart (v : Z) (s : State) : State :=
  let '(mkState a b c d e _ g h i j k l) := s in mkState a b c d e v g h i j k l.
Definition set_shutdownCount (v : Z) (s : State) : State :=
  let '(mkState a b c d e f _ h i j k l) := s in mkState a b c d e f v h i j k l.
Definition set_lastShutdownTime (v : Z) (s : State) : State :=
  let '(mkState a b c d e f g _ i j k l) := s in mkState a b c d e f g v i j k l.
Definition set_lastIRCommand (v : Z) (s : State) : State :=
  let '(mkState a b c d e f g h _ j k l) := s in mkState a b c d e f g h v j k l.
Definition set_lastIRTime (v : Z) (s : State) : State :=
  let '(mkState a b c d e f g h i _ k l) := s in mkState a b c d e f g h i v k l.
Definition set_stepCount (v : Z) (s : State) : State :=
  let '(mkState a b c d e f g h i j _ l) := s in mkState a b c d e f g h i j v l.
Definition set_rom (v : EEPROM.t) (s : State) : State :=
  let '(mkState a b c d e f g h i j k _) := s in mkState a b c d e f g h i j k v.

(** Writes to the motor part of the globals. *)
Definition set_stopRequested (v : bool) (s : State) : State :=
  set_motor {| Sep7a.stopRequested := v; Sep7a.enablePin := Sep7a.enablePin (motor s);
               Sep7a.dirPin := Sep7a.dirPin (motor s);
               Sep7a.delays := Sep7a.delays (motor s) |} s.
Definition set_enablePin (v : bool) (s : State) : State :=
  set_motor {| Sep7a.stopRequested := Sep7a.stopRequested (motor s); Sep7a.enablePin := v;
               Sep7a.dirPin := Sep7a.dirPin (motor s);
               Sep7a.delays := Sep7a.delays (motor s) |} s.
Definition set_dirPin (v : bool) (s : State) : State :=
  set_motor {| Sep7a.stopRequested := Sep7a.stopRequested (motor s);
               Sep7a.enablePin := Sep7a.enablePin (motor s); Sep7a.dirPin := v;
               Sep7a.delays := Sep7a.delays (motor s) |} s.
(** Steps made, each recorded with its delay in microseconds. *)
Definition add_steps (ds : list Z) (s : State) : State :=
  set_motor {| Sep7a.stopRequested := Sep7a.stopRequested (motor s);
               Sep7a.enablePin := Sep7a.enablePin (motor s);
               Sep7a.dirPin := Sep7a.dirPin (motor s);
               Sep7a.delays := Sep7a.delays (motor s) ++ ds |} s.

(** The steps made so far. *)
Definition pulses (s : State) : nat := length (Sep7a.delays (motor s)).

(** Readings of the outside world made during one handler call. *)
Record World := mkWorld {
  now : Z;                            (* [millis()] read by the handler itself *)
  rot_start : Z;                      (* [millis()] on entry of [rotateForTime] *)
  rot_millis : nat -> Z;              (* [millis()] at the loop test after [k] steps *)
  rot_decode : nat -> option IRData;  (* [IrReceiver.decode()] at the poll after [k] steps *)
  step_decode : Z -> option IRData;   (* [IrReceiver.decode()] at the poll of step index [i] *)
  fuel : nat                          (* bound on the iterations of the [while] loop *)
}.

(** [unsigned long stepDelay = 1000000 / speed], in microseconds. *)
Definition stepDelay : Z := 1000000 ÷ speed.

(** [speed = constrain(newSpeed, 50, 500)], the value [setSpeed] stores. *)
Definition constrain (x lo hi : Z) : Z :=
  if x <? lo then lo else if hi <? x then hi else x.
Definition setSpeed (newSpeed : Z) : Z := constrain newSpeed 50 500.

Section PulseLoops.
Variable millis : nat -> Z.
Variable decode : nat -> option IRData.
Variable decode_at : Z -> option IRData.
Variables startTime duration : Z.

(** The [while] loop of [rotateForTime]: as in the current sketch, with
    the stop key of this one. *)
Fixpoint rotate_loop (fuel : nat) (k : nat) (stop : bool) : option (nat * bool) :=
  if Blind.time_left millis startTime duration k && negb stop then
    match fuel with
    | O => None
    | S fuel' =>
        let k' := S k in
        if Blind.poll_due k' then
          match decode k' with
          | Some d =>
              if Sep7a.valid_stop d then Some (k', true)
              else rotate_loop fuel' k' stop
          | None => rotate_loop fuel' k' stop
          end
        else rotate_loop fuel' k' stop
    end
  else Some (k, stop).

(** The [for] loop of [rotateClockwise] and [rotateCounterClockwise]
    from index [i], polling when [i % 50 == 0]; [n] bounds the
    iterations left. The result is the number of steps made. *)
Fixpoint turn_loop (steps : Z) (n : nat) (i : Z) (stop : bool) : nat * bool :=
  match n with
  | O => (O, stop)
  | S n' =>
      if (i <? steps) && negb stop then
        if Z.rem i 50 =? 0 then
          match decode_at i with
          | Some c =>
              if Sep7a.valid_stop c then (1%nat, true)
              else let '(k, b) := turn_loop steps n' (i + 1) stop in (S k, b)
          | None => let '(k, b) := turn_loop steps n' (i + 1) stop in (S k, b)
          end
        else let '(k, b) := turn_loop steps n' (i + 1) stop in (S k, b)
      else (O, stop)
  end.
End PulseLoops.

(** [rotateForTime(duration, clockwise)]: the driver stays enabled. *)
Definition rotateForTime (w : World) (duration : Z) (clockwise : bool)
    (s : State) : option State :=
  let s := set_enablePin LOW s in
  let s := set_dirPin (if clockwise then HIGH else LOW) s in
  match rotate_loop (rot_millis w) (rot_decode w) (rot_start w) duration
          (fuel w) 0 (Sep7a.stopRequested (motor s)) with
  | None => None
  | Some (k, stop) =>
      Some (set_stopRequested stop (add_steps (replicate k stepDelay) s))
  end.

(** [int steps = (degrees * TOTAL_STEPS) / 360] *)
Definition steps_of_degrees (degrees : Z) : Z :=
  s32 (degrees * Sep7a.TOTAL_STEPS) ÷ 360.

(** The common body of [rotateClockwise(degrees)] ([clockwise] true)
    and [rotateCounterClockwise(degrees)] ([clockwise] false). *)
Definition rotateDegrees (clockwise : bool) (w : World) (degrees : Z) (s : State) : State :=
  let s := set_enablePin LOW s in
  let s := set_dirPin (if clockwise then HIGH else LOW) s in
  let steps := steps_of_degrees degrees in
  let '(k, _) := turn_loop (step_decode w) steps (Z.to_nat steps) 0
                   (Sep7a.stopRequested (motor s)) in
  set_stopRequested false (add_steps (replicate k stepDelay) s).

Definition rotateClockwise : World -> Z -> State -> State := rotateDegrees true.
Definition rotateCounterClockwise : World -> Z -> State -> State := rotateDegrees false.

(** [smoothRotate(steps, clockwise)] on the globals. *)
Definition smoothRotate (w : World) (steps : Z) (clockwise : bool) (s : State) : State :=
  set_motor (Sep7a.smoothRotate (step_decode w) steps clockwise (motor s)) s.

(** [saveCurtainTime], [loadCurtainTime], [clearCurtainTime] *)
Definition saveCurtainTime (s : State) : State :=
  set_rom (EEPROM.put_int 0 (CURTAIN_TIME s) (rom s)) s.

Definition loadCurtainTime (s : State) : State :=
  let savedTime := EEPROM.get_int 0 (rom s) in
  if (0 <? savedTime) && (savedTime <? 60000) then set_CURTAIN_TIME savedTime s
  else set_CURTAIN_TIME DEFAULT_CURTAIN_TIME s.

Definition clearCurtainTime (s : State) : State :=
  set_CURTAIN_TIME DEFAULT_CURTAIN_TIME (set_rom (EEPROM.put_int 0 0 (rom s)) s).

(** [stopMotor] *)
Definition stopMotor (s : State) : State :=
  set_motorRunning false (set_enablePin HIGH s).

(** [rollUpCurtain] and [layDownCurtain] *)
Definition rollUpCurtain (w : World) (s : State) : option State :=
  let s := set_motorRunning true s in
  let s := set_stopRequested false s in
  match rotateForTime w (CURTAIN_TIME s) false s with
  | None => None
  | Some s => Some (set_stopRequested false (set_motorRunning false s))
  end.

Definition layDownCurtain (w : World) (s : State) : option State :=
  let s := set_motorRunning true s in
  let s := set_stopRequested false s in
  match rotateForTime w (CURTAIN_TIME s) true s with
  | None => None
  | Some s => Some (set_stopRequested false (set_motorRunning false s))
  end.

(** [handleSetKey]; [millis] is the reading of [millis()] it makes. *)
Definition handleSetKey (millis : Z) (s : State) : State :=
  if negb (setMode s) then
    let s := set_setMode true s in
    let s := set_timingInProgress true s in
    let s := set_timingStart millis s in
    let s := set_enablePin LOW s in
    let s := set_dirPin HIGH s in
    set_motorRunning true s
  else
    let duration := u32 (millis - timingStart s) in
    let s := set_enablePin HIGH s in
    let s := set_motorRunning false s in
    let s := set_timingInProgress false s in
    let s := set_CURTAIN_TIME (s32 duration) s in
    let s := saveCurtainTime s in
    set_setMode false s.

(** [handleShutdownKey]; [currentTime] is its reading of [millis()]. *)
Definition handleShutdownKey (currentTime : Z) (s : State) : State :=
  if setMode s then
    let s := set_enablePin HIGH s in
    let s := set_setMode false s in
    let s := set_timingInProgress false s in
    set_motorRunning false s
  else
    let s :=
      if u32 (currentTime - lastShutdownTime s) <? 2000
      then set_shutdownCount (shutdownCount s + 1) s
      else set_shutdownCount 1 s in
    let s := set_lastShutdownTime currentTime s in
    if 3 <=? shutdownCount s then
      let s := clearCurtainTime s in
      set_shutdownCount 0 s
    else
      let s := set_stopRequested true s in
      stopMotor s.

(** [handleIRCommand(command)] *)
Definition handleIRCommand (w : World) (command : Z) (s : State) : option State :=
  if command =? IR_KEY_UP then rollUpCurtain w s
  else if command =? IR_KEY_DOWN then layDownCurtain w s
  else if command =? IR_KEY_LEFT then Some (smoothRotate w Sep7a.nudge_steps false s)
  else if command =? IR_KEY_RIGHT then Some (smoothRotate w Sep7a.nudge_steps true s)
  else if command =? IR_KEY_SET then Some (handleSetKey (now w) s)
  else if command =? Sep7a.IR_KEY_SHUTDOWN then Some (handleShutdownKey (now w) s)
  else Some s.

(** The tests [loop] makes before it calls [handleIRCommand]. *)
Definition outside_window (window : Z) (s : State) (command currentTime : Z) : bool :=
  negb (command =? lastIRCommand s) || (window <? u32 (currentTime - lastIRTime s)).

Definition accepts_in_set_mode (s : State) (d : IRData) (currentTime : Z) : bool :=
  ((ir_command d =? IR_KEY_SET) || (ir_command d =? Sep7a.IR_KEY_SHUTDOWN))
  && negb (ir_command d =? 0) && negb (ir_command d =? 0xFFFFFFFF)
  && negb (ir_command d =? 0x0)
  && negb (ir_address d =? 0) && negb (ir_protocol d =? 0)
  && outside_window SET_MODE_DEBOUNCE_TIME s (ir_command d) currentTime.

Definition accepts_in_normal_mode (s : State) (d : IRData) (currentTime : Z) : bool :=
  (negb (ir_command d =? 0) && negb (ir_command d =? 0xFFFFFFFF)
   && negb (ir_command d =? 0x0))
  && ((motorRunning s && (ir_command d =? Sep7a.IR_KEY_SHUTDOWN)
       && negb (ir_address d =? 0) && negb (ir_protocol d =? 0))
      || outside_window IR_DEBOUNCE_TIME s (ir_command d) currentTime).

Definition remember (command currentTime : Z) (s : State) : State :=
  set_lastIRTime currentTime (set_lastIRCommand command s).

Record LoopInput := mkLoopInput {
  decoded : option IRData;      (* [IrReceiver.decode()] on entry *)
  currentTime : Z;              (* [millis()] read on entry *)
  world : World;                (* readings made by the handler *)
  cal_decoded : option IRData   (* [IrReceiver.decode()] at the calibration poll *)
}.

(** The second half of [loop]: one calibration step and the poll every
    500 steps. *)
Definition calibration_step (i : LoopInput) (s : State) : State :=
  if setMode s && timingInProgress s && motorRunning s then
    let s := add_steps [stepDelay] s in
    let s := set_stepCount (s32 (stepCount s + 1)) s in
    if Z.rem (stepCount s) 500 =? 0 then
      match cal_decoded i with
      | Some d =>
          if Sep7a.valid_stop d then
            let s := set_enablePin HIGH s in
            let s := set_setMode false s in
            let s := set_timingInProgress false s in
            let s := set_motorRunning false s in
            set_stepCount 0 s
          else s
      | None => s
      end
    else s
  else s.

(** [loop] *)
Definition loop (i : LoopInput) (s : State) : option State :=
  match decoded i with
  | Some d =>
      if setMode s then
        if accepts_in_set_mode s d (currentTime i) then
          match handleIRCommand (world i) (ir_command d) s with
          | None => None
          | Some s => Some (remember (ir_command d) (currentTime i) s)
          end
        else Some s
      else if accepts_in_normal_mode s d (currentTime i) then
        match handleIRCommand (world i) (ir_command d) s with
        | None => None
        | Some s =>
            Some (calibration_step i (remember (ir_command d) (currentTime i) s))
        end
      else Some (calibration_step i s)
  | None => Some (calibration_step i s)
  end.

(** The globals as initialised, and [setup]. *)
Definition power_on (e : EEPROM.t) : State :=
  {| motor := {| Sep7a.stopRequested := false; Sep7a.enablePin := LOW;
                 Sep7a.dirPin := LOW; Sep7a.delays := [] |};
     CURTAIN_TIME := 5000; motorRunning := false;
     setMode := false; timingInProgress := false; timingStart := 0;
     shutdownCount := 0; lastShutdownTime := 0;
     lastIRCommand := 0; lastIRTime := 0; stepCount := 0; rom := e |}.

Definition setup (e : EEPROM.t) : State :=
  loadCurtainTime (set_enablePin HIGH (set_dirPin LOW (power_on e))).

Inductive reachable : State -> Prop :=
| reach_setup e : reachable (setup e)
| reach_loop i s s' : reachable s -> loop i s = Some s' -> reachable s'.

End Sep7aSketch.

(** * [setSpeed] of the current sketch *)

Module BlindSpeed.

(** [speed = constrain(newSpeed, 200, 1000)], the value [setSpeed] stores. *)
Definition setSpeed (newSpeed : Z) : Z := Sep7aSketch.constrain newSpeed 200 1000.

(** [unsigned long stepDelay = 1000000 / speed] for a given [speed]. *)
Definition stepDelay (speed : Z) : Z := u32 (1000000 ÷ speed).

End BlindSpeed.

(** * Vocabulary of the statements *)

(** The travel duration as the EEPROM holds it. *)
Definition stored_duration (e : EEPROM.t) : Z := EEPROM.get_int 0 e.

(** A series of stop-key presses outside set mode, given by the value of
    [millis()] at each press. *)
Definition presses (ts : list Z) (s : Blind.State) : Blind.State :=
  foldl (fun s t => Blind.handleShutdownKey t s) s ts.

(** Every press comes [2000] ms or more after the one before it, the
    first one being compared with [prev]. *)
Fixpoint spaced (prev : Z) (ts : list Z) : Prop :=
  match ts with
  | [] => True
  | t :: ts' => 2000 <= u32 (t - prev) /\ spaced t ts'
  end.

(** A series of commands handed to [handleIRCommand], each with the
    readings its handler makes. *)
Fixpoint run_commands (cs : list (Blind.World * Z)) (s : Blind.State) : option Blind.State :=
  match cs with
  | [] => Some s
  | (w, c) :: cs' =>
      match Blind.handleIRCommand w c s with
      | None => None
      | Some s' => run_commands cs' s'
      end
  end.

(** The first poll of [rotateForTime] that comes after [n] steps. *)
Definition next_poll (n : nat) : nat := (100 * (n / 100 + 1))%nat.

(** The index of the first step of [smoothRotate] from [n] on that polls. *)
Definition next_ramp_poll (n : Z) : Z := 100 * ((n + 99) / 100).

(** ** Inputs and states used as examples, and predicates on states *)

(** Readings for a handler entered at [t]: the clock advances 2 ms per
    step and the receiver decodes nothing during the move. *)
Definition quiet_world (t : Z) : Blind.World :=
  {| Blind.now := t; Blind.rot_start := t;
     Blind.rot_millis := fun k => t + 2 * Z.of_nat k;
     Blind.rot_decode := fun _ => None; Blind.fuel := Z.to_nat 40000 |}.

(** The state in which [loop] is entered after [setup] on the EEPROM
    [e]. It is used on EEPROMs with a [bool] at address 4 only, where
    [setup] has a result ([setup_oriented]); elsewhere it stands for
    the globals as initialised. *)
Definition started (e : EEPROM.t) : Blind.State :=
  match Blind.setup e with
  | Some s => s
  | None => Blind.power_on e
  end.

(** The state after the set key was pressed 1 s after power-on. *)
Definition calibrating : Blind.State :=
  Blind.handleSetKey 1000 (started EEPROM.oriented).

(** A key of the remote with the given address, as decoded (protocol 8 is NEC). *)
Definition key_of (address command : Z) : IRData :=
  {| ir_command := command; ir_address := address; ir_protocol := 8 |}.

(** A pass through [loop] that starts with such a key decoded at [t]. *)
Definition key_press (address command t : Z) : Blind.LoopInput :=
  {| Blind.decoded := Some (key_of address command);
     Blind.currentTime := t;
     Blind.world := quiet_world t;
     Blind.cal_decoded := None |}.

(** Three nudges. *)
Definition nudges : list (Blind.World * Z) :=
  [(quiet_world 20000, Blind.IR_KEY_LEFT); (quiet_world 30000, Blind.IR_KEY_RIGHT);
   (quiet_world 40000, Blind.IR_KEY_LEFT)].

(** [handleIRCommand] carries out a full roll for [command] in the state
    [s]: the UP key when the blind is not marked fully up, the DOWN key
    when it is not marked fully down. *)
Definition carried_out_roll (command : Z) (s : Blind.State) : bool :=
  ((command =? Blind.IR_KEY_UP) && negb (Blind.isFullyRolledUp s))
  || ((command =? Blind.IR_KEY_DOWN) && negb (Blind.isFullyRolledDown s)).

(** No command of the series is carried out as a full roll. *)
Fixpoint no_roll (cs : list (Blind.World * Z)) (s : Blind.State) : bool :=
  match cs with
  | [] => true
  | (w, c) :: cs' =>
      negb (carried_out_roll c s)
      && match Blind.handleIRCommand w c s with
         | Some s' => no_roll cs' s'
         | None => true
         end
  end.

(** The UP key pressed again, then the three nudges. *)
Definition up_then_nudges : list (Blind.World * Z) :=
  (quiet_world 15000, Blind.IR_KEY_UP) :: nudges.

(** The same readings with a receiver that decodes nothing during the move. *)
Definition silent (w : Blind.World) : Blind.World :=
  {| Blind.now := Blind.now w; Blind.rot_start := Blind.rot_start w;
     Blind.rot_millis := Blind.rot_millis w;
     Blind.rot_decode := fun _ => None; Blind.fuel := Blind.fuel w |}.

(** A stop key of the own remote that is decoded at the poll after step 300. *)
Definition stop_at_300 : Blind.World :=
  {| Blind.now := 1000; Blind.rot_start := 1000;
     Blind.rot_millis := fun k => 1000 + 2 * Z.of_nat k;
     Blind.rot_decode :=
       fun k => if (k =? 300)%nat
                then Some (key_of Blind.IR_ADDRESS Blind.IR_KEY_SHUTDOWN) else None;
     Blind.fuel := Z.to_nat 5000 |}.

(** A stop key of another remote (address [0x1234]) that is decoded at
    the poll after step 100 of a move. *)
Definition foreign_stop_at_100 : Blind.World :=
  {| Blind.now := 1000; Blind.rot_start := 1000;
     Blind.rot_millis := fun k => 1000 + 2 * Z.of_nat k;
     Blind.rot_decode :=
       fun k => if (k =? 100)%nat
                then Some (key_of 0x1234 Blind.IR_KEY_SHUTDOWN) else None;
     Blind.fuel := Z.to_nat 5000 |}.

(** The same for [smoothRotate], at step index 300. *)
Definition ramp_stop_at_300 (i : Z) : option IRData :=
  if i =? 300 then Some (key_of Blind.IR_ADDRESS Sep7a.IR_KEY_SHUTDOWN) else None.

(** The motor of the earlier sketch before a move. *)
Definition motor_at_rest : Sep7a.Motor :=
  {| Sep7a.stopRequested := false; Sep7a.enablePin := HIGH;
     Sep7a.dirPin := LOW; Sep7a.delays := [] |}.


(** The value [handleShutdownKey] gives the press counter before it
    compares it with 3. *)
Definition counted (t : Z) (s : Blind.State) : Z :=
  if u32 (t - Blind.lastShutdownTime s) <? 2000 then Blind.shutdownCount s + 1 else 1.

(** The stored duration is cleared and the working copy is the default. *)
Definition cleared (s : Blind.State) : Prop :=
  Blind.CURTAIN_TIME s = Blind.DEFAULT_CURTAIN_TIME
  /\ stored_duration (Blind.rom s) = 0
  /\ (4 <= length (Blind.rom s))%nat.

(** ** Vocabulary of the further properties *)

(** The orientation as the EEPROM holds it. *)
Definition stored_direction (e : EEPROM.t) : option bool := EEPROM.get_bool 4 e.



(** The loop test of [rotateForTime] fails for the first time after [k] steps. *)
Definition time_up_after (w : Blind.World) (duration : Z) (k : nat) : Prop :=
  (forall j, (j < k)%nat ->
     Blind.time_left (Blind.rot_millis w) (Blind.rot_start w) duration j = true)
  /\ Blind.time_left (Blind.rot_millis w) (Blind.rot_start w) duration k = false.

(** No poll of the move decodes a valid stop key. *)
Definition undisturbed (w : Blind.World) : Prop :=
  forall k c, Blind.rot_decode w k = Some c -> Blind.valid_stop c = false.

(** A pass through [loop] that starts with nothing decoded. *)
Definition idle_pass (t : Z) (poll : option IRData) : Blind.LoopInput :=
  {| Blind.decoded := None; Blind.currentTime := t;
     Blind.world := quiet_world t; Blind.cal_decoded := poll |}.

(** What holds of the earlier sketch between two passes through [loop]. *)
Definition sep_settled (s : Sep7aSketch.State) : Prop :=
  Sep7a.stopRequested (Sep7aSketch.motor s) = false
  /\ Sep7aSketch.shutdownCount s = 0
  /\ Sep7aSketch.lastShutdownTime s = 0
  /\ Sep7aSketch.timingInProgress s = Sep7aSketch.setMode s
  /\ Sep7aSketch.motorRunning s = Sep7aSketch.setMode s.

(** Readings for a handler of the earlier sketch entered at [t]: 4 ms
    per step, nothing decoded during the move. *)
Definition sep_quiet_world (t : Z) : Sep7aSketch.World :=
  {| Sep7aSketch.now := t; Sep7aSketch.rot_start := t;
     Sep7aSketch.rot_millis := fun k => t + 4 * Z.of_nat k;
     Sep7aSketch.rot_decode := fun _ => None;
     Sep7aSketch.step_decode := fun _ => None;
     Sep7aSketch.fuel := Z.to_nat 40000 |}.

(** A pass of the earlier sketch that starts with the given key decoded. *)
Definition sep_key_press (command t : Z) : Sep7aSketch.LoopInput :=
  {| Sep7aSketch.decoded := Some (key_of Blind.IR_ADDRESS command);
     Sep7aSketch.currentTime := t;
     Sep7aSketch.world := sep_quiet_world t;
     Sep7aSketch.cal_decoded := None |}.

(** * Machine integers and the EEPROM *)

(** Case analysis on every test left in the goal. *)
Ltac case_ifs :=
  repeat match goal with
    | |- context [if ?b then _ else _] => destruct b; cbn
    | |- context [match ?o with Some _ => _ | None => _ end] => destruct o; cbn
    end.

Arguments u32 : simpl never.
Arguments s32 : simpl never.
Arguments EEPROM.get_int : simpl never.
Arguments EEPROM.put_int : simpl never.
Arguments EEPROM.get_bool : simpl never.
Arguments EEPROM.put_bool : simpl never.
Arguments stored_duration : simpl never.

Lemma u32_range z : 0 <= u32 z < 2 ^ 32.
Proof. unfold u32. apply Z.mod_pos_bound. lia. Qed.

Lemma u32_small z : 0 <= z < 2 ^ 32 -> u32 z = z.
Proof. intros H. unfold u32. now apply Z.mod_small. Qed.

Lemma s32_small z : - 2 ^ 31 <= z < 2 ^ 31 -> s32 z = z.
Proof.
  intros H. unfold s32.
  pose proof (Z.mod_pos_bound z (2 ^ 32) ltac:(lia)) as Hm.
  pose proof (Z.div_mod z (2 ^ 32) ltac:(lia)) as Hd.
  destruct (Z.ltb_spec (z mod 2 ^ 32) (2 ^ 31)); lia.
Qed.

Lemma s32_u32 z : s32 (u32 z) = s32 z.
Proof. unfold s32, u32. rewrite Z.mod_mod by lia. reflexivity. Qed.

Lemma u32_s32 z : u32 (s32 z) = u32 z.
Proof.
  unfold s32, u32. destruct (_ <? _).
  - apply Z.mod_mod. lia.
  - rewrite Zminus_mod, Z.mod_same by lia.
    rewrite Z.sub_0_r, !Z.mod_mod by lia. reflexivity.
Qed.

Lemma u32_u32 z : u32 (u32 z) = u32 z.
Proof. unfold u32. apply Z.mod_mod. lia. Qed.

Lemma le_bytes_sum v :
  EEPROM.byte_of 0 v + 256 * EEPROM.byte_of 1 v + 65536 * EEPROM.byte_of 2 v
  + 16777216 * EEPROM.byte_of 3 v = u32 v.
Proof.
  unfold EEPROM.byte_of. pose proof (u32_range v) as Hr.
  change (256 ^ Z.of_nat 0) with 1. change (256 ^ Z.of_nat 1) with 256.
  change (256 ^ Z.of_nat 2) with 65536. change (256 ^ Z.of_nat 3) with 16777216.
  change (2 ^ 32) with 4294967296 in Hr.
  generalize dependent (u32 v). intros u Hr.
  Z.to_euclidean_division_equations. lia.
Qed.

Lemma read_put_int (e : EEPROM.t) v (j : nat) :
  (j < 4)%nat -> (4 <= length e)%nat ->
  EEPROM.read (EEPROM.put_int 0 v e) j = EEPROM.byte_of j v.
Proof.
  intros Hj Hlen. unfold EEPROM.read, EEPROM.put_int.
  rewrite list_lookup_inserts by (cbn [EEPROM.le_bytes length]; lia).
  rewrite Nat.sub_0_r.
  destruct j as [| [| [| [| j]]]]; try reflexivity. lia.
Qed.

Lemma word_at_put_int (e : EEPROM.t) v :
  (4 <= length e)%nat -> EEPROM.word_at 0 (EEPROM.put_int 0 v e) = u32 v.
Proof.
  intros Hlen. unfold EEPROM.word_at. cbn [Nat.add].
  rewrite !read_put_int by lia. apply le_bytes_sum.
Qed.

Lemma get_int_put_int (e : EEPROM.t) v :
  (4 <= length e)%nat -> EEPROM.get_int 0 (EEPROM.put_int 0 v e) = s32 v.
Proof.
  intros Hlen. unfold EEPROM.get_int.
  rewrite word_at_put_int by assumption. apply s32_u32.
Qed.

Lemma length_put_int a v (e : EEPROM.t) : length (EEPROM.put_int a v e) = length e.
Proof. unfold EEPROM.put_int. apply length_inserts. Qed.

(** * Persistent configuration store *)

Lemma plausible_spec v : Blind.plausible v = true <-> 0 < v < 60000.
Proof. unfold Blind.plausible. rewrite andb_true_iff, !Z.ltb_lt. tauto. Qed.

Lemma rom_loadCurtainTime s : Blind.rom (Blind.loadCurtainTime s) = Blind.rom s.
Proof. unfold Blind.loadCurtainTime. destruct s; cbn. now destruct (Blind.plausible _). Qed.

Lemma CURTAIN_TIME_loadCurtainTime s :
  Blind.CURTAIN_TIME (Blind.loadCurtainTime s)
  = if Blind.plausible (stored_duration (Blind.rom s))
    then stored_duration (Blind.rom s) else Blind.DEFAULT_CURTAIN_TIME.
Proof.
  unfold Blind.loadCurtainTime, stored_duration. destruct s; cbn.
  now destruct (Blind.plausible _).
Qed.

Lemma setup_Some e s :
  Blind.setup e = Some s ->
  exists o,
    EEPROM.get_bool 4 e = Some o
    /\ s = Blind.set_isFullyRolledDown false
             (Blind.set_isFullyRolledUp false
                (Blind.set_isNormalDirection o
                   (Blind.loadCurtainTime
                      (Blind.set_enablePin HIGH
                         (Blind.set_dirPin LOW (Blind.power_on e)))))).
Proof.
  unfold Blind.setup, Blind.loadDirectionSetting.
  rewrite rom_loadCurtainTime. cbn [Blind.rom Blind.set_enablePin Blind.set_dirPin
                                    Blind.power_on].
  destruct (EEPROM.get_bool 4 e) as [o |]; [| discriminate].
  intros H. injection H as <-. exists o. split; reflexivity.
Qed.

Lemma setup_defined e o :
  EEPROM.get_bool 4 e = Some o -> exists s, Blind.setup e = Some s.
Proof.
  intros Ho. unfold Blind.setup, Blind.loadDirectionSetting.
  rewrite rom_loadCurtainTime. cbn [Blind.rom Blind.set_enablePin Blind.set_dirPin
                                    Blind.power_on].
  rewrite Ho. eauto.
Qed.


Lemma setup_blank : Blind.setup EEPROM.blank = None.
Proof. reflexivity. Qed.


Lemma stored_after_clear s :
  (4 <= length (Blind.rom s))%nat ->
  stored_duration (Blind.rom (Blind.clearCurtainTime s)) = 0.
Proof.
  intros Hlen. unfold stored_duration, Blind.clearCurtainTime.
  destruct s; cbn in *. now rewrite get_int_put_int.
Qed.

(** C7, as the sketch has it: [loadCurtainTime] takes the stored duration
    when it lies strictly between 0 and 60000 ms (60000 itself is
    refused) and the default of 5000 ms otherwise; [clearCurtainTime]
    stores 0, so loading after a clear gives the default. *)
Theorem load_duration_range s :
  (4 <= length (Blind.rom s))%nat ->
  let v := stored_duration (Blind.rom s) in
  (0 < v < 60000 -> Blind.CURTAIN_TIME (Blind.loadCurtainTime s) = v)
  /\ (v <= 0 \/ 60000 <= v -> Blind.CURTAIN_TIME (Blind.loadCurtainTime s) = 5000)
  /\ stored_duration (Blind.rom (Blind.clearCurtainTime s)) = 0
  /\ Blind.CURTAIN_TIME (Blind.clearCurtainTime s) = 5000
  /\ Blind.CURTAIN_TIME (Blind.loadCurtainTime (Blind.clearCurtainTime s)) = 5000.
Proof.
  intros Hlen v. repeat split.
  - intros Hv. rewrite CURTAIN_TIME_loadCurtainTime. fold v.
    apply plausible_spec in Hv. now rewrite Hv.
  - intros Hv. rewrite CURTAIN_TIME_loadCurtainTime. fold v.
    destruct (Blind.plausible v) eqn:Hp; [| reflexivity].
    apply plausible_spec in Hp. lia.
  - now apply stored_after_clear.
  - now destruct s.
  - rewrite CURTAIN_TIME_loadCurtainTime, stored_after_clear by assumption.
    reflexivity.
Qed.

Lemma load_duration_range_witness :
  let s := started (EEPROM.put_int 0 42000 EEPROM.oriented) in
  (4 <= length (Blind.rom s))%nat
  /\ Blind.CURTAIN_TIME (Blind.loadCurtainTime s) = 42000
  /\ Blind.CURTAIN_TIME (Blind.loadCurtainTime (Blind.clearCurtainTime s)) = 5000.
Proof.
  intros s.
  assert (Hlen : (4 <= length (Blind.rom s))%nat) by (vm_compute; lia).
  pose proof (load_duration_range s Hlen) as (Hin & _ & _ & _ & Hclear).
  split; [exact Hlen |]. split; [| exact Hclear].
  apply Hin. vm_compute. split; reflexivity.
Defined.

(** C7 as worded fails at the upper bound: a stored duration of exactly
    60000 ms lies in the range the claim calls valid, yet it is replaced
    by the default. *)
Lemma load_refuses_60000 :
  let s := Blind.power_on (EEPROM.put_int 0 60000 EEPROM.blank) in
  stored_duration (Blind.rom s) = 60000
  /\ Blind.CURTAIN_TIME (Blind.loadCurtainTime s) = 5000
  /\ Blind.CURTAIN_TIME (Blind.loadCurtainTime s) <> stored_duration (Blind.rom s).
Proof. vm_compute. repeat split; discriminate. Qed.

(** * Calibration *)

Lemma handleIRCommand_SET w s :
  Blind.handleIRCommand w Blind.IR_KEY_SET s = Some (Blind.handleSetKey (Blind.now w) s).
Proof. reflexivity. Qed.

(** C4: the second press of the set key while calibrating takes
    [elapsed = millis() - timingStart], disables the driver, stores
    [elapsed] as it is (the range test is applied by the next
    [loadCurtainTime] only), marks the blind fully down and not fully up,
    and leaves set mode with the motor idle. *)
Theorem second_set_press_saves w s :
  Blind.setMode s = true ->
  (4 <= length (Blind.rom s))%nat ->
  let elapsed := u32 (Blind.now w - Blind.timingStart s) in
  exists s',
    Blind.handleIRCommand w Blind.IR_KEY_SET s = Some s'
    /\ Blind.enablePin s' = HIGH
    /\ EEPROM.word_at 0 (Blind.rom s') = elapsed
    /\ Blind.CURTAIN_TIME s' = s32 elapsed
    /\ (elapsed < 2 ^ 31 ->
        Blind.CURTAIN_TIME s' = elapsed /\ stored_duration (Blind.rom s') = elapsed)
    /\ Blind.CURTAIN_TIME (Blind.loadCurtainTime s')
       = (if Blind.plausible (s32 elapsed) then s32 elapsed else Blind.DEFAULT_CURTAIN_TIME)
    /\ Blind.isFullyRolledDown s' = true
    /\ Blind.isFullyRolledUp s' = false
    /\ Blind.setMode s' = false
    /\ Blind.motorRunning s' = false
    /\ Blind.timingInProgress s' = false.
Proof.
  intros Hset Hlen elapsed.
  exists (Blind.handleSetKey (Blind.now w) s).
  split; [apply handleIRCommand_SET |].
  assert (Hword : EEPROM.word_at 0
            (Blind.rom (Blind.handleSetKey (Blind.now w) s)) = elapsed).
  { unfold Blind.handleSetKey. rewrite Hset. destruct s; cbn in *.
    rewrite word_at_put_int by assumption. subst elapsed.
    now rewrite u32_s32, u32_u32. }
  assert (Htime : Blind.CURTAIN_TIME (Blind.handleSetKey (Blind.now w) s) = s32 elapsed).
  { unfold Blind.handleSetKey. rewrite Hset. now destruct s. }
  assert (Hstored : stored_duration
            (Blind.rom (Blind.handleSetKey (Blind.now w) s)) = s32 elapsed).
  { unfold stored_duration, EEPROM.get_int. rewrite Hword. reflexivity. }
  repeat split; try assumption;
    try (unfold Blind.handleSetKey; rewrite Hset; now destruct s).
  - rewrite Htime. apply s32_small.
    pose proof (u32_range (Blind.now w - Blind.timingStart s)) as Hr.
    fold elapsed in Hr. lia.
  - rewrite Hstored. apply s32_small.
    pose proof (u32_range (Blind.now w - Blind.timingStart s)) as Hr.
    fold elapsed in Hr. lia.
  - rewrite CURTAIN_TIME_loadCurtainTime, Hstored. reflexivity.
Qed.

Lemma second_set_press_saves_witness :
  exists s',
    Blind.handleIRCommand (quiet_world 71000) Blind.IR_KEY_SET calibrating = Some s'
    /\ stored_duration (Blind.rom s') = 70000
    /\ Blind.CURTAIN_TIME (Blind.loadCurtainTime s') = 5000
    /\ Blind.isFullyRolledDown s' = true
    /\ Blind.setMode s' = false.
Proof.
  assert (Hset : Blind.setMode calibrating = true) by reflexivity.
  assert (Hlen : (4 <= length (Blind.rom calibrating))%nat) by (vm_compute; lia).
  destruct (second_set_press_saves (quiet_world 71000) calibrating Hset Hlen)
    as (s' & Hrun & _ & _ & _ & Hsmall & Hload & Hdown & _ & Hmode & _).
  exists s'. split; [exact Hrun |].
  split; [apply Hsmall; vm_compute; reflexivity |].
  split; [exact Hload |]. split; [exact Hdown | exact Hmode].
Defined.

(** * Direction resolver *)

Lemma rotateForTime_frame w duration clockwise s s' :
  Blind.rotateForTime w duration clockwise s = Some s' ->
  Blind.dirPin s' = clockwise
  /\ Blind.enablePin s' = HIGH
  /\ Blind.isNormalDirection s' = Blind.isNormalDirection s
  /\ Blind.isFullyRolledUp s' = Blind.isFullyRolledUp s
  /\ Blind.isFullyRolledDown s' = Blind.isFullyRolledDown s
  /\ Blind.setMode s' = Blind.setMode s
  /\ Blind.motorRunning s' = Blind.motorRunning s
  /\ Blind.timingInProgress s' = Blind.timingInProgress s
  /\ Blind.CURTAIN_TIME s' = Blind.CURTAIN_TIME s
  /\ Blind.rom s' = Blind.rom s
  /\ Blind.lastIRCommand s' = Blind.lastIRCommand s
  /\ Blind.lastIRTime s' = Blind.lastIRTime s
  /\ Blind.shutdownCount s' = Blind.shutdownCount s
  /\ Blind.lastShutdownTime s' = Blind.lastShutdownTime s.
Proof.
  unfold Blind.rotateForTime. intros H.
  destruct (Blind.rotate_loop _ _ _ _ _ _ _) as [[k stop] |]; [| discriminate].
  injection H as <-. destruct s, clockwise; cbn; repeat split.
Qed.

Lemma dirPin_nudge_up w s s' :
  Blind.handleIRCommand w Blind.IR_KEY_LEFT s = Some s' ->
  Blind.dirPin s' = Blind.leftDirection (Blind.isNormalDirection s).
Proof.
  cbn. intros H. apply rotateForTime_frame in H as (-> & _). now destruct s.
Qed.

Lemma dirPin_roll_up w s s' :
  Blind.isFullyRolledUp s = false ->
  Blind.handleIRCommand w Blind.IR_KEY_UP s = Some s' ->
  Blind.dirPin s' = Blind.rollUpDirection (Blind.isNormalDirection s).
Proof.
  cbn. intros -> H. unfold Blind.rollUpCurtain in H.
  destruct (Blind.rotateForTime _ _ _ _) as [s1 |] eqn:Hrot; [| discriminate].
  apply rotateForTime_frame in Hrot as (Hdir & _).
  injection H as <-.
  transitivity (Blind.dirPin s1).
  - destruct s1; cbn. now destruct (negb _).
  - rewrite Hdir. now destruct s.
Qed.

(** C1, as the sketch has it: under either orientation the nudge up
    (LEFT key) and the full roll-up (UP key) are commanded in the same
    rotation sense, clockwise when [isNormalDirection] holds and
    counter-clockwise when it does not. *)
Theorem nudge_up_same_sense_as_roll_up w1 w2 s sL sU :
  Blind.isFullyRolledUp s = false ->
  Blind.handleIRCommand w1 Blind.IR_KEY_LEFT s = Some sL ->
  Blind.handleIRCommand w2 Blind.IR_KEY_UP s = Some sU ->
  rotation_of (Blind.dirPin sL) = rotation_of (Blind.dirPin sU)
  /\ rotation_of (Blind.dirPin sU)
     = (if Blind.isNormalDirection s then CW else CCW)
  /\ rotation_of (Blind.leftDirection (negb (Blind.isNormalDirection s)))
     = opposite (rotation_of (Blind.dirPin sL)).
Proof.
  intros Hup HL HU.
  rewrite (dirPin_nudge_up _ _ _ HL), (dirPin_roll_up _ _ _ Hup HU).
  now destruct (Blind.isNormalDirection s).
Qed.

Lemma nudge_up_same_sense_as_roll_up_witness :
  let s := started EEPROM.oriented in
  exists sL sU,
    Blind.handleIRCommand (quiet_world 1000) Blind.IR_KEY_LEFT s = Some sL
    /\ Blind.handleIRCommand (quiet_world 1000) Blind.IR_KEY_UP s = Some sU
    /\ Blind.pulses sL = 500%nat /\ Blind.pulses sU = 2500%nat
    /\ rotation_of (Blind.dirPin sL) = rotation_of (Blind.dirPin sU).
Proof.
  intros s.
  destruct (Blind.handleIRCommand (quiet_world 1000) Blind.IR_KEY_LEFT s)
    as [sL |] eqn:HL; [| vm_compute in HL; discriminate].
  destruct (Blind.handleIRCommand (quiet_world 1000) Blind.IR_KEY_UP s)
    as [sU |] eqn:HU; [| vm_compute in HU; discriminate].
  exists sL, sU. split; [reflexivity |]. split; [reflexivity |].
  split; [vm_compute in HL; injection HL as <-; reflexivity |].
  split; [vm_compute in HU; injection HU as <-; reflexivity |].
  exact (proj1 (nudge_up_same_sense_as_roll_up _ _ s sL sU eq_refl HL HU)).
Defined.

(** C1 as worded fails: with the normal orientation the LEFT key and the
    UP key both set the DIR pin high, so the nudge up turns clockwise
    like the full roll-up, not against it. *)
Lemma nudge_up_not_opposite :
  let s := started EEPROM.oriented in
  Blind.isNormalDirection s = true
  /\ option_map (fun s' => rotation_of (Blind.dirPin s'))
       (Blind.handleIRCommand (quiet_world 1000) Blind.IR_KEY_UP s) = Some CW
  /\ option_map (fun s' => rotation_of (Blind.dirPin s'))
       (Blind.handleIRCommand (quiet_world 1000) Blind.IR_KEY_LEFT s) = Some CW
  /\ CW <> opposite CW.
Proof. vm_compute. repeat split; discriminate. Qed.

(** * The dispatcher: what a pass through [loop] keeps *)


Lemma rollUpCurtain_spec w s s' :
  Blind.rollUpCurtain w s = Some s' ->
  Blind.motorRunning s' = false
  /\ Blind.stopRequested s' = false
  /\ Blind.setMode s' = Blind.setMode s
  /\ ((Blind.isFullyRolledUp s' = true /\ Blind.isFullyRolledDown s' = false)
      \/ (Blind.isFullyRolledUp s' = Blind.isFullyRolledUp s
          /\ Blind.isFullyRolledDown s' = Blind.isFullyRolledDown s)).
Proof.
  unfold Blind.rollUpCurtain. intros H.
  destruct (Blind.rotateForTime _ _ _ _) as [s1 |] eqn:Hrot; [| discriminate].
  apply rotateForTime_frame in Hrot
    as (_ & _ & _ & Hup & Hdown & Hset & _).
  injection H as <-.
  destruct s, s1; cbn in *. subst.
  destruct stopRequested0; cbn; repeat split; auto.
Qed.

Lemma layDownCurtain_spec w s s' :
  Blind.layDownCurtain w s = Some s' ->
  Blind.motorRunning s' = false
  /\ Blind.stopRequested s' = false
  /\ Blind.setMode s' = Blind.setMode s
  /\ ((Blind.isFullyRolledDown s' = true /\ Blind.isFullyRolledUp s' = false)
      \/ (Blind.isFullyRolledUp s' = Blind.isFullyRolledUp s
          /\ Blind.isFullyRolledDown s' = Blind.isFullyRolledDown s)).
Proof.
  unfold Blind.layDownCurtain. intros H.
  destruct (Blind.rotateForTime _ _ _ _) as [s1 |] eqn:Hrot; [| discriminate].
  apply rotateForTime_frame in Hrot
    as (_ & _ & _ & Hup & Hdown & Hset & _).
  injection H as <-.
  destruct s, s1; cbn in *. subst.
  destruct stopRequested0; cbn; repeat split; auto.
Qed.






(** * Position hints *)




(** * Command debounce filter *)



Lemma loop_own_remote i s d :
  Blind.decoded i = Some d ->
  ir_address d = Blind.IR_ADDRESS ->
  Blind.loop i s =
    if Blind.accepts s d (Blind.currentTime i) then
      match Blind.handleIRCommand (Blind.world i) (ir_command d) s with
      | None => None
      | Some s1 =>
          let s2 := Blind.remember (ir_command d) (Blind.currentTime i) s1 in
          Some (if Blind.setMode s then s2 else Blind.calibration_step i s2)
      end
    else Some (if Blind.setMode s then s else Blind.calibration_step i s).
Proof.
  intros Hd Haddr. unfold Blind.loop, Blind.accepts. rewrite Hd, Haddr.
  cbn [negb Z.eqb]. rewrite Z.eqb_refl. cbn [negb].
  destruct (Blind.setMode s).
  - destruct (Blind.accepts_in_set_mode _ _ _); [| reflexivity].
    now destruct (Blind.handleIRCommand _ _ _).
  - destruct (Blind.accepts_in_normal_mode _ _ _); [| reflexivity].
    now destruct (Blind.handleIRCommand _ _ _).
Qed.




(** * The triple-stop gesture *)

Lemma press_below_three t s :
  Blind.setMode s = false -> counted t s < 3 ->
  let s' := Blind.handleShutdownKey t s in
  Blind.shutdownCount s' = counted t s
  /\ Blind.lastShutdownTime s' = t
  /\ Blind.setMode s' = false
  /\ Blind.rom s' = Blind.rom s
  /\ Blind.CURTAIN_TIME s' = Blind.CURTAIN_TIME s
  /\ Blind.stopRequested s' = true
  /\ Blind.motorRunning s' = false
  /\ Blind.enablePin s' = HIGH
  /\ Blind.pulses s' = Blind.pulses s.
Proof.
  unfold counted, Blind.handleShutdownKey. intros Hmode Hc. rewrite Hmode.
  destruct s; cbn in *.
  destruct (u32 _ <? 2000); cbn.
  - destruct (Z.leb_spec 3 (shutdownCount + 1)); [lia |]. cbn. repeat split; auto.
  - repeat split; auto.
Qed.

Lemma press_third t s :
  Blind.setMode s = false -> 3 <= counted t s ->
  let s' := Blind.handleShutdownKey t s in
  Blind.shutdownCount s' = 0
  /\ Blind.lastShutdownTime s' = t
  /\ Blind.setMode s' = false
  /\ Blind.rom s' = EEPROM.put_int 0 0 (Blind.rom s)
  /\ Blind.CURTAIN_TIME s' = Blind.DEFAULT_CURTAIN_TIME
  /\ Blind.stopRequested s' = Blind.stopRequested s.
Proof.
  unfold counted, Blind.handleShutdownKey. intros Hmode Hc. rewrite Hmode.
  destruct s; cbn in *.
  destruct (u32 _ <? 2000); cbn; [| lia].
  destruct (Z.leb_spec 3 (shutdownCount + 1)); [| lia]. cbn. repeat split; auto.
Qed.

Lemma press_clears t s :
  Blind.setMode s = false -> (4 <= length (Blind.rom s))%nat ->
  3 <= counted t s -> cleared (Blind.handleShutdownKey t s).
Proof.
  intros Hmode Hlen Hc.
  destruct (press_third t s Hmode Hc) as (_ & _ & _ & Hrom & Htime & _).
  unfold cleared, stored_duration. rewrite Hrom, Htime, length_put_int.
  rewrite get_int_put_int by assumption. auto.
Qed.

Lemma press_keeps_cleared t s :
  Blind.setMode s = false -> cleared s -> cleared (Blind.handleShutdownKey t s).
Proof.
  intros Hmode (Htime & Hrom & Hlen).
  destruct (Z.lt_ge_cases (counted t s) 3) as [Hc | Hc].
  - destruct (press_below_three t s Hmode Hc) as (_ & _ & _ & Hr & Ht & _).
    unfold cleared. now rewrite Hr, Ht.
  - now apply press_clears.
Qed.

Lemma press_setMode t s :
  Blind.setMode s = false -> Blind.setMode (Blind.handleShutdownKey t s) = false.
Proof.
  intros Hmode. destruct (Z.lt_ge_cases (counted t s) 3) as [Hc | Hc].
  - apply (press_below_three t s Hmode Hc).
  - apply (press_third t s Hmode Hc).
Qed.

Lemma press_length t s :
  Blind.setMode s = false ->
  length (Blind.rom (Blind.handleShutdownKey t s)) = length (Blind.rom s).
Proof.
  intros Hmode. destruct (Z.lt_ge_cases (counted t s) 3) as [Hc | Hc].
  - destruct (press_below_three t s Hmode Hc) as (_ & _ & _ & -> & _). reflexivity.
  - destruct (press_third t s Hmode Hc) as (_ & _ & _ & -> & _).
    apply length_put_int.
Qed.

Lemma presses_cons t ts s :
  presses (t :: ts) s = presses ts (Blind.handleShutdownKey t s).
Proof. reflexivity. Qed.

Lemma presses_spaced ts : forall s,
  Blind.setMode s = false ->
  spaced (Blind.lastShutdownTime s) ts ->
  Blind.rom (presses ts s) = Blind.rom s
  /\ Blind.CURTAIN_TIME (presses ts s) = Blind.CURTAIN_TIME s
  /\ (ts <> [] -> Blind.shutdownCount (presses ts s) = 1).
Proof.
  induction ts as [| t ts IH]; intros s Hmode Hsp.
  - repeat split. congruence.
  - rewrite presses_cons. destruct Hsp as [Hgap Hsp].
    assert (Hc : counted t s = 1).
    { unfold counted. destruct (Z.ltb_spec (u32 (t - Blind.lastShutdownTime s)) 2000);
        [lia | reflexivity]. }
    destruct (press_below_three t s Hmode ltac:(lia))
      as (Hcount & Hlast & Hmode' & Hrom & Htime & _).
    rewrite <- Hlast in Hsp.
    destruct (IH _ Hmode' Hsp) as (IHrom & IHtime & IHcount).
    rewrite IHrom, IHtime, Hrom, Htime. repeat split.
    intros _. destruct ts as [| t' ts'].
    + change (presses [] ?x) with x. congruence.
    + apply IHcount. discriminate.
Qed.

Lemma counted_close t s :
  u32 (t - Blind.lastShutdownTime s) < 2000 ->
  counted t s = Blind.shutdownCount s + 1.
Proof.
  intros H. unfold counted.
  destruct (Z.ltb_spec (u32 (t - Blind.lastShutdownTime s)) 2000); [reflexivity | lia].
Qed.

Lemma counted_positive t s : 0 <= Blind.shutdownCount s -> 1 <= counted t s.
Proof. unfold counted. destruct (_ <? _); lia. Qed.

(** C5, as the sketch has it: outside set mode a stop press less than
    2000 ms after the previous one adds one to the counter and any later
    press sets it to 1; when the counter reaches 3 the stored duration is
    cleared, the working copy goes back to the default and the counter to
    0. Three presses, each less than 2000 ms after the one before, clear
    the duration; presses that each come 2000 ms or more after the one
    before never do. *)
Theorem triple_stop_gesture s t1 t2 t3 :
  Blind.setMode s = false ->
  (4 <= length (Blind.rom s))%nat ->
  0 <= Blind.shutdownCount s ->
  Blind.shutdownCount (Blind.handleShutdownKey t1 s)
    = (if 3 <=? counted t1 s then 0 else counted t1 s)
  /\ (u32 (t2 - t1) < 2000 -> u32 (t3 - t2) < 2000 ->
      cleared (presses [t1; t2; t3] s)
      /\ Blind.CURTAIN_TIME (Blind.loadCurtainTime (presses [t1; t2; t3] s)) = 5000
      /\ (counted t1 s = 1 ->
          Blind.rom (presses [t1; t2] s) = Blind.rom s
          /\ Blind.CURTAIN_TIME (presses [t1; t2] s) = Blind.CURTAIN_TIME s
          /\ Blind.shutdownCount (presses [t1; t2; t3] s) = 0))
  /\ (forall ts,
        Blind.shutdownCount s <= 1 -> spaced t1 ts ->
        Blind.rom (presses (t1 :: ts) s) = Blind.rom s
        /\ Blind.CURTAIN_TIME (presses (t1 :: ts) s) = Blind.CURTAIN_TIME s).
Proof.
  intros Hmode Hlen Hcount.
  pose proof (counted_positive t1 s Hcount) as Hpos.
  split; [| split].
  - destruct (Z.leb_spec 3 (counted t1 s)) as [Hc | Hc].
    + apply (press_third t1 s Hmode Hc).
    + apply (press_below_three t1 s Hmode Hc).
  - intros Hgap2 Hgap3.
    assert (Hmode1 := press_setMode t1 s Hmode).
    assert (Hmode2 := press_setMode t2 _ Hmode1).
    assert (Hcleared : cleared (presses [t1; t2; t3] s)
                       /\ (counted t1 s = 1 ->
                           Blind.rom (presses [t1; t2] s) = Blind.rom s
                           /\ Blind.CURTAIN_TIME (presses [t1; t2] s) = Blind.CURTAIN_TIME s
                           /\ Blind.shutdownCount (presses [t1; t2; t3] s) = 0)).
    { rewrite !presses_cons. change (presses [] ?x) with x.
      destruct (Z.lt_ge_cases (counted t1 s) 3) as [Hc1 | Hc1].
      - destruct (press_below_three t1 s Hmode Hc1)
          as (Hn1 & Hl1 & _ & Hrom1 & Htime1 & _).
        assert (Hc2 : counted t2 (Blind.handleShutdownKey t1 s) = counted t1 s + 1).
        { rewrite counted_close by (rewrite Hl1; assumption). now rewrite Hn1. }
        destruct (Z.lt_ge_cases (counted t1 s) 2) as [Hone | Htwo].
        + destruct (press_below_three t2 _ Hmode1 ltac:(lia))
            as (Hn2 & Hl2 & _ & Hrom2 & Htime2 & _).
          assert (Hc3 : counted t3 (Blind.handleShutdownKey t2
                                     (Blind.handleShutdownKey t1 s)) = 3).
          { rewrite counted_close by (rewrite Hl2; assumption). rewrite Hn2. lia. }
          split.
          * apply press_clears; [assumption | | lia].
            rewrite !press_length; assumption.
          * intros _. rewrite Hrom2, Hrom1, Htime2, Htime1.
            repeat split. apply (press_third t3 _ Hmode2). lia.
        + split; [| lia].
          apply press_keeps_cleared; [assumption |].
          apply press_clears; [assumption | | lia].
          rewrite press_length; assumption.
      - split; [| lia].
        apply press_keeps_cleared; [assumption |].
        apply press_keeps_cleared; [assumption |].
        now apply press_clears. }
    destruct Hcleared as [Hcl Hfresh]. split; [exact Hcl |]. split; [| exact Hfresh].
    destruct Hcl as (_ & Hstored & _).
    rewrite CURTAIN_TIME_loadCurtainTime, Hstored. reflexivity.
  - intros ts Hsmall Hsp. rewrite presses_cons.
    assert (Hc : counted t1 s < 3) by (unfold counted; destruct (_ <? _); lia).
    destruct (press_below_three t1 s Hmode Hc)
      as (_ & Hlast & Hmode1 & Hrom & Htime & _).
    rewrite <- Hlast in Hsp.
    destruct (presses_spaced ts _ Hmode1 Hsp) as (-> & -> & _). auto.
Qed.

Lemma triple_stop_gesture_witness :
  let s := started (EEPROM.put_int 0 8000 EEPROM.oriented) in
  Blind.CURTAIN_TIME s = 8000
  /\ cleared (presses [10000; 11999; 13998] s)
  /\ Blind.CURTAIN_TIME (presses [10000; 12000; 14000; 16000] s) = 8000.
Proof.
  intros s.
  assert (Hmode : Blind.setMode s = false) by reflexivity.
  assert (Hlen : (4 <= length (Blind.rom s))%nat) by (vm_compute; lia).
  assert (Hcount : 0 <= Blind.shutdownCount s) by (vm_compute; discriminate).
  split; [reflexivity |]. split.
  - destruct (triple_stop_gesture s 10000 11999 13998 Hmode Hlen Hcount)
      as (_ & Hclear & _).
    apply Hclear; vm_compute; reflexivity.
  - destruct (triple_stop_gesture s 10000 0 0 Hmode Hlen Hcount)
      as (_ & _ & Hnever).
    refine (eq_trans (proj2 (Hnever [12000; 14000; 16000] _ _)) eq_refl).
    + vm_compute. discriminate.
    + vm_compute. repeat split; discriminate.
Defined.

(** C5 as worded fails at the boundary: three presses exactly 2000 ms
    apart are "at most 2000 ms apart", yet each of them restarts the
    count at 1 and the stored duration stays. *)
Lemma presses_2000_apart_do_not_clear :
  let s := started (EEPROM.put_int 0 8000 EEPROM.oriented) in
  let s' := presses [10000; 12000; 14000] s in
  u32 (12000 - 10000) <= 2000
  /\ u32 (14000 - 12000) <= 2000
  /\ Blind.shutdownCount s' = 1
  /\ stored_duration (Blind.rom s') = 8000
  /\ Blind.CURTAIN_TIME s' = 8000
  /\ Blind.CURTAIN_TIME s' <> Blind.DEFAULT_CURTAIN_TIME.
Proof. vm_compute. repeat split; discriminate. Qed.

(** * A stop press while idle leaves the stop flag up *)

Lemma rotate_loop_stopped millis decode startTime duration fuel k :
  Blind.rotate_loop millis decode startTime duration fuel k true = Some (k, true).
Proof. destruct fuel; cbn; now rewrite andb_false_r. Qed.

Lemma rotateForTime_stopped w duration clockwise s :
  Blind.stopRequested s = true ->
  exists s', Blind.rotateForTime w duration clockwise s = Some s'
    /\ Blind.stopRequested s' = true
    /\ Blind.pulses s' = Blind.pulses s.
Proof.
  intros Hstop. unfold Blind.rotateForTime.
  replace (Blind.stopRequested _) with true by (now destruct s).
  rewrite rotate_loop_stopped. eexists. split; [reflexivity |].
  destruct s; cbn. split; [reflexivity | lia].
Qed.

Lemma blocked_handleIRCommand w command s :
  Blind.stopRequested s = true ->
  carried_out_roll command s = false ->
  exists s', Blind.handleIRCommand w command s = Some s'
    /\ Blind.stopRequested s' = true
    /\ Blind.pulses s' = Blind.pulses s.
Proof.
  intros Hstop Hno. unfold carried_out_roll in Hno. unfold Blind.handleIRCommand.
  destruct (Z.eqb_spec command Blind.IR_KEY_UP) as [-> | Hup].
  { cbn in Hno. rewrite orb_false_r in Hno. apply negb_false_iff in Hno.
    rewrite Hno. eauto. }
  destruct (Z.eqb_spec command Blind.IR_KEY_DOWN) as [-> | Hdown].
  { cbn in Hno. apply negb_false_iff in Hno. rewrite Hno. eauto. }
  destruct (command =? Blind.IR_KEY_LEFT).
  { destruct (rotateForTime_stopped w Blind.SIDE_KEY_TIME
                (Blind.leftDirection (Blind.isNormalDirection
                   (Blind.set_isFullyRolledDown false (Blind.set_isFullyRolledUp false s))))
                (Blind.set_isFullyRolledDown false (Blind.set_isFullyRolledUp false s)))
      as (s' & Hrun & Hflag & Hpulses); [now destruct s |].
    exists s'. split; [exact Hrun |]. split; [exact Hflag |].
    rewrite Hpulses. now destruct s. }
  destruct (command =? Blind.IR_KEY_RIGHT).
  { destruct (rotateForTime_stopped w Blind.SIDE_KEY_TIME
                (Blind.rightDirection (Blind.isNormalDirection
                   (Blind.set_isFullyRolledDown false (Blind.set_isFullyRolledUp false s))))
                (Blind.set_isFullyRolledDown false (Blind.set_isFullyRolledUp false s)))
      as (s' & Hrun & Hflag & Hpulses); [now destruct s |].
    exists s'. split; [exact Hrun |]. split; [exact Hflag |].
    rewrite Hpulses. now destruct s. }
  destruct (command =? Blind.IR_KEY_SET).
  { eexists. split; [reflexivity |]. unfold Blind.handleSetKey.
    destruct s; cbn in *. destruct setMode; cbn; auto. }
  destruct (command =? Blind.IR_KEY_SHUTDOWN).
  { eexists. split; [reflexivity |]. unfold Blind.handleShutdownKey.
    destruct s; cbn in *. destruct setMode; cbn; case_ifs; auto. }
  destruct (command =? Blind.IR_KEY_DIRECTION).
  { eexists. split; [reflexivity |]. unfold Blind.handleDirectionKey.
    destruct s; cbn in *. destruct isNormalDirection; cbn; auto. }
  eauto.
Qed.

Lemma blocked_run_commands cs : forall s,
  Blind.stopRequested s = true ->
  no_roll cs s = true ->
  exists s', run_commands cs s = Some s'
    /\ Blind.stopRequested s' = true
    /\ Blind.pulses s' = Blind.pulses s.
Proof.
  induction cs as [| [w c] cs IH]; intros s Hstop Hno.
  - exists s. auto.
  - cbn [no_roll] in Hno. apply andb_true_iff in Hno as [Hc Hrest].
    apply negb_true_iff in Hc.
    destruct (blocked_handleIRCommand w c s Hstop Hc)
      as (s1 & Hrun & Hflag & Hpulses).
    rewrite Hrun in Hrest.
    destruct (IH s1 Hflag Hrest) as (s2 & Hrun2 & Hflag2 & Hpulses2).
    exists s2. cbn. rewrite Hrun. split; [exact Hrun2 |].
    split; [exact Hflag2 | congruence].
Qed.

Lemma full_move_resets_flag w command s s' :
  carried_out_roll command s = true ->
  Blind.handleIRCommand w command s = Some s' ->
  Blind.stopRequested s' = false.
Proof.
  unfold carried_out_roll.
  rewrite orb_true_iff, !andb_true_iff, !negb_true_iff, !Z.eqb_eq.
  intros [[-> Hflag] | [-> Hflag]] H; cbn in H; rewrite Hflag in H.
  - apply rollUpCurtain_spec in H. tauto.
  - apply layDownCurtain_spec in H. tauto.
Qed.

Lemma blocked_nudge w command s :
  Blind.stopRequested s = true ->
  command = Blind.IR_KEY_LEFT \/ command = Blind.IR_KEY_RIGHT ->
  exists s', Blind.handleIRCommand w command s = Some s'
    /\ Blind.pulses s' = Blind.pulses s
    /\ Blind.stopRequested s' = true
    /\ Blind.isFullyRolledUp s' = false
    /\ Blind.isFullyRolledDown s' = false.
Proof.
  intros Hstop Hkey.
  destruct (blocked_handleIRCommand w command s Hstop) as (s' & Hrun & Hflag & Hp).
  { unfold carried_out_roll. now destruct Hkey as [-> | ->]. }
  exists s'. split; [exact Hrun |]. split; [exact Hp |]. split; [exact Hflag |].
  destruct Hkey as [-> | ->]; cbn in Hrun;
    apply rotateForTime_frame in Hrun as (_ & _ & _ & -> & -> & _);
    now destruct s.
Qed.

(** C10, as the sketch has it: a stop press handled outside set mode
    that is not the third of the gesture leaves [stopRequested] up. From
    then on every command that is not carried out as a full roll is
    handled with the flag still up and without a single step pulse, the
    nudges included, since [rotateForTime] finds the flag up on entry.
    The flag comes down exactly when a roll-up or roll-down is carried
    out. An UP or DOWN key that [handleIRCommand] ignores because the
    blind is marked fully up or fully down changes nothing, so the
    nudges stay blocked after it; a blocked nudge takes both marks down,
    so that the roll command after it is carried out. *)
Theorem stop_flag_blocks_nudges t s :
  Blind.setMode s = false ->
  counted t s < 3 ->
  let s1 := Blind.handleShutdownKey t s in
  Blind.stopRequested s1 = true
  /\ (forall cs,
        no_roll cs s1 = true ->
        exists s2, run_commands cs s1 = Some s2
          /\ Blind.stopRequested s2 = true
          /\ Blind.pulses s2 = Blind.pulses s1)
  /\ (forall w command s2 s3,
        Blind.stopRequested s2 = true ->
        Blind.handleIRCommand w command s2 = Some s3 ->
        Blind.stopRequested s3 = negb (carried_out_roll command s2))
  /\ (forall w command s2,
        (command = Blind.IR_KEY_UP /\ Blind.isFullyRolledUp s2 = true)
        \/ (command = Blind.IR_KEY_DOWN /\ Blind.isFullyRolledDown s2 = true) ->
        Blind.handleIRCommand w command s2 = Some s2)
  /\ (forall w command s2,
        Blind.stopRequested s2 = true ->
        command = Blind.IR_KEY_LEFT \/ command = Blind.IR_KEY_RIGHT ->
        exists s3, Blind.handleIRCommand w command s2 = Some s3
          /\ Blind.pulses s3 = Blind.pulses s2
          /\ Blind.stopRequested s3 = true
          /\ Blind.isFullyRolledUp s3 = false
          /\ Blind.isFullyRolledDown s3 = false).
Proof.
  intros Hmode Hc s1.
  destruct (press_below_three t s Hmode Hc) as (_ & _ & _ & _ & _ & Hstop & _).
  split; [exact Hstop |]. split; [| split; [| split]].
  - intros cs Hno. now apply blocked_run_commands.
  - intros w command s2 s3 Hflag Hrun.
    destruct (carried_out_roll command s2) eqn:Hroll.
    + eapply full_move_resets_flag; eauto.
    + destruct (blocked_handleIRCommand w command s2 Hflag Hroll)
        as (s3' & Hrun' & Hflag' & _). cbn. congruence.
  - intros w command s2 [[-> Hup] | [-> Hdown]]; cbn.
    + now rewrite Hup.
    + now rewrite Hdown.
  - intros w command s2. apply blocked_nudge.
Qed.

Lemma stop_flag_blocks_nudges_witness :
  exists s,
    Blind.handleIRCommand (quiet_world 1000) Blind.IR_KEY_UP (started EEPROM.oriented)
    = Some s
    /\ Blind.isFullyRolledUp s = true
    /\ exists s2, run_commands up_then_nudges (Blind.handleShutdownKey 10000 s) = Some s2
         /\ Blind.stopRequested s2 = true
         /\ Blind.pulses s2 = 2500%nat.
Proof.
  destruct (Blind.handleIRCommand (quiet_world 1000) Blind.IR_KEY_UP
              (started EEPROM.oriented)) as [s |] eqn:Hup;
    [| vm_compute in Hup; discriminate].
  assert (Hs : Blind.isFullyRolledUp s = true /\ Blind.setMode s = false
               /\ counted 10000 s < 3 /\ Blind.pulses s = 2500%nat
               /\ no_roll up_then_nudges (Blind.handleShutdownKey 10000 s) = true).
  { vm_compute in Hup. injection Hup as <-. vm_compute. repeat split. }
  destruct Hs as (Hhint & Hmode & Hcount & Hpulses & Hno).
  destruct (stop_flag_blocks_nudges 10000 s Hmode Hcount) as (_ & Hblocked & _).
  destruct (Hblocked up_then_nudges Hno) as (s2 & Hrun & Hflag & Hp).
  exists s. split; [reflexivity |]. split; [exact Hhint |].
  exists s2. split; [exact Hrun |]. split; [exact Hflag |].
  rewrite Hp. destruct (press_below_three 10000 s Hmode Hcount)
    as (_ & _ & _ & _ & _ & _ & _ & _ & ->). exact Hpulses.
Defined.

(** C10 as worded fails for a roll command that is processed but not
    carried out: after a completed roll-up the blind is marked fully up;
    a stop press then raises the flag, and the UP key handled after it
    is ignored and leaves the flag up, so the LEFT key that follows
    still makes no step. Only after that nudge, which takes the mark
    down, is the UP key carried out and the flag reset. *)
Lemma ignored_roll_keeps_nudges_blocked :
  let s := started EEPROM.oriented in
  let up := (quiet_world 1000, Blind.IR_KEY_UP) in
  let stop := (quiet_world 10000, Blind.IR_KEY_SHUTDOWN) in
  let up_again := (quiet_world 15000, Blind.IR_KEY_UP) in
  let left := (quiet_world 20000, Blind.IR_KEY_LEFT) in
  let outcome := option_map (fun s' => (Blind.pulses s', Blind.stopRequested s')) in
  outcome (run_commands [up; stop] s) = Some (2500%nat, true)
  /\ outcome (run_commands [up; stop; up_again] s) = Some (2500%nat, true)
  /\ outcome (run_commands [up; stop; up_again; left] s) = Some (2500%nat, true)
  /\ outcome (run_commands [up; stop; up_again; left; up_again] s)
     = Some (5000%nat, false).
Proof. vm_compute. repeat split. Qed.

(** The same nudge with the flag down: the LEFT key right after
    power-on runs for the full second. *)
Example nudge_after_power_on :
  option_map Blind.pulses
    (Blind.handleIRCommand (quiet_world 20000) Blind.IR_KEY_LEFT
       (started EEPROM.oriented)) = Some 500%nat.
Proof. vm_compute. reflexivity. Qed.

(** * Cancelling a move *)

Lemma poll_due_at (p : nat) :
  Z.of_nat p < 2 ^ 31 -> (p mod 100 = 0)%nat -> Blind.poll_due p = true.
Proof.
  intros Hsmall Hmod. unfold Blind.poll_due.
  rewrite s32_small by lia.
  rewrite Z.rem_mod_nonneg by lia.
  apply Z.eqb_eq.
  change 100 with (Z.of_nat 100). rewrite <- Nat2Z.inj_mod, Hmod. reflexivity.
Qed.

Lemma next_poll_spec n :
  (next_poll n mod 100 = 0 /\ n < next_poll n <= n + 100)%nat.
Proof.
  unfold next_poll. split.
  - rewrite Nat.mul_comm. apply Nat.Div0.mod_mul.
  - pose proof (Nat.div_mod_eq n 100) as Hdm.
    pose proof (Nat.mod_upper_bound n 100 ltac:(lia)) as Hub. lia.
Qed.

Section TimedMove.
Variable millis : nat -> Z.
Variable decode : nat -> option IRData.
Variables startTime duration : Z.

Lemma rotate_loop_stops (p : nat) d :
  Z.of_nat p < 2 ^ 31 -> (p mod 100 = 0)%nat ->
  decode p = Some d -> Blind.valid_stop d = true ->
  forall fuel k stop,
    (k < p)%nat -> (p - k <= fuel)%nat ->
    exists k' stop',
      Blind.rotate_loop millis decode startTime duration fuel k stop = Some (k', stop')
      /\ (k <= k' <= p)%nat.
Proof.
  intros Hsmall Hmod Hdec Hvalid.
  induction fuel as [| fuel IH]; intros k stop Hk Hfuel; cbn [Blind.rotate_loop];
    destruct (Blind.time_left millis startTime duration k && negb stop);
    try (exists k, stop; split; [reflexivity | lia]).
  - lia.
  - destruct (Nat.eq_dec (S k) p) as [Heq | Hne].
    + rewrite Heq, poll_due_at, Hdec, Hvalid by assumption.
      exists p, true. split; [reflexivity | lia].
    + assert (Hrec : exists k' stop',
                Blind.rotate_loop millis decode startTime duration fuel (S k) stop
                = Some (k', stop') /\ (k <= k' <= p)%nat).
      { destruct (IH (S k) stop ltac:(lia) ltac:(lia)) as (k' & stop' & Hrun & Hle).
        exists k', stop'. split; [exact Hrun | lia]. }
      destruct (Blind.poll_due (S k)); [| exact Hrec].
      destruct (decode (S k)) as [c |]; [| exact Hrec].
      destruct (Blind.valid_stop c); [| exact Hrec].
      exists (S k), true. split; [reflexivity | lia].
Qed.

Lemma rotate_loop_noise :
  (forall k c, decode k = Some c -> Blind.valid_stop c = false) ->
  forall fuel k stop,
    Blind.rotate_loop millis decode startTime duration fuel k stop
    = Blind.rotate_loop millis (fun _ => None) startTime duration fuel k stop.
Proof.
  intros Hnoise. induction fuel as [| fuel IH]; intros k stop; cbn [Blind.rotate_loop].
  - reflexivity.
  - destruct (Blind.time_left millis startTime duration k && negb stop); [| reflexivity].
    destruct (Blind.poll_due (S k)); [| apply IH].
    destruct (decode (S k)) as [c |] eqn:Hc; [| apply IH].
    rewrite (Hnoise _ _ Hc). apply IH.
Qed.
Lemma rotate_loop_runs_to_poll (p : nat) d :
  Z.of_nat p < 2 ^ 31 -> (p mod 100 = 0)%nat ->
  decode p = Some d -> Blind.valid_stop d = true ->
  (forall k, (k < p)%nat -> Blind.time_left millis startTime duration k = true) ->
  (forall k c, (k < p)%nat -> decode k = Some c -> Blind.valid_stop c = false) ->
  forall fuel k,
    (k < p)%nat -> (p - k <= fuel)%nat ->
    Blind.rotate_loop millis decode startTime duration fuel k false = Some (p, true).
Proof.
  intros Hsmall Hmod Hdec Hvalid Htime Hquiet.
  induction fuel as [| fuel IH]; intros k Hk Hfuel; [lia |].
  cbn [Blind.rotate_loop]. rewrite (Htime k Hk). cbn [andb negb].
  destruct (Nat.eq_dec (S k) p) as [Heq | Hne].
  - rewrite Heq, poll_due_at, Hdec, Hvalid by assumption. reflexivity.
  - assert (Hrec : Blind.rotate_loop millis decode startTime duration fuel (S k) false
                   = Some (p, true)) by (apply IH; lia).
    destruct (Blind.poll_due (S k)); [| exact Hrec].
    destruct (decode (S k)) as [c |] eqn:Hc; [| exact Hrec].
    rewrite (Hquiet (S k) c ltac:(lia) Hc). exact Hrec.
Qed.
End TimedMove.

Lemma noise_is_no_stop c :
  ir_address c = 0 \/ ir_protocol c = 0 -> Blind.valid_stop c = false.
Proof.
  unfold Blind.valid_stop. intros [-> | ->]; cbn.
  - now rewrite andb_false_r.
  - apply andb_false_r.
Qed.

Lemma next_ramp_poll_spec n :
  0 <= n ->
  Z.rem (next_ramp_poll n) 100 = 0 /\ n <= next_ramp_poll n <= n + 99.
Proof.
  intros Hn. unfold next_ramp_poll. split.
  - rewrite Z.mul_comm. apply Z.rem_mul. lia.
  - pose proof (Z.div_mod (n + 99) 100 ltac:(lia)) as Hdm.
    pose proof (Z.mod_pos_bound (n + 99) 100 ltac:(lia)) as Hub. lia.
Qed.

Section RampMove.
Variable decode : Z -> option IRData.
Variable steps : Z.

Lemma ramp_loop_stops i d :
  Z.rem i 100 = 0 -> decode i = Some d -> Sep7a.valid_stop d = true ->
  forall n i0 stop,
    i0 <= i ->
    Z.of_nat (length (fst (Sep7a.ramp_loop decode steps n i0 stop))) <= i - i0 + 1.
Proof.
  intros Hrem Hdec Hvalid.
  induction n as [| n IH]; intros i0 stop Hle; cbn [Sep7a.ramp_loop].
  - cbn. lia.
  - destruct ((i0 <? steps) && negb stop); [| cbn; lia].
    destruct (Z.eq_dec i0 i) as [-> | Hne].
    + rewrite Hrem, Hdec, Hvalid. cbn. lia.
    + assert (Hrec : Z.of_nat (length (fst
                (let '(ds, b) := Sep7a.ramp_loop decode steps n (i0 + 1) stop in
                 (Sep7a.stepDelay steps i0 :: ds, b)))) <= i - i0 + 1).
      { specialize (IH (i0 + 1) stop ltac:(lia)).
        destruct (Sep7a.ramp_loop decode steps n (i0 + 1) stop) as [ds b].
        cbn [fst length] in *. lia. }
      destruct (Z.rem i0 100 =? 0); [| exact Hrec].
      destruct (decode i0) as [c |]; [| exact Hrec].
      destruct (Sep7a.valid_stop c); [| exact Hrec].
      cbn. lia.
Qed.
Lemma ramp_loop_runs_to_poll i d :
  0 <= i < steps -> Z.rem i 100 = 0 ->
  decode i = Some d -> Sep7a.valid_stop d = true ->
  (forall j c, j < i -> decode j = Some c -> Sep7a.valid_stop c = false) ->
  forall n i0,
    0 <= i0 <= i -> i - i0 < Z.of_nat n ->
    Sep7a.ramp_loop decode steps n i0 false
    = (map (Sep7a.stepDelay steps) (seqZ i0 (i - i0 + 1)), true).
Proof.
  intros Hi Hrem Hdec Hvalid Hquiet.
  induction n as [| n IH]; intros i0 Hle Hn; [lia |].
  cbn [Sep7a.ramp_loop].
  destruct (Z.ltb_spec i0 steps); [| lia]. cbn [andb negb].
  rewrite (seqZ_cons i0) by lia.
  replace (Z.pred (i - i0 + 1)) with (i - i0) by lia.
  replace (Z.succ i0) with (i0 + 1) by lia.
  destruct (Z.eq_dec i0 i) as [-> | Hne].
  - rewrite Hrem, Hdec, Hvalid. cbn [Z.eqb].
    now rewrite Z.sub_diag, seqZ_nil by lia.
  - assert (Hrec : (let '(ds, b) := Sep7a.ramp_loop decode steps n (i0 + 1) false in
                    (Sep7a.stepDelay steps i0 :: ds, b))
                   = (map (Sep7a.stepDelay steps) (i0 :: seqZ (i0 + 1) (i - i0)), true)).
    { rewrite IH by lia.
      replace (i - (i0 + 1) + 1) with (i - i0) by lia. reflexivity. }
    destruct (Z.rem i0 100 =? 0); [| exact Hrec].
    destruct (decode i0) as [c |] eqn:Hc; [| exact Hrec].
    rewrite (Hquiet i0 c ltac:(lia) Hc). exact Hrec.
Qed.
End RampMove.

Lemma ramp_loop_noise decode steps :
  (forall i c, decode i = Some c -> Sep7a.valid_stop c = false) ->
  forall n i stop,
    Sep7a.ramp_loop decode steps n i stop
    = Sep7a.ramp_loop (fun _ => None) steps n i stop.
Proof.
  intros Hnoise. induction n as [| n IH]; intros i stop; cbn [Sep7a.ramp_loop].
  - reflexivity.
  - destruct ((i <? steps) && negb stop); [| reflexivity].
    rewrite IH.
    destruct (Z.rem i 100 =? 0); [| reflexivity].
    destruct (decode i) as [c |] eqn:Hc; [| reflexivity].
    now rewrite (Hnoise _ _ Hc).
Qed.

Lemma ramp_noise_is_no_stop c :
  ir_address c = 0 \/ ir_protocol c = 0 -> Sep7a.valid_stop c = false.
Proof.
  unfold Sep7a.valid_stop. intros [-> | ->]; cbn.
  - now rewrite andb_false_r.
  - apply andb_false_r.
Qed.

(** C3: [rotateForTime] polls the receiver after every 100th step and
    [smoothRotate] at every 100th step index. When the poll that follows
    the [n]-th step decodes a stop key with non-zero address and
    protocol, the pulse loop ends there, at most 100 steps after step
    [n], from any state the globals are in (the debounce fields play no
    part) and with the driver disabled again by [rotateForTime]; a move
    that was still under way then has made exactly the steps up to that
    poll and leaves the loop with the stop flag up. Decodes
    with a zero address or a zero protocol change nothing: the move runs
    as if nothing had been received. *)
Theorem emergency_stop_within_poll_interval
    w duration clockwise s decode steps m (n : nat) d d' :
  Z.of_nat (next_poll n) < 2 ^ 31 ->
  (next_poll n <= Blind.fuel w)%nat ->
  Blind.rot_decode w (next_poll n) = Some d -> Blind.valid_stop d = true ->
  decode (next_ramp_poll (Z.of_nat n)) = Some d' -> Sep7a.valid_stop d' = true ->
  (exists s', Blind.rotateForTime w duration clockwise s = Some s'
     /\ (Blind.pulses s' <= Blind.pulses s + n + 100)%nat
     /\ Blind.enablePin s' = HIGH)
  /\ (Blind.stopRequested s = false ->
      (forall k, (k < next_poll n)%nat ->
         Blind.time_left (Blind.rot_millis w) (Blind.rot_start w) duration k = true) ->
      (forall k c, (k < next_poll n)%nat ->
         Blind.rot_decode w k = Some c -> Blind.valid_stop c = false) ->
      exists s', Blind.rotateForTime w duration clockwise s = Some s'
        /\ Blind.pulses s' = (Blind.pulses s + next_poll n)%nat
        /\ Blind.stopRequested s' = true)
  /\ (length (Sep7a.delays (Sep7a.smoothRotate decode steps clockwise m))
      <= length (Sep7a.delays m) + n + 100)%nat
  /\ (Sep7a.stopRequested m = false ->
      next_ramp_poll (Z.of_nat n) < steps ->
      (forall j c, j < next_ramp_poll (Z.of_nat n) ->
         decode j = Some c -> Sep7a.valid_stop c = false) ->
      Sep7a.delays (Sep7a.smoothRotate decode steps clockwise m)
      = Sep7a.delays m
        ++ map (Sep7a.stepDelay steps) (seqZ 0 (next_ramp_poll (Z.of_nat n) + 1)))
  /\ (forall w',
        (forall k c, Blind.rot_decode w' k = Some c ->
                     ir_address c = 0 \/ ir_protocol c = 0) ->
        Blind.rotateForTime w' duration clockwise s
        = Blind.rotateForTime (silent w') duration clockwise s)
  /\ (forall decode',
        (forall i c, decode' i = Some c -> ir_address c = 0 \/ ir_protocol c = 0) ->
        Sep7a.smoothRotate decode' steps clockwise m
        = Sep7a.smoothRotate (fun _ => None) steps clockwise m).
Proof.
  intros Hsmall Hfuel Hdec Hvalid Hdec' Hvalid'.
  destruct (next_poll_spec n) as (Hmod & Hlt & Hle).
  split; [| split; [| split; [| split; [| split]]]].
  - unfold Blind.rotateForTime.
    destruct (rotate_loop_stops (Blind.rot_millis w) (Blind.rot_decode w)
                (Blind.rot_start w) duration (next_poll n) d Hsmall Hmod Hdec Hvalid
                (Blind.fuel w) 0%nat
                (Blind.stopRequested
                   (Blind.set_dirPin (if clockwise then HIGH else LOW)
                      (Blind.set_enablePin LOW s)))
                ltac:(lia) ltac:(lia)) as (k' & stop' & Hrun & Hk').
    rewrite Hrun. eexists. split; [reflexivity |].
    destruct s; cbn. split; [lia | reflexivity].
  - intros Hflag Htime Hquiet. unfold Blind.rotateForTime.
    replace (Blind.stopRequested _) with false by (now destruct s).
    rewrite (rotate_loop_runs_to_poll _ _ _ _ (next_poll n) d)
      by (assumption || lia).
    eexists. split; [reflexivity |]. now destruct s.
  - destruct (next_ramp_poll_spec (Z.of_nat n) ltac:(lia)) as (Hrem & Hlo & Hhi).
    pose proof (ramp_loop_stops decode steps _ d' Hrem Hdec' Hvalid'
                  (Z.to_nat steps) 0 (Sep7a.stopRequested m) ltac:(lia)) as Hlen.
    unfold Sep7a.smoothRotate.
    destruct (Sep7a.ramp_loop decode steps (Z.to_nat steps) 0 (Sep7a.stopRequested m))
      as [ds b].
    cbn [fst Sep7a.delays] in *. rewrite length_app. lia.
  - intros Hflag Hin Hquiet.
    destruct (next_ramp_poll_spec (Z.of_nat n) ltac:(lia)) as (Hrem & Hlo & Hhi).
    unfold Sep7a.smoothRotate. rewrite Hflag.
    rewrite (ramp_loop_runs_to_poll decode steps (next_ramp_poll (Z.of_nat n)) d')
      by (assumption || lia).
    cbn [Sep7a.delays]. now rewrite Z.sub_0_r.
  - intros w' Hnoise. unfold Blind.rotateForTime, silent. cbn.
    rewrite rotate_loop_noise; [reflexivity |].
    intros k c Hc. apply noise_is_no_stop. eauto.
  - intros decode' Hnoise. unfold Sep7a.smoothRotate.
    rewrite ramp_loop_noise; [reflexivity |].
    intros i c Hc. apply ramp_noise_is_no_stop. eauto.
Qed.

Lemma emergency_stop_within_poll_interval_witness :
  (exists s',
     Blind.rotateForTime stop_at_300 5000 true (started EEPROM.oriented) = Some s'
     /\ (Blind.pulses s' <= 350)%nat)
  /\ (length (Sep7a.delays
               (Sep7a.smoothRotate ramp_stop_at_300 Sep7a.nudge_steps false motor_at_rest))
      <= 350)%nat.
Proof.
  destruct (emergency_stop_within_poll_interval stop_at_300 5000 true
              (started EEPROM.oriented) ramp_stop_at_300 Sep7a.nudge_steps
              motor_at_rest 250
              (key_of Blind.IR_ADDRESS Blind.IR_KEY_SHUTDOWN)
              (key_of Blind.IR_ADDRESS Sep7a.IR_KEY_SHUTDOWN))
    as ((s' & Hrun & Hpulses & _) & _ & Hramp & _).
  - vm_compute. reflexivity.
  - vm_compute. lia.
  - reflexivity.
  - reflexivity.
  - reflexivity.
  - reflexivity.
  - split; [exists s'; split; [exact Hrun | exact Hpulses] | exact Hramp].
Defined.

(** * Foreign remotes *)

Lemma valid_stop_spec d :
  Blind.valid_stop d = true
  <-> ir_command d = Blind.IR_KEY_SHUTDOWN /\ ir_address d <> 0 /\ ir_protocol d <> 0.
Proof.
  unfold Blind.valid_stop.
  rewrite !andb_true_iff, !negb_true_iff, Z.eqb_eq, !Z.eqb_neq. tauto.
Qed.

Lemma calibration_poll_stops j s d :
  Blind.setMode s = true -> Blind.timingInProgress s = true ->
  Blind.motorRunning s = true ->
  Blind.decoded j = None ->
  Blind.cal_decoded j = Some d -> Blind.valid_stop d = true ->
  Z.rem (s32 (Blind.stepCount s + 1)) 500 = 0 ->
  exists s',
    Blind.loop j s = Some s'
    /\ Blind.setMode s' = false
    /\ Blind.enablePin s' = HIGH
    /\ Blind.motorRunning s' = false
    /\ Blind.rom s' = Blind.rom s
    /\ Blind.CURTAIN_TIME s' = Blind.CURTAIN_TIME s.
Proof.
  intros Hmode Htim Hrun Hdec Hcal Hvalid Hrem.
  unfold Blind.loop. rewrite Hdec. eexists. split; [reflexivity |].
  unfold Blind.calibration_step, Blind.keep_disabled. rewrite Hmode, Htim, Hrun.
  cbn [andb].
  replace (Blind.stepCount _) with (s32 (Blind.stepCount s + 1)) by (now destruct s).
  rewrite Hrem, Hcal, Hvalid. cbn [Z.eqb]. destruct s; cbn. repeat split.
Qed.

(** C9, as the sketch has it. A command decoded on entry of [loop] whose
    address is not [IR_ADDRESS] ends the pass at once: the state after
    the pass is the state before it, so no global, pin or EEPROM cell
    changes and no step pulse is sent, whatever the command is, the stop
    key included. The polls made while the motor turns do not compare
    the address with [IR_ADDRESS]: they take the stop key from any
    sender with a non-zero address and protocol. Decoded at the poll
    after step [p] of a timed move, such a command ends the move there
    with the stop flag up; decoded at the 500-step poll of the
    calibration, it ends the calibration without saving. Commands other
    than the stop key are ignored by the polls of a move. *)
Theorem foreign_address_discarded i s d :
  Blind.decoded i = Some d ->
  ir_address d <> Blind.IR_ADDRESS ->
  Blind.loop i s = Some s
  /\ (Blind.valid_stop d = true
      <-> ir_command d = Blind.IR_KEY_SHUTDOWN
          /\ ir_address d <> 0 /\ ir_protocol d <> 0)
  /\ (Blind.valid_stop d = true ->
      forall w duration clockwise s0 (p : nat),
        Blind.stopRequested s0 = false ->
        (0 < p)%nat -> (p mod 100 = 0)%nat -> Z.of_nat p < 2 ^ 31 ->
        (p <= Blind.fuel w)%nat ->
        Blind.rot_decode w p = Some d ->
        (forall k, (k < p)%nat ->
           Blind.time_left (Blind.rot_millis w) (Blind.rot_start w) duration k = true) ->
        (forall k c, (k < p)%nat ->
           Blind.rot_decode w k = Some c -> Blind.valid_stop c = false) ->
        exists s',
          Blind.rotateForTime w duration clockwise s0 = Some s'
          /\ Blind.pulses s' = (Blind.pulses s0 + p)%nat
          /\ Blind.stopRequested s' = true)
  /\ (Blind.valid_stop d = true ->
      forall j s0,
        Blind.setMode s0 = true -> Blind.timingInProgress s0 = true ->
        Blind.motorRunning s0 = true ->
        Blind.decoded j = None -> Blind.cal_decoded j = Some d ->
        Z.rem (s32 (Blind.stepCount s0 + 1)) 500 = 0 ->
        exists s',
          Blind.loop j s0 = Some s'
          /\ Blind.setMode s' = false
          /\ Blind.enablePin s' = HIGH
          /\ Blind.motorRunning s' = false
          /\ Blind.rom s' = Blind.rom s0
          /\ Blind.CURTAIN_TIME s' = Blind.CURTAIN_TIME s0)
  /\ (forall w duration clockwise s0,
        (forall k c, Blind.rot_decode w k = Some c ->
                     ir_command c <> Blind.IR_KEY_SHUTDOWN) ->
        Blind.rotateForTime w duration clockwise s0
        = Blind.rotateForTime (silent w) duration clockwise s0).
Proof.
  intros Hd Haddr. split; [| split; [| split; [| split]]].
  - unfold Blind.loop. rewrite Hd.
    destruct (Z.eqb_spec (ir_address d) Blind.IR_ADDRESS) as [Heq | _];
      [contradiction | reflexivity].
  - apply valid_stop_spec.
  - intros Hvalid w duration clockwise s0 p Hflag Hpos Hmod Hsmall Hfuel Hdec
      Htime Hquiet.
    unfold Blind.rotateForTime.
    replace (Blind.stopRequested _) with false by (now destruct s0).
    rewrite (rotate_loop_runs_to_poll _ _ _ _ p d) by (assumption || lia).
    eexists. split; [reflexivity |]. now destruct s0.
  - intros Hvalid j s0 Hmode Htim Hrun Hdec Hcal Hrem.
    now apply (calibration_poll_stops j s0 d).
  - intros w duration clockwise s0 Hother. unfold Blind.rotateForTime, silent. cbn.
    rewrite rotate_loop_noise; [reflexivity |].
    intros k c Hc. apply not_true_iff_false. rewrite valid_stop_spec.
    intros (Hkey & _). exact (Hother k c Hc Hkey).
Qed.

Lemma foreign_address_discarded_witness :
  let d := key_of 0x1234 Blind.IR_KEY_SHUTDOWN in
  Blind.loop (key_press 0x1234 Blind.IR_KEY_SHUTDOWN 71000) calibrating
  = Some calibrating
  /\ Blind.valid_stop d = true
  /\ (exists s', Blind.rotateForTime foreign_stop_at_100 5000 true
                   (started EEPROM.oriented) = Some s'
                 /\ Blind.pulses s' = 100%nat
                 /\ Blind.stopRequested s' = true)
  /\ (exists s', Blind.loop (idle_pass 2000 (Some d))
                   (Blind.set_stepCount 499 calibrating) = Some s'
                 /\ Blind.setMode s' = false).
Proof.
  intros d.
  destruct (foreign_address_discarded
              (key_press 0x1234 Blind.IR_KEY_SHUTDOWN 71000) calibrating d)
    as (Hdrop & Hstop & Hmove & Hcal & _).
  - reflexivity.
  - vm_compute. discriminate.
  - assert (Hvalid : Blind.valid_stop d = true).
    { apply Hstop. vm_compute. repeat split; discriminate. }
    split; [exact Hdrop |]. split; [exact Hvalid |]. split.
    + destruct (Hmove Hvalid foreign_stop_at_100 5000 true (started EEPROM.oriented)
                  100%nat) as (s' & Hrun & Hp & Hflag).
      * reflexivity.
      * lia.
      * reflexivity.
      * vm_compute. reflexivity.
      * apply Nat.leb_le. vm_compute. reflexivity.
      * reflexivity.
      * intros k Hk. unfold Blind.time_left, foreign_stop_at_100. cbn.
        apply Z.ltb_lt. rewrite !u32_small; change (2 ^ 32) with 4294967296; lia.
      * intros k c Hk. unfold foreign_stop_at_100. cbn.
        destruct (Nat.eqb_spec k 100); [lia | discriminate].
      * exists s'. split; [exact Hrun |]. split; [exact Hp | exact Hflag].
    + destruct (Hcal Hvalid (idle_pass 2000 (Some d))
                  (Blind.set_stepCount 499 calibrating))
        as (s' & Hrun & Hgone & _); try reflexivity.
      exists s'. split; [exact Hrun | exact Hgone].
Defined.

(** C9 as worded fails at the polls: while the UP key rolls the blind
    up, a stop key decoded from the remote with address [0x1234] ends the
    roll after 100 of its 2500 steps and the blind is not marked fully
    up; and during calibration the same key, decoded at the 500-step
    poll, takes the sketch out of set mode. *)
Lemma foreign_stop_key_ends_roll :
  let d := key_of 0x1234 Blind.IR_KEY_SHUTDOWN in
  let s := started EEPROM.oriented in
  ir_address d <> Blind.IR_ADDRESS
  /\ Blind.rot_decode foreign_stop_at_100 100 = Some d
  /\ option_map (fun s' => (Blind.pulses s', Blind.isFullyRolledUp s'))
       (Blind.handleIRCommand (silent foreign_stop_at_100) Blind.IR_KEY_UP s)
     = Some (2500%nat, true)
  /\ option_map (fun s' => (Blind.pulses s', Blind.isFullyRolledUp s'))
       (Blind.handleIRCommand foreign_stop_at_100 Blind.IR_KEY_UP s)
     = Some (100%nat, false)
  /\ Blind.setMode (Blind.set_stepCount 499 calibrating) = true
  /\ option_map Blind.setMode
       (Blind.loop (idle_pass 2000 (Some d)) (Blind.set_stepCount 499 calibrating))
     = Some false.
Proof. vm_compute. repeat split; discriminate. Qed.

(** * The speed ramp of [smoothRotate] *)

Lemma ramp_value a x :
  0 < a -> 0 <= x <= a -> 300 * a < 2 ^ 31 ->
  s32 (Sep7a.minSpeed
       + s32 (s32 ((Sep7a.maxSpeed - Sep7a.minSpeed) * x) ÷ a))
  = 100 + 300 * x / a
  /\ 0 <= 300 * x / a <= 300.
Proof.
  intros Ha Hx Hbound. change (Sep7a.maxSpeed - Sep7a.minSpeed) with 300.
  change Sep7a.minSpeed with 100.
  assert (Hq : 0 <= 300 * x / a <= 300).
  { split; [apply Z.div_pos; lia |].
    apply Z.div_le_upper_bound; [lia | nia]. }
  rewrite (s32_small (300 * x)) by nia.
  rewrite Z.quot_div_nonneg by lia.
  rewrite (s32_small (300 * x / a)) by lia.
  rewrite s32_small by lia. split; [reflexivity | exact Hq].
Qed.

Section Profile.
Variable N : Z.
Hypothesis N_range : 0 <= N <= 28633115.

Local Abbreviation a := (N / 4).

Lemma quarter : N ÷ 4 = a /\ 0 <= a /\ 4 * a <= N < 4 * a + 4.
Proof.
  rewrite Z.quot_div_nonneg by lia.
  pose proof (Z.div_mod N 4 ltac:(lia)).
  pose proof (Z.mod_pos_bound N 4 ltac:(lia)). lia.
Qed.

Lemma speed_accel i :
  0 <= i < a ->
  Sep7a.currentSpeed N i = 100 + 300 * i / a /\ 0 <= 300 * i / a < 300.
Proof.
  intros Hi. destruct quarter as (Hq & Ha & Hlo & Hhi).
  unfold Sep7a.currentSpeed. rewrite Hq.
  destruct (Z.ltb_spec i a); [| lia].
  destruct (ramp_value a i ltac:(lia) ltac:(lia) ltac:(lia)) as [-> Hr].
  split; [reflexivity |]. split; [lia |].
  apply Z.div_lt_upper_bound; nia.
Qed.

Lemma speed_cruise i :
  a <= i < N - a -> Sep7a.currentSpeed N i = 400.
Proof.
  intros Hi. destruct quarter as (Hq & Ha & Hlo & Hhi).
  unfold Sep7a.currentSpeed. rewrite Hq.
  destruct (Z.ltb_spec i a); [lia |].
  destruct (Z.leb_spec (N - a) i); [lia | reflexivity].
Qed.

Lemma speed_decel i :
  N - a <= i < N ->
  Sep7a.currentSpeed N i = 100 + 300 * (N - i) / a
  /\ 300 / a <= 300 * (N - i) / a <= 300.
Proof.
  intros Hi. destruct quarter as (Hq & Ha & Hlo & Hhi).
  unfold Sep7a.currentSpeed. rewrite Hq.
  destruct (Z.ltb_spec i a); [lia |].
  destruct (Z.leb_spec (N - a) i); [| lia].
  rewrite (s32_small (N - i)) by lia.
  destruct (ramp_value a (N - i) ltac:(lia) ltac:(lia) ltac:(lia)) as [-> Hr].
  split; [reflexivity |]. split; [| lia].
  apply Z.div_le_mono; lia.
Qed.

Lemma speed_bounds i :
  0 <= i < N ->
  100 <= Sep7a.currentSpeed N i <= 400
  /\ Sep7a.stepDelay N i = 1000000 / Sep7a.currentSpeed N i.
Proof.
  intros Hi. destruct quarter as (Hq & Ha & Hlo & Hhi).
  assert (Hb : 100 <= Sep7a.currentSpeed N i <= 400).
  { destruct (Z.lt_ge_cases i a).
    - destruct (speed_accel i ltac:(lia)) as [-> ?]. lia.
    - destruct (Z.lt_ge_cases i (N - a)).
      + rewrite speed_cruise by lia. lia.
      + destruct (speed_decel i ltac:(lia)) as [-> ?].
        assert (0 <= 300 / a) by (apply Z.div_pos; lia). lia. }
  split; [exact Hb |].
  unfold Sep7a.stepDelay. rewrite Z.quot_div_nonneg by lia.
  apply u32_small. split.
  - apply Z.div_pos; lia.
  - apply Z.div_lt_upper_bound; lia.
Qed.
End Profile.

Lemma ramp_loop_quiet steps : forall (n : nat) i,
  i + Z.of_nat n <= steps ->
  Sep7a.ramp_loop (fun _ => None) steps n i false
  = (map (Sep7a.stepDelay steps) (seqZ i (Z.of_nat n)), false).
Proof.
  induction n as [| n IH]; intros i Hle.
  - reflexivity.
  - cbn [Sep7a.ramp_loop].
    destruct (Z.ltb_spec i steps); [| lia]. cbn [andb negb].
    rewrite IH by lia.
    rewrite (seqZ_cons i (Z.of_nat (S n))) by lia.
    replace (Z.pred (Z.of_nat (S n))) with (Z.of_nat n) by lia.
    replace (Z.succ i) with (i + 1) by lia.
    now destruct (Z.rem i 100 =? 0).
Qed.

(** C6, as the sketch has it, for every step count [N] up to 28633115
    (the largest one for which no product [300 * i] or [300 * (N - i)]
    of the ramp leaves the range of [int]). With [a = N / 4], step [i]
    of a move of [N] steps runs at [100 + 300 * i / a] steps per second while
    [i < a] (from 100 at the first step, below 400 throughout), at 400
    while [a <= i < N - a], and at [100 + 300 * (N - i) / a] in the last
    [a] steps, which therefore starts at 400 and ends at [100 + 300 / a],
    step [N - j] repeating the speed of step [j]. Every speed lies
    between 100 and 400, the delay of a step is [1000000] divided by its
    speed, and an undisturbed move makes exactly the [N] steps. *)
Theorem trapezoid_profile N :
  0 <= N <= 28633115 ->
  let a := N / 4 in
  (forall i, 0 <= i < a ->
     Sep7a.currentSpeed N i = Sep7a.minSpeed + (Sep7a.maxSpeed - Sep7a.minSpeed) * i / a
     /\ Sep7a.currentSpeed N i < Sep7a.maxSpeed)
  /\ (0 < a -> Sep7a.currentSpeed N 0 = Sep7a.minSpeed)
  /\ (forall i, a <= i < N - a -> Sep7a.currentSpeed N i = Sep7a.maxSpeed)
  /\ (forall i, N - a <= i < N ->
        Sep7a.currentSpeed N i
        = Sep7a.minSpeed + (Sep7a.maxSpeed - Sep7a.minSpeed) * (N - i) / a)
  /\ (0 < a ->
      Sep7a.currentSpeed N (N - a) = Sep7a.maxSpeed
      /\ Sep7a.currentSpeed N (N - 1)
         = Sep7a.minSpeed + (Sep7a.maxSpeed - Sep7a.minSpeed) / a)
  /\ (forall j, 0 < j < a -> Sep7a.currentSpeed N (N - j) = Sep7a.currentSpeed N j)
  /\ (forall i, 0 <= i < N ->
        Sep7a.minSpeed <= Sep7a.currentSpeed N i <= Sep7a.maxSpeed
        /\ Sep7a.stepDelay N i = 1000000 / Sep7a.currentSpeed N i)
  /\ (forall clockwise m,
        Sep7a.stopRequested m = false ->
        Sep7a.delays (Sep7a.smoothRotate (fun _ => None) N clockwise m)
        = Sep7a.delays m ++ map (Sep7a.stepDelay N) (seqZ 0 N)).
Proof.
  intros HN a.
  destruct (quarter N HN) as (Hq & Ha & Hlo & Hhi). fold a in Hq, Ha, Hlo, Hhi.
  change Sep7a.minSpeed with 100. change Sep7a.maxSpeed with 400.
  change (400 - 100) with 300.
  repeat apply conj.
  - intros i Hi. destruct (speed_accel N HN i Hi) as [Hs Hr]. fold a in Hs, Hr.
    rewrite Hs. split; [reflexivity | lia].
  - intros Hpos. destruct (speed_accel N HN 0 ltac:(fold a; lia)) as [Hs _].
    fold a in Hs. rewrite Hs. rewrite Z.mul_0_r, Z.div_0_l by lia. reflexivity.
  - intros i Hi. now apply speed_cruise.
  - intros i Hi. now destruct (speed_decel N HN i Hi).
  - intros Hpos. split.
    + destruct (speed_decel N HN (N - a) ltac:(fold a; lia)) as [Hs _].
      fold a in Hs. rewrite Hs.
      replace (N - (N - a)) with a by lia. rewrite Z.div_mul by lia. reflexivity.
    + destruct (speed_decel N HN (N - 1) ltac:(fold a; lia)) as [Hs _].
      fold a in Hs. rewrite Hs.
      replace (N - (N - 1)) with 1 by lia. rewrite Z.mul_1_r. reflexivity.
  - intros j Hj.
    destruct (speed_decel N HN (N - j) ltac:(fold a; lia)) as [Hs _].
    destruct (speed_accel N HN j ltac:(fold a; lia)) as [Hs' _].
    fold a in Hs, Hs'. rewrite Hs, Hs'.
    replace (N - (N - j)) with j by lia. reflexivity.
  - intros i Hi. now apply speed_bounds.
  - intros clockwise m Hstop. unfold Sep7a.smoothRotate. rewrite Hstop.
    rewrite ramp_loop_quiet by lia.
    cbn [Sep7a.delays]. now rewrite Z2Nat.id by lia.
Qed.

Lemma trapezoid_profile_witness :
  Sep7a.currentSpeed 400 50 = 250
  /\ Sep7a.currentSpeed 400 200 = 400
  /\ Sep7a.currentSpeed 400 399 = 103
  /\ Sep7a.stepDelay 400 50 = 4000.
Proof.
  destruct (trapezoid_profile 400 ltac:(lia))
    as (Haccel & _ & Hcruise & Hdecel & _ & _ & Hdelay & _).
  split; [| split; [| split]].
  - refine (eq_trans (proj1 (Haccel 50 _)) eq_refl). vm_compute. split; [discriminate | reflexivity].
  - apply Hcruise. vm_compute. split; [discriminate | reflexivity].
  - refine (eq_trans (Hdecel 399 _) eq_refl). vm_compute. split; [discriminate | reflexivity].
  - refine (eq_trans (proj2 (Hdelay 50 _)) eq_refl). lia.
Defined.

(** The bound on [N] is the exact one: with one step more the first
    step of the ramp down multiplies 300 by 7158279, which wraps around
    in [int], and the speed computed for it is negative. *)
Example ramp_overflows_beyond_bound :
  Sep7a.currentSpeed 28633116 (28633116 - 28633116 / 4) = -199
  /\ Sep7a.currentSpeed 28633115 (28633115 - 28633115 / 4) = Sep7a.maxSpeed.
Proof. vm_compute. split; reflexivity. Qed.

(** C6 as worded fails on the nudge of 400 steps itself: the last step
    runs at 103 steps per second, not at the minimum of 100 the first
    step runs at, and the first of the last 100 steps still runs at the
    maximum; the ramp down is not the mirror image of the ramp up. *)
Lemma ramp_down_misses_min_speed :
  Sep7a.nudge_steps = 400
  /\ Sep7a.currentSpeed 400 0 = Sep7a.minSpeed
  /\ Sep7a.currentSpeed 400 (400 - 1) = 103
  /\ Sep7a.currentSpeed 400 (400 - 1) <> Sep7a.minSpeed
  /\ Sep7a.currentSpeed 400 (400 - 400 / 4) = Sep7a.maxSpeed.
Proof. vm_compute. repeat split; discriminate. Qed.

(** * Further properties of the current sketch *)

(** ** The two persisted settings *)



Lemma get_bool_put_bool (e : EEPROM.t) b :
  (5 <= length e)%nat -> stored_direction (EEPROM.put_bool 4 b e) = Some b.
Proof.
  intros Hlen. unfold stored_direction, EEPROM.get_bool, EEPROM.read, EEPROM.put_bool.
  rewrite list_lookup_insert_eq by lia. now destruct b.
Qed.

Lemma stored_duration_put_bool (e : EEPROM.t) b :
  stored_duration (EEPROM.put_bool 4 b e) = stored_duration e.
Proof.
  unfold stored_duration, EEPROM.get_int, EEPROM.word_at, EEPROM.read, EEPROM.put_bool.
  cbn [Nat.add]. now rewrite !list_lookup_insert_ne by lia.
Qed.

Lemma length_put_bool a b (e : EEPROM.t) : length (EEPROM.put_bool a b e) = length e.
Proof. unfold EEPROM.put_bool. apply length_insert. Qed.

Lemma setup_reads e s :
  Blind.setup e = Some s ->
  Blind.CURTAIN_TIME s
  = (if Blind.plausible (stored_duration e) then stored_duration e
     else Blind.DEFAULT_CURTAIN_TIME)
  /\ stored_direction e = Some (Blind.isNormalDirection s)
  /\ Blind.rom s = e.
Proof.
  intros H. apply setup_Some in H as (o & Ho & ->).
  unfold Blind.loadCurtainTime, stored_duration, stored_direction.
  cbn. destruct (Blind.plausible _); cbn; auto.
Qed.




(** X2, for a sketch whose orientation flag holds a [bool] (as it does
    in every state of this model: [setup] found 0 or 1 at address 4):
    the direction key flips the flag and stores it as the byte 0 or 1,
    so a restart has a defined start and finds the flipped orientation,
    and a second press restores the first one; the stored duration is
    not touched; and every direction the handlers hand to the motor is
    reversed. *)
Theorem direction_key_persists s :
  (5 <= length (Blind.rom s))%nat ->
  let s1 := Blind.handleDirectionKey s in
  let o := Blind.isNormalDirection s in
  Blind.isNormalDirection s1 = negb o
  /\ EEPROM.read (Blind.rom s1) 4 = (if o then 0 else 1)
  /\ stored_direction (Blind.rom s1) = Some (negb o)
  /\ (exists s2, Blind.setup (Blind.rom s1) = Some s2
                 /\ Blind.isNormalDirection s2 = negb o)
  /\ Blind.isNormalDirection (Blind.handleDirectionKey s1) = o
  /\ stored_direction (Blind.rom (Blind.handleDirectionKey s1)) = Some o
  /\ stored_duration (Blind.rom s1) = stored_duration (Blind.rom s)
  /\ Blind.CURTAIN_TIME s1 = Blind.CURTAIN_TIME s
  /\ rotation_of (Blind.rollUpDirection (negb o))
     = opposite (rotation_of (Blind.rollUpDirection o))
  /\ rotation_of (Blind.layDownDirection (negb o))
     = opposite (rotation_of (Blind.layDownDirection o))
  /\ rotation_of (Blind.leftDirection (negb o))
     = opposite (rotation_of (Blind.leftDirection o))
  /\ rotation_of (Blind.rightDirection (negb o))
     = opposite (rotation_of (Blind.rightDirection o))
  /\ rotation_of (Blind.setDirection (negb o))
     = opposite (rotation_of (Blind.setDirection o)).
Proof.
  intros Hlen s1 o.
  assert (Hflag : Blind.isNormalDirection s1 = negb o).
  { subst s1 o. unfold Blind.handleDirectionKey. destruct s; cbn.
    now destruct isNormalDirection. }
  assert (Hrom : Blind.rom s1 = EEPROM.put_bool 4 (negb o) (Blind.rom s)).
  { subst s1 o. unfold Blind.handleDirectionKey. destruct s; cbn.
    now destruct isNormalDirection. }
  assert (Hflag2 : Blind.isNormalDirection (Blind.handleDirectionKey s1) = o).
  { unfold Blind.handleDirectionKey. rewrite Hflag.
    destruct s1; cbn. now destruct o. }
  assert (Hrom2 : Blind.rom (Blind.handleDirectionKey s1)
                  = EEPROM.put_bool 4 o (Blind.rom s1)).
  { unfold Blind.handleDirectionKey. rewrite Hflag.
    destruct s1; cbn. now destruct o. }
  assert (Hstored : stored_direction (Blind.rom s1) = Some (negb o)).
  { rewrite Hrom. now apply get_bool_put_bool. }
  split; [exact Hflag |]. split.
  { rewrite Hrom. unfold EEPROM.read, EEPROM.put_bool.
    rewrite list_lookup_insert_eq by lia. now destruct o. }
  split; [exact Hstored |]. split.
  { destruct (setup_defined (Blind.rom s1) (negb o) Hstored) as [s2 Hs2].
    exists s2. split; [exact Hs2 |].
    destruct (setup_reads _ _ Hs2) as (_ & Hdir & _). congruence. }
  split; [exact Hflag2 |]. split.
  { rewrite Hrom2. apply get_bool_put_bool. rewrite Hrom, length_put_bool. exact Hlen. }
  split; [rewrite Hrom; apply stored_duration_put_bool |]. split.
  { subst s1. unfold Blind.handleDirectionKey. destruct s; cbn.
    now destruct isNormalDirection. }
  clearbody o. destruct o; repeat split.
Qed.

Lemma direction_key_persists_witness :
  let s := started EEPROM.oriented in
  Blind.setup EEPROM.oriented = Some s
  /\ Blind.isNormalDirection s = true
  /\ EEPROM.read (Blind.rom (Blind.handleDirectionKey s)) 4 = 0
  /\ exists s2, Blind.setup (Blind.rom (Blind.handleDirectionKey s)) = Some s2
                /\ Blind.isNormalDirection s2 = false.
Proof.
  intros s. split; [reflexivity |]. split; [reflexivity |].
  destruct (direction_key_persists s) as (_ & Hbyte & _ & Hrestart & _);
    [vm_compute; lia |].
  split; [exact Hbyte | exact Hrestart].
Defined.

(** ** What the motion commands leave alone *)

Lemma rotateForTime_settings w duration clockwise s s' :
  Blind.rotateForTime w duration clockwise s = Some s' ->
  Blind.timingStart s' = Blind.timingStart s
  /\ Blind.stepCount s' = Blind.stepCount s
  /\ (Blind.pulses s <= Blind.pulses s')%nat.
Proof.
  unfold Blind.rotateForTime. intros H.
  destruct (Blind.rotate_loop _ _ _ _ _ _ _) as [[k stop] |]; [| discriminate].
  injection H as <-. destruct s; cbn. repeat split. lia.
Qed.

Lemma foreign_address_frame i s d :
  Blind.decoded i = Some d ->
  ir_address d <> Blind.IR_ADDRESS ->
  Blind.loop i s = Some s.
Proof.
  intros Hd Haddr. unfold Blind.loop. rewrite Hd.
  now destruct (Z.eqb_spec (ir_address d) Blind.IR_ADDRESS).
Qed.

Lemma handleIRCommand_motion_frame w command s s' :
  command <> Blind.IR_KEY_SET ->
  command <> Blind.IR_KEY_SHUTDOWN ->
  command <> Blind.IR_KEY_DIRECTION ->
  Blind.handleIRCommand w command s = Some s' ->
  Blind.rom s' = Blind.rom s
  /\ Blind.CURTAIN_TIME s' = Blind.CURTAIN_TIME s
  /\ Blind.isNormalDirection s' = Blind.isNormalDirection s
  /\ Blind.setMode s' = Blind.setMode s
  /\ Blind.lastIRCommand s' = Blind.lastIRCommand s
  /\ Blind.lastIRTime s' = Blind.lastIRTime s
  /\ Blind.shutdownCount s' = Blind.shutdownCount s
  /\ Blind.lastShutdownTime s' = Blind.lastShutdownTime s.
Proof.
  intros Hset Hstop Hdir. unfold Blind.handleIRCommand.
  destruct (Z.eqb_spec command Blind.IR_KEY_UP).
  { destruct (Blind.isFullyRolledUp s); [intros H; injection H as <-; repeat split |].
    unfold Blind.rollUpCurtain.
    destruct (Blind.rotateForTime _ _ _ _) as [s1 |] eqn:Hrot; [| discriminate].
    apply rotateForTime_frame in Hrot
      as (_ & _ & Ho & _ & _ & Hm & _ & _ & Ht & Hr & Hc & Hi & Hn & Hl).
    intros H. injection H as <-.
    destruct s, s1; cbn in *. subst. destruct stopRequested0; cbn; repeat split. }
  destruct (Z.eqb_spec command Blind.IR_KEY_DOWN).
  { destruct (Blind.isFullyRolledDown s); [intros H; injection H as <-; repeat split |].
    unfold Blind.layDownCurtain.
    destruct (Blind.rotateForTime _ _ _ _) as [s1 |] eqn:Hrot; [| discriminate].
    apply rotateForTime_frame in Hrot
      as (_ & _ & Ho & _ & _ & Hm & _ & _ & Ht & Hr & Hc & Hi & Hn & Hl).
    intros H. injection H as <-.
    destruct s, s1; cbn in *. subst. destruct stopRequested0; cbn; repeat split. }
  destruct (Z.eqb_spec command Blind.IR_KEY_LEFT).
  { intros Hrot. apply rotateForTime_frame in Hrot
      as (_ & _ & Ho & _ & _ & Hm & _ & _ & Ht & Hr & Hc & Hi & Hn & Hl).
    destruct s; cbn in *. repeat split; assumption. }
  destruct (Z.eqb_spec command Blind.IR_KEY_RIGHT).
  { intros Hrot. apply rotateForTime_frame in Hrot
      as (_ & _ & Ho & _ & _ & Hm & _ & _ & Ht & Hr & Hc & Hi & Hn & Hl).
    destruct s; cbn in *. repeat split; assumption. }
  destruct (Z.eqb_spec command Blind.IR_KEY_SET); [contradiction |].
  destruct (Z.eqb_spec command Blind.IR_KEY_SHUTDOWN); [contradiction |].
  destruct (Z.eqb_spec command Blind.IR_KEY_DIRECTION); [contradiction |].
  intros H. injection H as <-. repeat split.
Qed.

Lemma calibration_step_idle i s :
  Blind.setMode s = false ->
  Blind.calibration_step i s = Blind.set_enablePin HIGH s
  \/ Blind.calibration_step i s = s.
Proof.
  intros Hmode. unfold Blind.calibration_step, Blind.keep_disabled.
  rewrite Hmode. cbn [andb negb]. destruct (negb (Blind.motorRunning s)); auto.
Qed.

Lemma idle_step_frame i s :
  Blind.setMode s = false ->
  let s' := Blind.calibration_step i s in
  Blind.rom s' = Blind.rom s
  /\ Blind.CURTAIN_TIME s' = Blind.CURTAIN_TIME s
  /\ Blind.isNormalDirection s' = Blind.isNormalDirection s
  /\ Blind.setMode s' = Blind.setMode s
  /\ Blind.lastIRCommand s' = Blind.lastIRCommand s
  /\ Blind.lastIRTime s' = Blind.lastIRTime s
  /\ Blind.shutdownCount s' = Blind.shutdownCount s
  /\ Blind.lastShutdownTime s' = Blind.lastShutdownTime s
  /\ Blind.pulses s' = Blind.pulses s.
Proof.
  intros Hmode s'. subst s'.
  destruct (calibration_step_idle i s Hmode) as [-> | ->]; [now destruct s |].
  repeat split.
Qed.

(** X3: a pass through [loop] that decodes a command other than the set
    key, the stop key and the direction key never writes the EEPROM and
    never changes the working duration, the orientation, the mode or the
    stop-press counter, whether the command is a roll, a nudge, an
    unknown code, a repeat or the key of another remote. Of the debounce
    fields it is the filter of [loop] that decides: they take the code
    and the time of the pass exactly when the command comes from the own
    remote and is accepted, and keep their values otherwise. *)
Theorem motion_keeps_settings i s d s' :
  Blind.decoded i = Some d ->
  ir_command d <> Blind.IR_KEY_SET ->
  ir_command d <> Blind.IR_KEY_SHUTDOWN ->
  ir_command d <> Blind.IR_KEY_DIRECTION ->
  Blind.loop i s = Some s' ->
  Blind.rom s' = Blind.rom s
  /\ Blind.CURTAIN_TIME s' = Blind.CURTAIN_TIME s
  /\ Blind.isNormalDirection s' = Blind.isNormalDirection s
  /\ Blind.setMode s' = Blind.setMode s
  /\ Blind.shutdownCount s' = Blind.shutdownCount s
  /\ Blind.lastShutdownTime s' = Blind.lastShutdownTime s
  /\ (if (ir_address d =? Blind.IR_ADDRESS) && Blind.accepts s d (Blind.currentTime i)
      then Blind.lastIRCommand s' = ir_command d
           /\ Blind.lastIRTime s' = Blind.currentTime i
      else Blind.lastIRCommand s' = Blind.lastIRCommand s
           /\ Blind.lastIRTime s' = Blind.lastIRTime s
           /\ Blind.pulses s' = Blind.pulses s)
  /\ (Blind.setMode s = true -> s' = s).
Proof.
  intros Hdec Hset Hstop Hdir Hloop.
  destruct (Z.eqb_spec (ir_address d) Blind.IR_ADDRESS) as [Haddr | Haddr];
    cbn [andb].
  - rewrite (loop_own_remote i s d Hdec Haddr) in Hloop.
    destruct (Blind.setMode s) eqn:Hmode.
    + assert (Hrej : Blind.accepts s d (Blind.currentTime i) = false).
      { unfold Blind.accepts. rewrite Hmode.
        destruct (Blind.accepts_in_set_mode s d (Blind.currentTime i)) eqn:Hacc;
          [| reflexivity].
        unfold Blind.accepts_in_set_mode in Hacc.
        rewrite !andb_true_iff, orb_true_iff, !Z.eqb_eq in Hacc. tauto. }
      rewrite Hrej in Hloop |- *. injection Hloop as <-.
      repeat split. exact Hmode.
    + destruct (Blind.accepts s d (Blind.currentTime i)).
      * destruct (Blind.handleIRCommand _ _ _) as [s1 |] eqn:Hh; [| discriminate].
        injection Hloop as <-.
        destruct (handleIRCommand_motion_frame _ _ _ _ Hset Hstop Hdir Hh)
          as (Hr & Ht & Ho & Hm & _ & _ & Hn & Hl).
        destruct (idle_step_frame i
                    (Blind.remember (ir_command d) (Blind.currentTime i) s1))
          as (Hr' & Ht' & Ho' & Hm' & Hc' & Hi' & Hn' & Hl' & _).
        { transitivity (Blind.setMode s1); [now destruct s1 | congruence]. }
        rewrite Hr', Ht', Ho', Hm', Hc', Hi', Hn', Hl'.
        rewrite <- Hr, <- Ht, <- Ho, <- Hn, <- Hl.
        assert (Hm1 : Blind.setMode s1 = false) by congruence.
        clear - Hm1. destruct s1; cbn in *.
        repeat split; try assumption. discriminate.
      * injection Hloop as <-.
        destruct (idle_step_frame i s Hmode)
          as (Hr' & Ht' & Ho' & Hm' & Hc' & Hi' & Hn' & Hl' & Hp').
        rewrite Hr', Ht', Ho', Hm', Hc', Hi', Hn', Hl', Hp'.
        repeat split; congruence.
  - rewrite (foreign_address_frame i s d Hdec Haddr) in Hloop.
    injection Hloop as <-. repeat split.
Qed.

Lemma motion_keeps_settings_witness :
  let s := started (EEPROM.put_int 0 8000 EEPROM.oriented) in
  exists s', Blind.loop (key_press Blind.IR_ADDRESS Blind.IR_KEY_DOWN 1000) s = Some s'
    /\ Blind.pulses s' = 4000%nat
    /\ Blind.rom s' = Blind.rom s
    /\ Blind.CURTAIN_TIME s' = 8000
    /\ Blind.lastIRCommand s' = Blind.IR_KEY_DOWN
    /\ Blind.lastIRTime s' = 1000.
Proof.
  intros s.
  destruct (Blind.loop (key_press Blind.IR_ADDRESS Blind.IR_KEY_DOWN 1000) s)
    as [s' |] eqn:Hrun; [| vm_compute in Hrun; discriminate].
  destruct (motion_keeps_settings (key_press Blind.IR_ADDRESS Blind.IR_KEY_DOWN 1000)
              s (key_of Blind.IR_ADDRESS Blind.IR_KEY_DOWN) s')
    as (Hrom & Htime & _ & _ & _ & _ & Hrec & _);
    [reflexivity | vm_compute; discriminate .. | exact Hrun |].
  exists s'. split; [reflexivity |]. split.
  { vm_compute in Hrun. injection Hrun as <-. reflexivity. }
  split; [exact Hrom |]. split; [rewrite Htime; reflexivity |].
  exact Hrec.
Defined.

(** ** Between two passes through [loop] *)









(** ** Calibration under way *)




(** X6: outside set mode, the pass through [loop] that accepts the set
    key enters set mode, takes the time of the handler as the start
    time, enables the driver in the roll-down direction and already
    sends the first step pulse; it stores nothing and leaves the working
    duration and the position hints as they were. *)
Theorem calibration_entry_starts_stepping i s d :
  Blind.setMode s = false ->
  Blind.decoded i = Some d ->
  ir_address d = Blind.IR_ADDRESS ->
  ir_command d = Blind.IR_KEY_SET ->
  Blind.accepts s d (Blind.currentTime i) = true ->
  Blind.cal_decoded i = None ->
  exists s',
    Blind.loop i s = Some s'
    /\ Blind.setMode s' = true
    /\ Blind.timingStart s' = Blind.now (Blind.world i)
    /\ Blind.pulses s' = S (Blind.pulses s)
    /\ Blind.enablePin s' = LOW
    /\ Blind.dirPin s' = Blind.layDownDirection (Blind.isNormalDirection s)
    /\ Blind.rom s' = Blind.rom s
    /\ Blind.CURTAIN_TIME s' = Blind.CURTAIN_TIME s
    /\ Blind.isFullyRolledUp s' = Blind.isFullyRolledUp s
    /\ Blind.isFullyRolledDown s' = Blind.isFullyRolledDown s.
Proof.
  intros Hmode Hdec Haddr Hkey Hacc Hpoll.
  rewrite (loop_own_remote i s d Hdec Haddr), Hacc, Hkey, Hmode.
  cbn [Blind.handleIRCommand Z.eqb Blind.IR_KEY_SET Blind.IR_KEY_UP Blind.IR_KEY_DOWN
       Blind.IR_KEY_LEFT Blind.IR_KEY_RIGHT Pos.eqb].
  eexists. split; [reflexivity |].
  unfold Blind.handleSetKey, Blind.calibration_step, Blind.keep_disabled.
  rewrite Hmode, Hpoll. destruct s; cbn in *.
  destruct isNormalDirection; cbn; case_ifs; repeat split; lia.
Qed.

Lemma calibration_entry_starts_stepping_witness :
  exists s',
    Blind.loop (key_press Blind.IR_ADDRESS Blind.IR_KEY_SET 1000)
      (started EEPROM.oriented) = Some s'
    /\ Blind.setMode s' = true
    /\ Blind.pulses s' = 1%nat.
Proof.
  destruct (calibration_entry_starts_stepping
              (key_press Blind.IR_ADDRESS Blind.IR_KEY_SET 1000)
              (started EEPROM.oriented) (key_of Blind.IR_ADDRESS Blind.IR_KEY_SET))
    as (s' & Hrun & Hmode & _ & Hp & _); try reflexivity.
  exists s'. auto.
Defined.




(** ** Full moves and nudges *)

Section UndisturbedMove.
Variable millis : nat -> Z.
Variable decode : nat -> option IRData.
Variables startTime duration : Z.

Lemma rotate_loop_runs_out (k : nat) :
  (forall j c, decode j = Some c -> Blind.valid_stop c = false) ->
  (forall j, (j < k)%nat -> Blind.time_left millis startTime duration j = true) ->
  Blind.time_left millis startTime duration k = false ->
  forall fuel j,
    (j <= k)%nat -> (k - j <= fuel)%nat ->
    Blind.rotate_loop millis decode startTime duration fuel j false = Some (k, false).
Proof.
  intros Hquiet Hleft Hup.
  induction fuel as [| fuel IH]; intros j Hj Hfuel.
  - assert (j = k) as -> by lia. cbn [Blind.rotate_loop]. now rewrite Hup.
  - cbn [Blind.rotate_loop].
    destruct (Nat.eq_dec j k) as [-> | Hne]; [now rewrite Hup |].
    rewrite Hleft by lia. cbn [andb negb].
    assert (Hrec : Blind.rotate_loop millis decode startTime duration fuel (S j) false
                   = Some (k, false)) by (apply IH; lia).
    destruct (Blind.poll_due (S j)); [| exact Hrec].
    destruct (decode (S j)) as [c |] eqn:Hc; [| exact Hrec].
    now rewrite (Hquiet _ _ Hc).
Qed.
End UndisturbedMove.

Lemma rotateForTime_runs_out w duration clockwise s k :
  Blind.stopRequested s = false ->
  undisturbed w -> time_up_after w duration k -> (k <= Blind.fuel w)%nat ->
  Blind.rotateForTime w duration clockwise s
  = Some (Blind.set_enablePin HIGH
            (Blind.set_stopRequested false
               (Blind.set_pulses (Blind.pulses s + k)%nat
                  (Blind.set_dirPin clockwise (Blind.set_enablePin LOW s))))).
Proof.
  intros Hflag Hquiet [Hleft Hup] Hfuel. unfold Blind.rotateForTime.
  replace (Blind.stopRequested _) with false by (now destruct s).
  rewrite (rotate_loop_runs_out _ _ _ _ k Hquiet Hleft Hup) by lia.
  destruct s, clockwise; reflexivity.
Qed.

(** X8: a full roll that no stop key disturbs makes exactly the steps
    the clock allows for [CURTAIN_TIME] milliseconds, ends with the
    driver disabled and the motor and stop flags down, and marks the
    blind fully down (fully up for a roll-up) and not the opposite; the
    same key pressed again is then ignored: the state stays as it is. *)
Theorem full_move_completes w s k :
  undisturbed w ->
  time_up_after w (Blind.CURTAIN_TIME s) k ->
  (k <= Blind.fuel w)%nat ->
  (Blind.isFullyRolledDown s = false ->
   exists s',
     Blind.handleIRCommand w Blind.IR_KEY_DOWN s = Some s'
     /\ Blind.pulses s' = (Blind.pulses s + k)%nat
     /\ Blind.dirPin s' = Blind.layDownDirection (Blind.isNormalDirection s)
     /\ Blind.isFullyRolledDown s' = true /\ Blind.isFullyRolledUp s' = false
     /\ Blind.enablePin s' = HIGH /\ Blind.motorRunning s' = false
     /\ Blind.stopRequested s' = false
     /\ forall w', Blind.handleIRCommand w' Blind.IR_KEY_DOWN s' = Some s')
  /\ (Blind.isFullyRolledUp s = false ->
      exists s',
        Blind.handleIRCommand w Blind.IR_KEY_UP s = Some s'
        /\ Blind.pulses s' = (Blind.pulses s + k)%nat
        /\ Blind.dirPin s' = Blind.rollUpDirection (Blind.isNormalDirection s)
        /\ Blind.isFullyRolledUp s' = true /\ Blind.isFullyRolledDown s' = false
        /\ Blind.enablePin s' = HIGH /\ Blind.motorRunning s' = false
        /\ Blind.stopRequested s' = false
        /\ forall w', Blind.handleIRCommand w' Blind.IR_KEY_UP s' = Some s').
Proof.
  intros Hquiet Htime Hfuel. split; intros Hhint.
  - cbn. rewrite Hhint. unfold Blind.layDownCurtain.
    rewrite (rotateForTime_runs_out w _ _ _ k); try assumption;
      [| now destruct s | now destruct s].
    eexists. split; [reflexivity |].
    destruct s; cbn in *. destruct isNormalDirection; repeat split.
  - cbn. rewrite Hhint. unfold Blind.rollUpCurtain.
    rewrite (rotateForTime_runs_out w _ _ _ k); try assumption;
      [| now destruct s | now destruct s].
    eexists. split; [reflexivity |].
    destruct s; cbn in *. destruct isNormalDirection; repeat split.
Qed.

Lemma quiet_world_undisturbed t : undisturbed (quiet_world t).
Proof. intros k c H. discriminate. Qed.

Lemma quiet_world_time_up t d :
  0 <= d <= 80000 -> time_up_after (quiet_world t) d (Z.to_nat ((d + 1) / 2)).
Proof.
  intros Hd. unfold time_up_after, Blind.time_left. cbn [quiet_world Blind.rot_millis Blind.rot_start].
  assert (Hk : 0 <= (d + 1) / 2) by (apply Z.div_pos; lia).
  pose proof (Z.div_mod (d + 1) 2 ltac:(lia)) as Hdm.
  pose proof (Z.mod_pos_bound (d + 1) 2 ltac:(lia)) as Hub.
  split.
  - intros j Hj. apply Z.ltb_lt.
    replace (t + 2 * Z.of_nat j - t) with (2 * Z.of_nat j) by lia.
    rewrite !u32_small by lia. lia.
  - apply Z.ltb_ge.
    replace (t + 2 * Z.of_nat (Z.to_nat ((d + 1) / 2)) - t)
      with (2 * ((d + 1) / 2)) by lia.
    rewrite !u32_small by lia. lia.
Qed.

Lemma full_move_completes_witness :
  exists s',
    Blind.handleIRCommand (quiet_world 1000) Blind.IR_KEY_DOWN (started EEPROM.oriented)
    = Some s'
    /\ Blind.pulses s' = 2500%nat
    /\ Blind.isFullyRolledDown s' = true /\ Blind.isFullyRolledUp s' = false
    /\ Blind.enablePin s' = HIGH.
Proof.
  destruct (full_move_completes (quiet_world 1000) (started EEPROM.oriented) 2500)
    as [Hdown _].
  - apply quiet_world_undisturbed.
  - apply (quiet_world_time_up 1000 5000). lia.
  - apply Nat.leb_le. vm_compute. reflexivity.
  - destruct (Hdown eq_refl) as (s' & Hrun & Hp & _ & Hd & Hu & He & _).
    exists s'. auto.
Defined.

(** X9: a full roll that a valid stop key ends at a poll has made the
    steps up to that poll and hands back a state with both position
    hints down, the driver disabled and the stop flag down again, so
    that the same key starts the roll anew and a nudge is not blocked. *)
Theorem interrupted_roll_can_be_repeated w s (p : nat) d :
  Blind.isFullyRolledUp s = false ->
  Z.of_nat p < 2 ^ 31 -> (0 < p)%nat -> (p mod 100 = 0)%nat ->
  (p <= Blind.fuel w)%nat ->
  Blind.rot_decode w p = Some d -> Blind.valid_stop d = true ->
  (forall k, (k < p)%nat ->
     Blind.time_left (Blind.rot_millis w) (Blind.rot_start w) (Blind.CURTAIN_TIME s) k = true) ->
  (forall k c, (k < p)%nat -> Blind.rot_decode w k = Some c -> Blind.valid_stop c = false) ->
  exists s',
    Blind.handleIRCommand w Blind.IR_KEY_UP s = Some s'
    /\ Blind.pulses s' = (Blind.pulses s + p)%nat
    /\ Blind.isFullyRolledUp s' = false /\ Blind.isFullyRolledDown s' = false
    /\ Blind.stopRequested s' = false
    /\ Blind.enablePin s' = HIGH /\ Blind.motorRunning s' = false
    /\ (forall w', Blind.handleIRCommand w' Blind.IR_KEY_UP s'
                   = Blind.rollUpCurtain w' s').
Proof.
  intros Hhint Hsmall Hpos Hmod Hfuel Hdec Hvalid Htime Hquiet.
  cbn. rewrite Hhint. unfold Blind.rollUpCurtain, Blind.rotateForTime.
  replace (Blind.stopRequested _) with false by (now destruct s).
  replace (Blind.CURTAIN_TIME _) with (Blind.CURTAIN_TIME s) by (now destruct s).
  rewrite (rotate_loop_runs_to_poll _ _ _ _ p d) by (assumption || lia).
  eexists. split; [reflexivity |].
  destruct s; cbn in *. repeat split.
Qed.

Lemma interrupted_roll_can_be_repeated_witness :
  exists s',
    Blind.handleIRCommand stop_at_300 Blind.IR_KEY_UP (started EEPROM.oriented) = Some s'
    /\ Blind.pulses s' = 300%nat
    /\ Blind.isFullyRolledUp s' = false
    /\ Blind.stopRequested s' = false.
Proof.
  destruct (interrupted_roll_can_be_repeated stop_at_300 (started EEPROM.oriented) 300
              (key_of Blind.IR_ADDRESS Blind.IR_KEY_SHUTDOWN))
    as (s' & Hrun & Hp & Hu & _ & Hf & _); try reflexivity; try lia.
  - apply Nat.leb_le. vm_compute. reflexivity.
  - intros k Hk. unfold Blind.time_left.
    change (Blind.CURTAIN_TIME (started EEPROM.oriented)) with 5000.
    cbn [stop_at_300 Blind.rot_millis Blind.rot_start]. apply Z.ltb_lt.
    replace (1000 + 2 * Z.of_nat k - 1000) with (2 * Z.of_nat k) by lia.
    rewrite !u32_small by lia. lia.
  - intros k c Hk. cbn. destruct (Nat.eqb_spec k 300); [lia | discriminate].
  - exists s'. auto.
Defined.

(** X10: a nudge that starts with the stop flag down and is not
    disturbed makes exactly the steps the clock allows for
    [SIDE_KEY_TIME] milliseconds, the two nudge keys turning opposite
    ways; it ends with the driver disabled and both position hints down,
    so the next roll-up or roll-down key is carried out even right after
    a completed roll in that direction. *)
Theorem nudge_rearms_full_moves w s k command :
  Blind.stopRequested s = false ->
  undisturbed w ->
  time_up_after w Blind.SIDE_KEY_TIME k ->
  (k <= Blind.fuel w)%nat ->
  command = Blind.IR_KEY_LEFT \/ command = Blind.IR_KEY_RIGHT ->
  exists s',
    Blind.handleIRCommand w command s = Some s'
    /\ Blind.pulses s' = (Blind.pulses s + k)%nat
    /\ rotation_of (Blind.dirPin s')
       = (if command =? Blind.IR_KEY_LEFT
          then rotation_of (Blind.rollUpDirection (Blind.isNormalDirection s))
          else rotation_of (Blind.layDownDirection (Blind.isNormalDirection s)))
    /\ Blind.isFullyRolledUp s' = false /\ Blind.isFullyRolledDown s' = false
    /\ Blind.enablePin s' = HIGH /\ Blind.stopRequested s' = false
    /\ (forall w',
          Blind.handleIRCommand w' Blind.IR_KEY_UP s' = Blind.rollUpCurtain w' s'
          /\ Blind.handleIRCommand w' Blind.IR_KEY_DOWN s' = Blind.layDownCurtain w' s').
Proof.
  intros Hflag Hquiet Htime Hfuel [-> | ->]; cbn.
  - rewrite (rotateForTime_runs_out w _ _ _ k); try assumption; [| now destruct s].
    eexists. split; [reflexivity |].
    destruct s; cbn in *. destruct isNormalDirection; repeat split.
  - rewrite (rotateForTime_runs_out w _ _ _ k); try assumption; [| now destruct s].
    eexists. split; [reflexivity |].
    destruct s; cbn in *. destruct isNormalDirection; repeat split.
Qed.

Lemma nudge_rearms_full_moves_witness :
  exists s1 s2,
    Blind.handleIRCommand (quiet_world 1000) Blind.IR_KEY_DOWN (started EEPROM.oriented)
    = Some s1
    /\ Blind.isFullyRolledDown s1 = true
    /\ Blind.handleIRCommand (quiet_world 9000) Blind.IR_KEY_RIGHT s1 = Some s2
    /\ Blind.pulses s2 = (Blind.pulses s1 + 500)%nat
    /\ Blind.isFullyRolledDown s2 = false.
Proof.
  destruct (Blind.handleIRCommand (quiet_world 1000) Blind.IR_KEY_DOWN
              (started EEPROM.oriented)) as [s1 |] eqn:Hrun;
    [| vm_compute in Hrun; discriminate].
  assert (Hflag : Blind.stopRequested s1 = false)
    by (vm_compute in Hrun; injection Hrun as <-; reflexivity).
  assert (Hdown : Blind.isFullyRolledDown s1 = true)
    by (vm_compute in Hrun; injection Hrun as <-; reflexivity).
  destruct (nudge_rearms_full_moves (quiet_world 9000) s1 500 Blind.IR_KEY_RIGHT Hflag)
    as (s2 & Hrun2 & Hp & _ & _ & Hd & _).
  - apply quiet_world_undisturbed.
  - apply (quiet_world_time_up 9000 1000). lia.
  - apply Nat.leb_le. vm_compute. reflexivity.
  - right. reflexivity.
  - exists s1, s2. auto.
Defined.

(** ** The filter of [loop] once more *)







(** ** [setSpeed] *)

Lemma constrain_range x lo hi :
  lo <= hi ->
  lo <= Sep7aSketch.constrain x lo hi <= hi
  /\ (lo <= x <= hi -> Sep7aSketch.constrain x lo hi = x).
Proof.
  intros Hle. unfold Sep7aSketch.constrain.
  destruct (Z.ltb_spec x lo); [lia |].
  destruct (Z.ltb_spec hi x); lia.
Qed.

(** X13: whatever value [setSpeed] is given, the speed it stores lies
    between 200 and 1000 steps per second (50 and 500 in the earlier
    sketch), a value inside the range is stored as it is, and the step
    delay computed from the stored speed lies between 1000 and 5000
    microseconds (2000 and 20000), so the pulse width can always be
    subtracted from it. *)
Theorem setSpeed_bounds newSpeed :
  200 <= BlindSpeed.setSpeed newSpeed <= 1000
  /\ (200 <= newSpeed <= 1000 -> BlindSpeed.setSpeed newSpeed = newSpeed)
  /\ 1000 <= BlindSpeed.stepDelay (BlindSpeed.setSpeed newSpeed) <= 5000
  /\ BlindSpeed.setSpeed Blind.speed = Blind.speed
  /\ 50 <= Sep7aSketch.setSpeed newSpeed <= 500
  /\ (50 <= newSpeed <= 500 -> Sep7aSketch.setSpeed newSpeed = newSpeed)
  /\ 2000 <= BlindSpeed.stepDelay (Sep7aSketch.setSpeed newSpeed) <= 20000
  /\ Sep7aSketch.setSpeed Sep7aSketch.speed = Sep7aSketch.speed.
Proof.
  unfold BlindSpeed.setSpeed, Sep7aSketch.setSpeed, BlindSpeed.stepDelay.
  destruct (constrain_range newSpeed 200 1000 ltac:(lia)) as [Hb Hid].
  destruct (constrain_range newSpeed 50 500 ltac:(lia)) as [Hs Hids].
  repeat apply conj; try lia; try assumption; try reflexivity.
  - rewrite Z.quot_div_nonneg by lia.
    assert (1000 <= 1000000 / Sep7aSketch.constrain newSpeed 200 1000 <= 5000).
    { split; [apply Z.div_le_lower_bound; lia | apply Z.div_le_upper_bound; lia]. }
    rewrite u32_small; lia.
  - rewrite Z.quot_div_nonneg by lia.
    assert (1000 <= 1000000 / Sep7aSketch.constrain newSpeed 200 1000 <= 5000).
    { split; [apply Z.div_le_lower_bound; lia | apply Z.div_le_upper_bound; lia]. }
    rewrite u32_small; lia.
  - rewrite Z.quot_div_nonneg by lia.
    assert (2000 <= 1000000 / Sep7aSketch.constrain newSpeed 50 500 <= 20000).
    { split; [apply Z.div_le_lower_bound; lia | apply Z.div_le_upper_bound; lia]. }
    rewrite u32_small; lia.
  - rewrite Z.quot_div_nonneg by lia.
    assert (2000 <= 1000000 / Sep7aSketch.constrain newSpeed 50 500 <= 20000).
    { split; [apply Z.div_le_lower_bound; lia | apply Z.div_le_upper_bound; lia]. }
    rewrite u32_small; lia.
Qed.

(** * Properties of the earlier sketch *)

Lemma sep_rotateForTime_frame w duration clockwise s s' :
  Sep7aSketch.rotateForTime w duration clockwise s = Some s' ->
  Sep7a.enablePin (Sep7aSketch.motor s') = LOW
  /\ Sep7a.dirPin (Sep7aSketch.motor s') = clockwise
  /\ Sep7aSketch.CURTAIN_TIME s' = Sep7aSketch.CURTAIN_TIME s
  /\ Sep7aSketch.motorRunning s' = Sep7aSketch.motorRunning s
  /\ Sep7aSketch.setMode s' = Sep7aSketch.setMode s
  /\ Sep7aSketch.timingInProgress s' = Sep7aSketch.timingInProgress s
  /\ Sep7aSketch.shutdownCount s' = Sep7aSketch.shutdownCount s
  /\ Sep7aSketch.lastShutdownTime s' = Sep7aSketch.lastShutdownTime s
  /\ Sep7aSketch.rom s' = Sep7aSketch.rom s.
Proof.
  unfold Sep7aSketch.rotateForTime. intros H.
  destruct (Sep7aSketch.rotate_loop _ _ _ _ _ _ _) as [[k stop] |]; [| discriminate].
  injection H as <-. destruct s as [[]], clockwise; cbn; repeat split.
Qed.

Lemma sep_full_move_frame w clockwise s s' :
  (let s0 := Sep7aSketch.set_stopRequested false (Sep7aSketch.set_motorRunning true s) in
   match Sep7aSketch.rotateForTime w (Sep7aSketch.CURTAIN_TIME s0) clockwise s0 with
   | None => None
   | Some s1 =>
       Some (Sep7aSketch.set_stopRequested false (Sep7aSketch.set_motorRunning false s1))
   end) = Some s' ->
  Sep7a.stopRequested (Sep7aSketch.motor s') = false
  /\ Sep7a.enablePin (Sep7aSketch.motor s') = LOW
  /\ Sep7a.dirPin (Sep7aSketch.motor s') = clockwise
  /\ Sep7aSketch.motorRunning s' = false
  /\ Sep7aSketch.CURTAIN_TIME s' = Sep7aSketch.CURTAIN_TIME s
  /\ Sep7aSketch.setMode s' = Sep7aSketch.setMode s
  /\ Sep7aSketch.timingInProgress s' = Sep7aSketch.timingInProgress s
  /\ Sep7aSketch.shutdownCount s' = Sep7aSketch.shutdownCount s
  /\ Sep7aSketch.lastShutdownTime s' = Sep7aSketch.lastShutdownTime s
  /\ Sep7aSketch.rom s' = Sep7aSketch.rom s.
Proof.
  cbn zeta. intros H.
  destruct (Sep7aSketch.rotateForTime _ _ _ _) as [s1 |] eqn:Hrot; [| discriminate].
  apply sep_rotateForTime_frame in Hrot as (He & Hd & Hc & _ & Hm & Ht & Hn & Hl & Hr).
  injection H as <-.
  destruct s as [[]], s1 as [[]]; cbn in *. subst. repeat split.
Qed.

Lemma sep_smoothRotate_frame w steps clockwise s :
  let s' := Sep7aSketch.smoothRotate w steps clockwise s in
  Sep7a.stopRequested (Sep7aSketch.motor s') = false
  /\ Sep7a.enablePin (Sep7aSketch.motor s') = LOW
  /\ Sep7a.dirPin (Sep7aSketch.motor s') = clockwise
  /\ Sep7aSketch.motorRunning s' = Sep7aSketch.motorRunning s
  /\ Sep7aSketch.CURTAIN_TIME s' = Sep7aSketch.CURTAIN_TIME s
  /\ Sep7aSketch.setMode s' = Sep7aSketch.setMode s
  /\ Sep7aSketch.timingInProgress s' = Sep7aSketch.timingInProgress s
  /\ Sep7aSketch.shutdownCount s' = Sep7aSketch.shutdownCount s
  /\ Sep7aSketch.lastShutdownTime s' = Sep7aSketch.lastShutdownTime s
  /\ Sep7aSketch.rom s' = Sep7aSketch.rom s.
Proof.
  unfold Sep7aSketch.smoothRotate, Sep7a.smoothRotate.
  destruct (Sep7a.ramp_loop _ _ _ _ _) as [ds b].
  destruct s, clockwise; cbn; repeat split.
Qed.

(** X14: the stop key of the earlier sketch has the code [0x0], which
    the filter of its [loop] rejects as an invalid signal in either
    mode. A stop key decoded on entry of [loop] therefore never reaches
    [handleIRCommand]: in set mode the pass changes nothing, so the
    calibration goes on, and outside set mode the pass is the one made
    when nothing was decoded. *)
Theorem sep7a_stop_key_never_dispatched i s d :
  Sep7aSketch.decoded i = Some d ->
  ir_command d = Sep7a.IR_KEY_SHUTDOWN ->
  Sep7aSketch.accepts_in_set_mode s d (Sep7aSketch.currentTime i) = false
  /\ Sep7aSketch.accepts_in_normal_mode s d (Sep7aSketch.currentTime i) = false
  /\ Sep7aSketch.loop i s
     = Some (if Sep7aSketch.setMode s then s else Sep7aSketch.calibration_step i s)
  /\ (Sep7aSketch.setMode s = false ->
      Sep7aSketch.loop i s
      = Sep7aSketch.loop
          {| Sep7aSketch.decoded := None;
             Sep7aSketch.currentTime := Sep7aSketch.currentTime i;
             Sep7aSketch.world := Sep7aSketch.world i;
             Sep7aSketch.cal_decoded := Sep7aSketch.cal_decoded i |} s).
Proof.
  intros Hdec Hstop.
  assert (Hset : Sep7aSketch.accepts_in_set_mode s d (Sep7aSketch.currentTime i) = false).
  { unfold Sep7aSketch.accepts_in_set_mode. rewrite Hstop. reflexivity. }
  assert (Hnormal : Sep7aSketch.accepts_in_normal_mode s d (Sep7aSketch.currentTime i)
                    = false).
  { unfold Sep7aSketch.accepts_in_normal_mode. rewrite Hstop. reflexivity. }
  assert (Hloop : Sep7aSketch.loop i s
            = Some (if Sep7aSketch.setMode s then s
                    else Sep7aSketch.calibration_step i s)).
  { unfold Sep7aSketch.loop. rewrite Hdec, Hset, Hnormal.
    now destruct (Sep7aSketch.setMode s). }
  repeat apply conj; try assumption.
  intros Hmode. rewrite Hloop, Hmode. unfold Sep7aSketch.loop. cbn.
  unfold Sep7aSketch.calibration_step. cbn. reflexivity.
Qed.

Lemma sep7a_stop_key_never_dispatched_witness :
  let s := Sep7aSketch.handleSetKey 1000 (Sep7aSketch.setup EEPROM.blank) in
  Sep7aSketch.setMode s = true
  /\ Sep7aSketch.loop (sep_key_press Sep7a.IR_KEY_SHUTDOWN 5000) s = Some s.
Proof.
  intros s. split; [reflexivity |].
  destruct (sep7a_stop_key_never_dispatched
              (sep_key_press Sep7a.IR_KEY_SHUTDOWN 5000) s
              (key_of Blind.IR_ADDRESS Sep7a.IR_KEY_SHUTDOWN) eq_refl eq_refl)
    as (_ & _ & Hloop & _).
  exact Hloop.
Defined.

Lemma sep_accepts_in_set_mode_key s d t :
  Sep7aSketch.accepts_in_set_mode s d t = true ->
  ir_command d = Sep7aSketch.IR_KEY_SET.
Proof.
  unfold Sep7aSketch.accepts_in_set_mode.
  rewrite !andb_true_iff, orb_true_iff, !negb_true_iff, !Z.eqb_eq, !Z.eqb_neq.
  unfold Sep7a.IR_KEY_SHUTDOWN. intros ((((((Hk & Hn) & _) & _) & _) & _) & _).
  destruct Hk; [assumption | contradiction].
Qed.

Lemma sep_accepts_in_normal_mode_key s d t :
  Sep7aSketch.accepts_in_normal_mode s d t = true -> ir_command d <> 0.
Proof.
  unfold Sep7aSketch.accepts_in_normal_mode.
  rewrite !andb_true_iff, !negb_true_iff, !Z.eqb_neq. tauto.
Qed.

Lemma sep_settled_handleIRCommand w command s s' :
  sep_settled s ->
  command <> 0 ->
  (Sep7aSketch.setMode s = true -> command = Sep7aSketch.IR_KEY_SET) ->
  Sep7aSketch.handleIRCommand w command s = Some s' ->
  sep_settled s'
  /\ (Sep7aSketch.rom s' = Sep7aSketch.rom s
      \/ (Sep7aSketch.setMode s = true /\ Sep7aSketch.setMode s' = false
          /\ command = Sep7aSketch.IR_KEY_SET
          /\ Sep7aSketch.rom s'
             = EEPROM.put_int 0
                 (s32 (u32 (Sep7aSketch.now w - Sep7aSketch.timingStart s)))
                 (Sep7aSketch.rom s))).
Proof.
  unfold sep_settled. intros (Hflag & Hcnt & Hlast & Htim & Hrun) Hnz Hkey.
  destruct (Sep7aSketch.setMode s) eqn:Hmode.
  - rewrite (Hkey eq_refl). cbn. intros H. injection H as <-.
    unfold Sep7aSketch.handleSetKey. rewrite Hmode.
    destruct s as [[]]; cbn in *. subst. split; [repeat split | right; repeat split].
  - clear Hkey. unfold Sep7aSketch.handleIRCommand.
    destruct (command =? Sep7aSketch.IR_KEY_UP).
    { intros H. apply sep_full_move_frame in H
        as (Hf & _ & _ & Hr & _ & Hm & Ht & Hn & Hl & Hrom).
      rewrite Hf, Hr, Hm, Ht, Hn, Hl, Hrom, Hmode. auto 10. }
    destruct (command =? Sep7aSketch.IR_KEY_DOWN).
    { intros H. apply sep_full_move_frame in H
        as (Hf & _ & _ & Hr & _ & Hm & Ht & Hn & Hl & Hrom).
      rewrite Hf, Hr, Hm, Ht, Hn, Hl, Hrom, Hmode. auto 10. }
    destruct (command =? Sep7aSketch.IR_KEY_LEFT).
    { intros H. injection H as <-.
      destruct (sep_smoothRotate_frame w Sep7a.nudge_steps false s)
        as (Hf & _ & _ & Hr & _ & Hm & Ht & Hn & Hl & Hrom).
      rewrite Hf, Hr, Hm, Ht, Hn, Hl, Hrom, Hmode, Hrun. auto 10. }
    destruct (command =? Sep7aSketch.IR_KEY_RIGHT).
    { intros H. injection H as <-.
      destruct (sep_smoothRotate_frame w Sep7a.nudge_steps true s)
        as (Hf & _ & _ & Hr & _ & Hm & Ht & Hn & Hl & Hrom).
      rewrite Hf, Hr, Hm, Ht, Hn, Hl, Hrom, Hmode, Hrun. auto 10. }
    destruct (command =? Sep7aSketch.IR_KEY_SET).
    { intros H. injection H as <-. unfold Sep7aSketch.handleSetKey. rewrite Hmode.
      destruct s as [[]]; cbn in *. subst. auto 10. }
    destruct (Z.eqb_spec command Sep7a.IR_KEY_SHUTDOWN) as [Hz | _];
      [unfold Sep7a.IR_KEY_SHUTDOWN in Hz; contradiction |].
    intros H. injection H as <-. rewrite Hmode. auto 10.
Qed.

Lemma sep_settled_calibration_step i s :
  sep_settled s ->
  sep_settled (Sep7aSketch.calibration_step i s)
  /\ Sep7aSketch.rom (Sep7aSketch.calibration_step i s) = Sep7aSketch.rom s.
Proof.
  unfold sep_settled, Sep7aSketch.calibration_step.
  intros (Hflag & Hcnt & Hlast & Htim & Hrun).
  destruct s as [[]]; cbn in *. subst.
  destruct setMode; cbn; case_ifs; auto 10.
Qed.

Lemma sep_settled_remember command t s :
  sep_settled s -> sep_settled (Sep7aSketch.remember command t s).
Proof. unfold sep_settled. now destruct s. Qed.

Lemma sep_settled_setup e : sep_settled (Sep7aSketch.setup e).
Proof.
  unfold sep_settled, Sep7aSketch.setup, Sep7aSketch.loadCurtainTime. cbn.
  destruct (_ && _); cbn; auto 10.
Qed.

Lemma sep_settled_loop i s s' :
  sep_settled s -> Sep7aSketch.loop i s = Some s' ->
  sep_settled s'
  /\ (Sep7aSketch.rom s' = Sep7aSketch.rom s
      \/ (Sep7aSketch.setMode s = true /\ Sep7aSketch.setMode s' = false
          /\ (exists d, Sep7aSketch.decoded i = Some d
                        /\ ir_command d = Sep7aSketch.IR_KEY_SET)
          /\ Sep7aSketch.rom s'
             = EEPROM.put_int 0
                 (s32 (u32 (Sep7aSketch.now (Sep7aSketch.world i)
                            - Sep7aSketch.timingStart s)))
                 (Sep7aSketch.rom s))).
Proof.
  unfold Sep7aSketch.loop. intros Hs H.
  destruct (Sep7aSketch.decoded i) as [d |].
  - destruct (Sep7aSketch.setMode s) eqn:Hmode.
    + destruct (Sep7aSketch.accepts_in_set_mode _ _ _) eqn:Hacc;
        [| injection H as <-; auto].
      pose proof (sep_accepts_in_set_mode_key _ _ _ Hacc) as Hkey.
      destruct (Sep7aSketch.handleIRCommand _ _ _) as [s1 |] eqn:Hh; [| discriminate].
      injection H as <-.
      destruct (sep_settled_handleIRCommand (Sep7aSketch.world i) (ir_command d) s s1 Hs)
        as [Hs1 Hrom]; [rewrite Hkey; discriminate | auto | exact Hh |].
      split; [now apply sep_settled_remember |].
      destruct Hrom as [Hrom | (_ & Hgone & _ & Hrom)].
      * left. rewrite <- Hrom. now destruct s1.
      * right. split; [reflexivity |]. split; [now destruct s1 |].
        split; [eauto |]. rewrite <- Hrom. now destruct s1.
    + destruct (Sep7aSketch.accepts_in_normal_mode _ _ _) eqn:Hacc.
      * pose proof (sep_accepts_in_normal_mode_key _ _ _ Hacc) as Hkey.
        destruct (Sep7aSketch.handleIRCommand _ _ _) as [s1 |] eqn:Hh; [| discriminate].
        injection H as <-.
        destruct (sep_settled_handleIRCommand (Sep7aSketch.world i) (ir_command d)
                    s s1 Hs Hkey) as [Hs1 Hrom]; [congruence | exact Hh |].
        destruct (sep_settled_calibration_step i
                    (Sep7aSketch.remember (ir_command d) (Sep7aSketch.currentTime i) s1)
                    (sep_settled_remember _ _ _ Hs1)) as [Hs2 Hrom2].
        split; [exact Hs2 |]. left. rewrite Hrom2.
        destruct Hrom as [Hrom | (Hcontra & _)]; [| congruence].
        rewrite <- Hrom. now destruct s1.
      * injection H as <-.
        destruct (sep_settled_calibration_step i s Hs) as [Hs2 Hrom2]. auto.
  - injection H as <-.
    destruct (sep_settled_calibration_step i s Hs) as [Hs2 Hrom2]. auto.
Qed.

Lemma sep_reachable_settled s : Sep7aSketch.reachable s -> sep_settled s.
Proof.
  induction 1 as [e | i s s' _ IH Hloop].
  - apply sep_settled_setup.
  - eapply sep_settled_loop; eauto.
Qed.

(** X15: in the earlier sketch, between two passes through [loop], the
    stop flag is down, the stop-press counter and its time stamp still
    have their initial value 0 and the mode flags agree: the triple-stop
    gesture never counts. A pass writes the EEPROM only when the set key
    ends a calibration, and what it then stores is the measured time. *)
Theorem sep7a_triple_stop_never_counts s :
  Sep7aSketch.reachable s ->
  Sep7a.stopRequested (Sep7aSketch.motor s) = false
  /\ Sep7aSketch.shutdownCount s = 0
  /\ Sep7aSketch.lastShutdownTime s = 0
  /\ Sep7aSketch.timingInProgress s = Sep7aSketch.setMode s
  /\ Sep7aSketch.motorRunning s = Sep7aSketch.setMode s
  /\ forall i s',
       Sep7aSketch.loop i s = Some s' ->
       Sep7aSketch.rom s' = Sep7aSketch.rom s
       \/ (Sep7aSketch.setMode s = true /\ Sep7aSketch.setMode s' = false
           /\ (exists d, Sep7aSketch.decoded i = Some d
                         /\ ir_command d = Sep7aSketch.IR_KEY_SET)
           /\ Sep7aSketch.rom s'
              = EEPROM.put_int 0
                  (s32 (u32 (Sep7aSketch.now (Sep7aSketch.world i)
                             - Sep7aSketch.timingStart s)))
                  (Sep7aSketch.rom s)).
Proof.
  intros Hreach. pose proof (sep_reachable_settled s Hreach) as Hs.
  destruct Hs as (H1 & H2 & H3 & H4 & H5) eqn:E. clear E.
  repeat apply conj; try assumption.
  intros i s' Hloop.
  apply (sep_settled_loop i s s' (conj H1 (conj H2 (conj H3 (conj H4 H5)))) Hloop).
Qed.

Lemma sep7a_triple_stop_never_counts_witness :
  exists s,
    Sep7aSketch.loop (sep_key_press Sep7aSketch.IR_KEY_LEFT 1000)
      (Sep7aSketch.setup EEPROM.blank) = Some s
    /\ Sep7aSketch.pulses s = 400%nat
    /\ Sep7a.stopRequested (Sep7aSketch.motor s) = false
    /\ Sep7aSketch.shutdownCount s = 0.
Proof.
  destruct (Sep7aSketch.loop (sep_key_press Sep7aSketch.IR_KEY_LEFT 1000)
              (Sep7aSketch.setup EEPROM.blank)) as [s |] eqn:Hloop;
    [| vm_compute in Hloop; discriminate].
  assert (Hreach : Sep7aSketch.reachable s)
    by (eapply Sep7aSketch.reach_loop; [apply Sep7aSketch.reach_setup | exact Hloop]).
  destruct (sep7a_triple_stop_never_counts s Hreach) as (Hflag & Hcnt & _).
  exists s. split; [reflexivity |]. split; [| auto].
  vm_compute in Hloop. injection Hloop as <-. reflexivity.
Defined.

(** X16: in the earlier sketch every roll and every nudge hands back a
    state with the driver still enabled, and the passes through [loop]
    that follow outside set mode with nothing decoded leave the state as
    it is: the driver stays enabled after a move. The up keys (UP, LEFT)
    set the DIR pin low and the down keys (DOWN, RIGHT) set it high. *)
Theorem sep7a_driver_stays_enabled w command s s' :
  command = Sep7aSketch.IR_KEY_UP \/ command = Sep7aSketch.IR_KEY_LEFT
  \/ command = Sep7aSketch.IR_KEY_DOWN \/ command = Sep7aSketch.IR_KEY_RIGHT ->
  Sep7aSketch.handleIRCommand w command s = Some s' ->
  Sep7a.enablePin (Sep7aSketch.motor s') = LOW
  /\ Sep7a.dirPin (Sep7aSketch.motor s')
     = ((command =? Sep7aSketch.IR_KEY_DOWN) || (command =? Sep7aSketch.IR_KEY_RIGHT))
  /\ Sep7a.stopRequested (Sep7aSketch.motor s') = false
  /\ forall i,
       Sep7aSketch.decoded i = None -> Sep7aSketch.setMode s' = false ->
       Sep7aSketch.loop i s' = Some s'.
Proof.
  intros Hkey Hrun.
  assert (Hidle : forall i,
            Sep7aSketch.decoded i = None -> Sep7aSketch.setMode s' = false ->
            Sep7aSketch.loop i s' = Some s').
  { intros i Hdec Hmode. unfold Sep7aSketch.loop, Sep7aSketch.calibration_step.
    now rewrite Hdec, Hmode. }
  destruct Hkey as [-> | [-> | [-> | ->]]]; cbn in Hrun.
  - apply sep_full_move_frame in Hrun as (Hf & He & Hd & _). auto.
  - injection Hrun as <-.
    destruct (sep_smoothRotate_frame w Sep7a.nudge_steps false s) as (Hf & He & Hd & _).
    auto.
  - apply sep_full_move_frame in Hrun as (Hf & He & Hd & _). auto.
  - injection Hrun as <-.
    destruct (sep_smoothRotate_frame w Sep7a.nudge_steps true s) as (Hf & He & Hd & _).
    auto.
Qed.

Lemma sep7a_driver_stays_enabled_witness :
  exists s',
    Sep7aSketch.handleIRCommand (sep_quiet_world 1000) Sep7aSketch.IR_KEY_UP
      (Sep7aSketch.setup EEPROM.blank) = Some s'
    /\ Sep7aSketch.pulses s' = 1250%nat
    /\ Sep7a.enablePin (Sep7aSketch.motor (Sep7aSketch.setup EEPROM.blank)) = HIGH
    /\ Sep7a.enablePin (Sep7aSketch.motor s') = LOW.
Proof.
  destruct (Sep7aSketch.handleIRCommand (sep_quiet_world 1000) Sep7aSketch.IR_KEY_UP
              (Sep7aSketch.setup EEPROM.blank)) as [s' |] eqn:Hrun;
    [| vm_compute in Hrun; discriminate].
  exists s'. split; [reflexivity |].
  split; [vm_compute in Hrun; injection Hrun as <-; reflexivity |].
  split; [reflexivity |].
  apply (sep7a_driver_stays_enabled (sep_quiet_world 1000) Sep7aSketch.IR_KEY_UP
           (Sep7aSketch.setup EEPROM.blank) s'); [left; reflexivity | exact Hrun].
Defined.

(** X17: in the earlier sketch a nudge key handled between two passes
    through [loop] always runs: when no poll decodes a valid stop key it
    makes all 400 steps of the 45 degree move, each with the delay of
    the speed ramp, whatever was pressed before. *)
Theorem sep7a_nudge_always_runs w s command :
  Sep7aSketch.reachable s ->
  (forall i c, Sep7aSketch.step_decode w i = Some c -> Sep7a.valid_stop c = false) ->
  command = Sep7aSketch.IR_KEY_LEFT \/ command = Sep7aSketch.IR_KEY_RIGHT ->
  exists s',
    Sep7aSketch.handleIRCommand w command s = Some s'
    /\ Sep7a.delays (Sep7aSketch.motor s')
       = Sep7a.delays (Sep7aSketch.motor s) ++ map (Sep7a.stepDelay 400) (seqZ 0 400)
    /\ Sep7aSketch.pulses s' = (Sep7aSketch.pulses s + 400)%nat
    /\ Sep7aSketch.rom s' = Sep7aSketch.rom s
    /\ Sep7aSketch.CURTAIN_TIME s' = Sep7aSketch.CURTAIN_TIME s.
Proof.
  intros Hreach Hquiet Hkey.
  destruct (sep_reachable_settled s Hreach) as (Hflag & _).
  assert (Hrun : forall clockwise,
            Sep7a.delays (Sep7aSketch.motor
                            (Sep7aSketch.smoothRotate w Sep7a.nudge_steps clockwise s))
            = Sep7a.delays (Sep7aSketch.motor s)
              ++ map (Sep7a.stepDelay 400) (seqZ 0 400)).
  { intros clockwise. unfold Sep7aSketch.smoothRotate, Sep7a.smoothRotate.
    rewrite Hflag, (ramp_loop_noise _ _ Hquiet).
    change Sep7a.nudge_steps with 400.
    rewrite ramp_loop_quiet by lia.
    replace (Z.of_nat (Z.to_nat 400)) with 400 by lia.
    now destruct s. }
  assert (Hlen : forall clockwise,
            Sep7aSketch.pulses (Sep7aSketch.smoothRotate w Sep7a.nudge_steps clockwise s)
            = (Sep7aSketch.pulses s + 400)%nat).
  { intros clockwise. unfold Sep7aSketch.pulses.
    rewrite Hrun, length_app, length_map, length_seqZ. reflexivity. }
  destruct Hkey as [-> | ->]; cbn; eexists; (split; [reflexivity |]).
  - destruct (sep_smoothRotate_frame w Sep7a.nudge_steps false s)
      as (_ & _ & _ & _ & Hc & _ & _ & _ & _ & Hr). auto.
  - destruct (sep_smoothRotate_frame w Sep7a.nudge_steps true s)
      as (_ & _ & _ & _ & Hc & _ & _ & _ & _ & Hr). auto.
Qed.

Lemma sep7a_nudge_always_runs_witness :
  exists s',
    Sep7aSketch.handleIRCommand (sep_quiet_world 1000) Sep7aSketch.IR_KEY_RIGHT
      (Sep7aSketch.setup EEPROM.blank) = Some s'
    /\ Sep7aSketch.pulses s' = 400%nat.
Proof.
  destruct (sep7a_nudge_always_runs (sep_quiet_world 1000)
              (Sep7aSketch.setup EEPROM.blank) Sep7aSketch.IR_KEY_RIGHT)
    as (s' & Hrun & _ & Hp & _).
  - apply Sep7aSketch.reach_setup.
  - intros i c H. discriminate.
  - right. reflexivity.
  - exists s'. auto.
Defined.

(** ** The angle moves of the earlier sketch *)

Section AngleMove.
Variable decode_at : Z -> option IRData.
Variable steps : Z.
Hypothesis quiet : forall i c, decode_at i = Some c -> Sep7a.valid_stop c = false.

Lemma turn_loop_runs_out : forall (n : nat) i,
  i + Z.of_nat n <= steps ->
  Sep7aSketch.turn_loop decode_at steps n i false = (n, false).
Proof.
  induction n as [| n IH]; intros i Hle; [reflexivity |].
  cbn [Sep7aSketch.turn_loop].
  destruct (Z.ltb_spec i steps); [| lia]. cbn [andb negb].
  rewrite IH by lia.
  destruct (Z.rem i 50 =? 0); [| reflexivity].
  destruct (decode_at i) as [c |] eqn:Hc; [| reflexivity].
  now rewrite (quiet _ _ Hc).
Qed.

Lemma turn_loop_stopped n i : fst (Sep7aSketch.turn_loop decode_at steps n i true) = O.
Proof. destruct n; cbn; [reflexivity |]. now rewrite andb_false_r. Qed.
End AngleMove.

Lemma steps_of_degrees_spec degrees :
  - 671088 <= degrees <= 671088 ->
  Sep7aSketch.steps_of_degrees degrees = degrees * 3200 ÷ 360.
Proof.
  intros H. unfold Sep7aSketch.steps_of_degrees.
  change Sep7a.TOTAL_STEPS with 3200. now rewrite s32_small by lia.
Qed.

(** X18: [rotateClockwise] and [rotateCounterClockwise] of the earlier
    sketch, for an angle between -671088 and 671088 degrees (no [int]
    overflow) and with no valid stop key at the polls: with the stop
    flag down they make [degrees * 3200 / 360] steps, none for a
    negative angle; with the flag up they make none. Either way they
    leave the flag down and the driver enabled, the DIR pin high for the
    clockwise and low for the counter-clockwise call, and do not touch
    the duration or the EEPROM. *)
Theorem angle_move_steps clockwise w degrees s :
  - 671088 <= degrees <= 671088 ->
  (forall i c, Sep7aSketch.step_decode w i = Some c -> Sep7a.valid_stop c = false) ->
  let s' := Sep7aSketch.rotateDegrees clockwise w degrees s in
  Sep7aSketch.pulses s'
  = (Sep7aSketch.pulses s
     + (if Sep7a.stopRequested (Sep7aSketch.motor s) then 0
        else Z.to_nat (degrees * 3200 ÷ 360)))%nat
  /\ Sep7a.stopRequested (Sep7aSketch.motor s') = false
  /\ Sep7a.enablePin (Sep7aSketch.motor s') = LOW
  /\ Sep7a.dirPin (Sep7aSketch.motor s') = clockwise
  /\ Sep7aSketch.CURTAIN_TIME s' = Sep7aSketch.CURTAIN_TIME s
  /\ Sep7aSketch.rom s' = Sep7aSketch.rom s.
Proof.
  intros Hrange Hquiet s'. subst s'. unfold Sep7aSketch.rotateDegrees.
  rewrite steps_of_degrees_spec by assumption.
  replace (Sep7a.stopRequested _) with (Sep7a.stopRequested (Sep7aSketch.motor s))
    by (now destruct s as [[]]).
  destruct (Sep7a.stopRequested (Sep7aSketch.motor s)) eqn:Hflag.
  - pose proof (turn_loop_stopped (Sep7aSketch.step_decode w) (degrees * 3200 ÷ 360)
                  (Z.to_nat (degrees * 3200 ÷ 360)) 0) as Hzero.
    destruct (Sep7aSketch.turn_loop _ _ _ _ _) as [k b]. cbn in Hzero. subst k.
    unfold Sep7aSketch.pulses.
    destruct s as [[]], clockwise; cbn; rewrite ?length_app, ?length_replicate;
      repeat split.
  - assert (Hrun : Sep7aSketch.turn_loop (Sep7aSketch.step_decode w)
                     (degrees * 3200 ÷ 360) (Z.to_nat (degrees * 3200 ÷ 360)) 0 false
                   = (Z.to_nat (degrees * 3200 ÷ 360), false)).
    { destruct (Z.lt_ge_cases (degrees * 3200 ÷ 360) 0) as [Hneg | Hpos].
      - replace (Z.to_nat (degrees * 3200 ÷ 360)) with O by lia. reflexivity.
      - apply (turn_loop_runs_out _ _ Hquiet). lia. }
    rewrite Hrun. unfold Sep7aSketch.pulses.
    destruct s as [[]], clockwise; cbn; rewrite ?length_app, ?length_replicate;
      repeat split.
Qed.

Lemma angle_move_steps_witness :
  Sep7aSketch.pulses
    (Sep7aSketch.rotateClockwise (sep_quiet_world 1000) 360 (Sep7aSketch.setup EEPROM.blank))
  = 3200%nat
  /\ Sep7aSketch.pulses
       (Sep7aSketch.rotateCounterClockwise (sep_quiet_world 1000) (-90)
          (Sep7aSketch.setup EEPROM.blank))
     = 0%nat.
Proof.
  split.
  - refine (eq_trans (proj1 (angle_move_steps true (sep_quiet_world 1000) 360
                               (Sep7aSketch.setup EEPROM.blank) _ _)) _).
    + lia.
    + intros i c H. discriminate.
    + vm_compute. reflexivity.
  - refine (eq_trans (proj1 (angle_move_steps false (sep_quiet_world 1000) (-90)
                               (Sep7aSketch.setup EEPROM.blank) _ _)) _).
    + lia.
    + intros i c H. discriminate.
    + vm_compute. reflexivity.
Defined.
